(** * Sound-Assessment: the Drive/Sheets synchronisation scripts

    A shallow embedding of the four Python scripts of the repository
    (two sheet updaters, two uploaders) and the properties of their
    resolution, matching, parsing and batching logic.

    Python values are modelled as follows.
    - A [str] is the list of its Unicode code points ([list N]).
    - A value that may be [None] is an [option]; the truth value the
      scripts take of it ([if not x]) is [truthy].
    - The Drive and Sheets services are records of functions over a fixed
      snapshot.  Listings and downloads always answer; the Sheets
      requests, which the scripts guard with [try], may raise HttpError.
    - A dict used for lookups is a [gmap]; a dict that is iterated is the
      list of its items in order.
    - A function that changes the list of updates, sends a request or
      prints takes the state of the run and returns the new one; an
      exception that leaves a loop is returned next to the state.
    - A [while] loop over a deque is defined by well-founded recursion.

    Left out: [authenticate] and the construction of the services, the
    diagnostic lines of [dbg], and the upload of file contents. *)

From Stdlib Require Import String Ascii ZArith NArith List Bool Lia ZifyBool Sorted.
From Equations Require Import Equations.
From stdpp Require Import gmap list.
Import ListNotations.
Local Open Scope N_scope.

(** ** Python built-ins used by the scripts *)

Module Py.

Abbreviation pystr := (list N).

(** An ASCII literal as a Python string. *)
Fixpoint py (s : string) : pystr :=
  match s with
  | EmptyString => []
  | String a s' => N_of_ascii a :: py s'
  end.

(** Truth value of a str-or-None: [None] and [''] are falsy. *)
Definition truthy (x : option pystr) : bool :=
  match x with
  | Some (_ :: _) => true
  | _ => false
  end.

Definition is_ascii_digit (c : N) : bool := (48 <=? c) && (c <=? 57).
Definition is_ascii_upper (c : N) : bool := (65 <=? c) && (c <=? 90).
Definition is_ascii_lower (c : N) : bool := (97 <=? c) && (c <=? 122).

(** The character class [A-Za-z0-9]. *)
Definition is_ascii_alnum (c : N) : bool :=
  is_ascii_upper c || is_ascii_lower c || is_ascii_digit c.

(** [str.upper] and [str.lower] on one code point.  Only the ASCII part
    of the case mapping is given: the scripts upper-case strings already
    reduced to [A-Za-z0-9], and lower-case a name only to test an ASCII
    suffix holding neither [i] nor [k], the two ASCII letters that a
    non-ASCII code point (U+0130, U+212A) lower-cases to. *)
Definition ascii_upper (c : N) : N := if is_ascii_lower c then c - 32 else c.
Definition ascii_lower (c : N) : N := if is_ascii_upper c then c + 32 else c.
Definition upper (s : pystr) : pystr := map ascii_upper s.
Definition lower (s : pystr) : pystr := map ascii_lower s.

(** [str.isspace] on one code point. *)
Definition isspace (c : N) : bool :=
  ((9 <=? c) && (c <=? 13)) || ((28 <=? c) && (c <=? 32))
  || (c =? 133) || (c =? 160) || (c =? 5760)
  || ((8192 <=? c) && (c <=? 8202))
  || (c =? 8232) || (c =? 8233) || (c =? 8239) || (c =? 8287) || (c =? 12288).

(** Line boundaries of [str.splitlines]. *)
Definition is_linebreak (c : N) : bool :=
  ((10 <=? c) && (c <=? 13)) || ((28 <=? c) && (c <=? 30))
  || (c =? 133) || (c =? 8232) || (c =? 8233).

(** The zero of every run of ten decimal digits (category Nd). *)
Definition nd_zeros : list N :=
  [48; 1632; 1776; 1984; 2406; 2534; 2662; 2790; 2918; 3046; 3174; 3302;
   3430; 3558; 3664; 3792; 3872; 4160; 4240; 6112; 6160; 6470; 6608; 6784;
   6800; 6992; 7088; 7232; 7248; 42528; 43216; 43264; 43472; 43504; 43600;
   44016; 65296; 66720; 68912; 69734; 69872; 69942; 70096; 70384; 70736;
   70864; 71248; 71360; 71472; 71904; 72016; 72784; 73040; 73120; 92768;
   92864; 93008; 120782; 120792; 120802; 120812; 120822; 123200; 123632;
   125264; 130032].

(** Decimal value of a code point, if it is a decimal digit. *)
Definition decimal_value (c : N) : option N :=
  match List.find (fun z => (z <=? c) && (c <? z + 10)) nd_zeros with
  | Some z => Some (c - z)
  | None => None
  end.

(** The regex class [\d] on str patterns, and [str.isdecimal]. *)
Definition isdecimal (c : N) : bool :=
  match decimal_value c with
  | Some _ => true
  | None => false
  end.

Fixpoint startswith (s p : pystr) {struct p} : bool :=
  match p, s with
  | [], _ => true
  | a :: p', b :: s' => (a =? b) && startswith s' p'
  | _ :: _, [] => false
  end.

Definition endswith (s suffix : pystr) : bool :=
  startswith (rev s) (rev suffix).

(** [s.replace(old, new)] for a non-empty [old]: occurrences are replaced
    left to right and do not overlap; [skip] counts the characters of an
    occurrence still to be dropped. *)
Fixpoint replace_from (old new : pystr) (skip : nat) (s : pystr) : pystr :=
  match s with
  | [] => []
  | c :: s' =>
      match skip with
      | S k => replace_from old new k s'
      | O =>
          if startswith s old
          then new ++ replace_from old new (length old - 1) s'
          else c :: replace_from old new 0 s'
      end
  end.

Definition replace (s old new : pystr) : pystr :=
  match old with
  | [] => new ++ flat_map (fun c => c :: new) s
  | _ :: _ => replace_from old new 0 s
  end.

(** [x in s] for a one-character [x]. *)
Definition contains_char (s : pystr) (c : N) : bool := existsb (N.eqb c) s.

(** [s.split()]: maximal runs of non-whitespace. *)
Fixpoint split_from (cur : pystr) (s : pystr) : list pystr :=
  match s with
  | [] => match cur with [] => [] | _ :: _ => [cur] end
  | c :: s' =>
      if isspace c
      then match cur with
           | [] => split_from [] s'
           | _ :: _ => cur :: split_from [] s'
           end
      else split_from (cur ++ [c]) s'
  end.

Definition split (s : pystr) : list pystr := split_from [] s.

(** [s.splitlines()]: CR LF counts as one boundary, and a final boundary
    opens no further line. *)
Fixpoint splitlines_from (cur : pystr) (s : pystr) : list pystr :=
  match s with
  | [] => match cur with [] => [] | _ :: _ => [cur] end
  | c :: s' =>
      if is_linebreak c
      then match s' with
           | 10 :: s'' =>
               if c =? 13 then cur :: splitlines_from [] s''
               else cur :: splitlines_from [] s'
           | _ => cur :: splitlines_from [] s'
           end
      else splitlines_from (cur ++ [c]) s'
  end.

Definition splitlines (s : pystr) : list pystr := splitlines_from [] s.

Fixpoint lstrip (s : pystr) : pystr :=
  match s with
  | [] => []
  | c :: s' => if isspace c then lstrip s' else s
  end.

Definition strip (s : pystr) : pystr := rev (lstrip (rev (lstrip s))).

(** Order of str values: lexicographic on code points. *)
Fixpoint str_leb (a b : pystr) : bool :=
  match a, b with
  | [], _ => true
  | _ :: _, [] => false
  | x :: a', y :: b' => (x <? y) || ((x =? y) && str_leb a' b')
  end.

(** *** Regular expressions

    The patterns of the scripts are plain sequences of one-character
    atoms, so a match attempt at a position has no choice to make. *)

Inductive atom :=
| Lit (c : N)               (* a character that has no case *)
| LitI (c : N)              (* a letter under re.IGNORECASE *)
| Digit                     (* \d *)
| Class (cs : list N).      (* [...] of caseless characters *)

(** The non-ASCII code points that re.IGNORECASE identifies with an
    ASCII letter. *)
Definition ignorecase_extra (c : N) : list N :=
  if ascii_lower c =? 105 then [304; 305]
  else if ascii_lower c =? 107 then [8490]
  else if ascii_lower c =? 115 then [383]
  else [].

Definition atom_accepts (a : atom) (ch : N) : bool :=
  match a with
  | Lit c => ch =? c
  | LitI c => (ascii_lower ch =? ascii_lower c) || existsb (N.eqb ch) (ignorecase_extra c)
  | Digit => isdecimal ch
  | Class cs => existsb (N.eqb ch) cs
  end.

(** Match the pattern at the start of [s]: the matched text and the rest. *)
Fixpoint match_prefix (p : list atom) (s : pystr) : option (pystr * pystr) :=
  match p with
  | [] => Some ([], s)
  | a :: p' =>
      match s with
      | [] => None
      | ch :: s' =>
          if atom_accepts a ch
          then match match_prefix p' s' with
               | Some (m, rest) => Some (ch :: m, rest)
               | None => None
               end
          else None
      end
  end.

(** [re.match(p, s)] as a truth value. *)
Definition re_match (p : list atom) (s : pystr) : bool :=
  match match_prefix p s with
  | Some _ => true
  | None => false
  end.

(** [$] without re.MULTILINE: at the end, or before a final newline. *)
Definition at_dollar (rest : pystr) : bool :=
  match rest with
  | [] => true
  | [c] => c =? 10
  | _ => false
  end.

(** [re.search] of a pattern, optionally followed by [$]: the text of the
    leftmost match. *)
Fixpoint re_search (p : list atom) (dollar : bool) (s : pystr) : option pystr :=
  match
    match match_prefix p s with
    | Some (m, rest) => if negb dollar || at_dollar rest then Some m else None
    | None => None
    end
  with
  | Some m => Some m
  | None =>
      match s with
      | [] => None
      | _ :: s' => re_search p dollar s'
      end
  end.

(** *** Integers *)

(** ASCII white space as C's [isspace] sees it. *)
Definition c_isspace (c : N) : bool := ((9 <=? c) && (c <=? 13)) || (c =? 32).

(** What [int] does to a str first: Unicode spaces become a blank and
    Unicode decimal digits their ASCII digit; any other non-ASCII
    character makes the conversion fail. *)
Definition to_ascii_char (c : N) : option N :=
  if c <? 128 then Some c
  else if isspace c then Some 32
  else match decimal_value c with
       | Some v => Some (48 + v)
       | None => None
       end.

Fixpoint to_ascii_decimal_and_space (s : pystr) : option pystr :=
  match s with
  | [] => Some []
  | c :: s' =>
      match to_ascii_char c with
      | Some c' =>
          match to_ascii_decimal_and_space s' with
          | Some r => Some (c' :: r)
          | None => None
          end
      | None => None
      end
  end.

Inductive int_scan := ScanStart | ScanDigit | ScanUnderscore.

(** Digits with single underscores between them, then blanks to the end. *)
Fixpoint int_digits (last : int_scan) (acc : Z) (s : pystr) : option Z :=
  match s with
  | [] => match last with ScanDigit => Some acc | _ => None end
  | c :: s' =>
      if is_ascii_digit c
      then int_digits ScanDigit (acc * 10 + Z.of_N (c - 48))%Z s'
      else if c =? 95
      then match last with
           | ScanDigit => int_digits ScanUnderscore acc s'
           | _ => None
           end
      else match last with
           | ScanDigit => if forallb c_isspace s then Some acc else None
           | _ => None
           end
  end.

Fixpoint c_lstrip (s : pystr) : pystr :=
  match s with
  | [] => []
  | c :: s' => if c_isspace c then c_lstrip s' else s
  end.

(** [int(s)] in base ten; [None] stands for ValueError.  (The limit on
    the number of digits of recent interpreters is left out.) *)
Definition int (s : pystr) : option Z :=
  match to_ascii_decimal_and_space s with
  | None => None
  | Some a =>
      match c_lstrip a with
      | 43 :: r => int_digits ScanStart 0 r
      | 45 :: r => Z.opp <$> int_digits ScanStart 0 r
      | r => int_digits ScanStart 0 r
      end
  end.

Fixpoint uint_chars (d : Decimal.uint) : pystr :=
  match d with
  | Decimal.Nil => []
  | Decimal.D0 d => 48 :: uint_chars d
  | Decimal.D1 d => 49 :: uint_chars d
  | Decimal.D2 d => 50 :: uint_chars d
  | Decimal.D3 d => 51 :: uint_chars d
  | Decimal.D4 d => 52 :: uint_chars d
  | Decimal.D5 d => 53 :: uint_chars d
  | Decimal.D6 d => 54 :: uint_chars d
  | Decimal.D7 d => 55 :: uint_chars d
  | Decimal.D8 d => 56 :: uint_chars d
  | Decimal.D9 d => 57 :: uint_chars d
  end.

Definition str_of_N (n : N) : pystr := uint_chars (N.to_uint n).

(** [str(n)], as an f-string renders an int. *)
Definition str_of_Z (n : Z) : pystr :=
  if (n <? 0)%Z then 45 :: str_of_N (Z.abs_N n) else str_of_N (Z.abs_N n).

(** [f"{n:03d}"]: sign first, then zeros up to a width of three. *)
Definition format_03d (n : Z) : pystr :=
  let sign := if (n <? 0)%Z then [45] else [] in
  let ds := str_of_N (Z.abs_N n) in
  sign ++ repeat 48 (3 - length sign - length ds) ++ ds.

(** [l.sort(key=...)] is stable: equal keys keep their order. *)
Section StableSort.
Context {A : Type} (key : A -> pystr).

Fixpoint insert_sorted (x : A) (l : list A) : list A :=
  match l with
  | [] => [x]
  | y :: l' => if str_leb (key x) (key y) then x :: l else y :: insert_sorted x l'
  end.

Fixpoint sort_by (l : list A) : list A :=
  match l with
  | [] => []
  | x :: l' => insert_sorted x (sort_by l')
  end.
End StableSort.

End Py.

Import Py.


(** ** What the scripts exchange with the outside *)

(** An entry of a Drive listing: the dict with keys id, name, mimeType. *)
Module DriveFile.
Record t := { id : pystr; name : pystr; mimeType : pystr }.
End DriveFile.

(** The Drive service on a fixed snapshot.  [pages parent] is the
    sequence of responses to the listing of the untrashed children of
    [parent], one per page; [media file] is the downloaded content,
    decoded. *)
Record DriveService := {
  pages : pystr -> list (list DriveFile.t);
  media : pystr -> pystr
}.

(** One entry of the batch payload: the dict with keys range, values. *)
Record SheetUpdate := { range : pystr; values : list (list pystr) }.

(** The Sheets service.  A read answers [None] when the request raises
    HttpError.  [spreadsheets_get] gives the titles of the tabs,
    [values_get r] the rows of range [r]; [values_batchUpdate] tells
    whether the batch is accepted. *)
Record SheetsService := {
  spreadsheets_get : option (list pystr);
  values_get : pystr -> option (list (list pystr));
  values_batchUpdate : list SheetUpdate -> bool
}.

Inductive sheets_call :=
| SpreadsheetsGet
| ValuesGet (r : pystr)
| ValuesBatchUpdate (data : list SheetUpdate).

Inductive exn := HttpError | ValueError | IndexError | KeyError | SystemExit (code : Z).

(** What [print] writes outside of [dbg]. *)
Inductive message :=
| MsgSheetsError
| MsgConfigError (available : list pystr)
| MsgWrote (cells : nat)
| MsgNoUpdates.

(** The state of one run of a sheet updater: the list [updates], the
    requests sent to the Sheets service so far, and the lines printed. *)
Record run := {
  updates : list SheetUpdate;
  calls : list sheets_call;
  out : list message
}.

Definition run0 : run := {| updates := []; calls := []; out := [] |}.

Definition call (c : sheets_call) (st : run) : run :=
  {| updates := updates st; calls := calls st ++ [c]; out := out st |}.

Definition print (m : message) (st : run) : run :=
  {| updates := updates st; calls := calls st; out := out st ++ [m] |}.

Definition append_update (u : SheetUpdate) (st : run) : run :=
  {| updates := updates st ++ [u]; calls := calls st; out := out st |}.

(** How a run of [main] ends. *)
Inductive outcome := Completed | Raised (e : exn).

Definition exit_status (o : outcome) : Z :=
  match o with
  | Completed => 0
  | Raised (SystemExit code) => code
  | Raised _ => 1
  end.

Definition FOLDER_MIME : pystr := py "application/vnd.google-apps.folder".

Definition is_folder (f : DriveFile.t) : bool :=
  bool_decide (DriveFile.mimeType f = FOLDER_MIME).

(** The atoms of a literal under re.IGNORECASE. *)
Definition ignorecase (s : string) : list atom :=
  map (fun c => if is_ascii_upper c || is_ascii_lower c then LitI c else Lit c) (py s).

Definition inspect {A} (a : A) : {b | a = b} := exist _ a eq_refl.

(** ** Sheet_Update_runt_this.py *)

Module Sheet_Update_runt_this.

Definition DRIVE_ROOT_FOLDER_ID : pystr := py "1AiDo1LcV6JSfPOi4x0I9z89QjFnYE3cn".
Definition SHEET_NAME : pystr := py "Main Sheet".
Definition TARGET_CLASSES : list pystr := [py "WPH 400"; py "WPH 603"].

(** [_(\d{3})_123_Report\.txt$] under re.IGNORECASE. *)
Definition INDEX_RE : list atom :=
  [Lit 95; Digit; Digit; Digit] ++ ignorecase "_123_Report.txt".

Definition INDEX_TO_DRIVE_PATH : gmap pystr (list pystr) :=
  list_to_map
    [ (py "000", [py "Local"; py "Without Audio"; py "Center"]);
      (py "001", [py "Local"; py "Without Audio"; py "Front_1"]);
      (py "002", [py "Local"; py "Without Audio"; py "Front_2"]);
      (py "003", [py "Local"; py "Without Audio"; py "Back_1"]);
      (py "004", [py "Local"; py "Without Audio"; py "Back_2"]);
      (py "005", [py "Local"; py "Without Audio"; py "Professor's Desk"]);
      (py "006", [py "Local"; py "With Audio"; py "Center"]);
      (py "007", [py "Local"; py "With Audio"; py "Front_1"]);
      (py "008", [py "Local"; py "With Audio"; py "Front_2"]);
      (py "009", [py "Local"; py "With Audio"; py "Back_1"]);
      (py "010", [py "Local"; py "With Audio"; py "Back_2"]);
      (py "011", [py "Local"; py "With Audio"; py "Professor's Desk"]);
      (py "012", [py "Remote_1"; py "Center"]);
      (py "013", [py "Remote_1"; py "Front_1"]);
      (py "014", [py "Remote_1"; py "Front_2"]);
      (py "015", [py "Remote_1"; py "Back_1"]);
      (py "016", [py "Remote_1"; py "Back_2"]);
      (py "017", [py "Remote_1"; py "Professor's Desk"]);
      (py "018", [py "Remote_2"]) ].

(** The items of INDEX_TO_COL, in the order the dict yields them. *)
Definition INDEX_TO_COL : list (pystr * pystr) :=
  [ (py "000", py "C"); (py "001", py "D"); (py "002", py "E"); (py "003", py "F");
    (py "004", py "G"); (py "005", py "H"); (py "006", py "J"); (py "007", py "K");
    (py "008", py "L"); (py "009", py "M"); (py "010", py "N"); (py "011", py "O");
    (py "012", py "Q"); (py "013", py "R"); (py "014", py "S"); (py "015", py "T");
    (py "016", py "U"); (py "017", py "V"); (py "018", py "X") ].

(** The first argument of the [replace] call of line 85.  The line reads
    [name.replace(''', "'").replace(''', "'")] with ASCII apostrophes, so
    the two triple quotes delimit one string literal, of fifteen
    characters: comma, blank, double quote, apostrophe, double quote, and
    [).replace(]. *)
Definition KEYIZE_OLD : pystr := py ", " ++ [34; 39; 34] ++ py ").replace(".

Definition _keyize (name : option pystr) : pystr :=
  match name with
  | None => []
  | Some [] => []
  | Some name =>
      let s := replace name KEYIZE_OLD (py "'") in
      let s := replace s (py "_") (py " ") in
      upper (List.filter is_ascii_alnum s)
  end.

(** The while loop runs once per page of the listing. *)
Definition list_children (svc : DriveService) (parent_id : pystr) : list DriveFile.t :=
  concat (pages svc parent_id).

Definition descend_to_folder (svc : DriveService) (parent_id name : pystr) : option pystr :=
  let target_key := _keyize (Some name) in
  match
    List.find
      (fun f => is_folder f && bool_decide (_keyize (Some (DriveFile.name f)) = target_key))
      (list_children svc parent_id)
  with
  | Some f => Some (DriveFile.id f)
  | None => None
  end.

Definition _list_named_child_folders (svc : DriveService) (parent_id name : pystr)
  : list DriveFile.t :=
  let target_key := _keyize (Some name) in
  List.filter
    (fun f => is_folder f && bool_decide (_keyize (Some (DriveFile.name f)) = target_key))
    (list_children svc parent_id).

Definition _is_report_file (name : pystr) : bool :=
  match name with
  | [] => false
  | _ :: _ =>
      let n := lower name in
      endswith n (py "_123_report.txt")
      || match re_search INDEX_RE true name with Some _ => true | None => false end
  end.

(** A bound on the iterations the probe still has to make for a folder
    that may be followed [r] more levels down. *)
Fixpoint probe_cost (svc : DriveService) (r : nat) (fid : pystr) : nat :=
  match r with
  | O => 1
  | S r' =>
      S (list_sum (map (fun ch => probe_cost svc r' (DriveFile.id ch))
                       (List.filter is_folder (list_children svc fid))))
  end.

Definition queue_cost (svc : DriveService) (max_depth : nat) (dq : list (pystr * nat)) : nat :=
  list_sum (map (fun it => probe_cost svc (S max_depth - snd it) (fst it)) dq).

(** The while loop of [_folder_has_any_report] on its deque. *)
Equations? probe_loop (svc : DriveService) (max_depth : nat) (dq : list (pystr * nat))
  : bool by wf (queue_cost svc max_depth dq) lt :=
  probe_loop svc max_depth [] := false;
  probe_loop svc max_depth ((fid, d) :: dq) with inspect (max_depth <? d)%nat => {
    | exist _ true _ := probe_loop svc max_depth dq;
    | exist _ false e with
        existsb (fun ch => negb (is_folder ch) && _is_report_file (DriveFile.name ch))
                (list_children svc fid) => {
        | true := true;
        | false :=
            probe_loop svc max_depth
              (dq ++ map (fun ch => (DriveFile.id ch, S d))
                         (List.filter is_folder (list_children svc fid))) } }.
Proof.
  - assert (H : forall r f, (1 <= probe_cost svc r f)%nat) by (intros [|r] f; simpl; lia).
    specialize (H (S max_depth - d)%nat fid).
    unfold queue_cost, list_sum. cbn [map fold_right fst snd]. lia.
  - apply Nat.ltb_ge in e.
    assert (Hc : forall (x : nat) l, list_sum (x :: l) = (x + list_sum l)%nat) by reflexivity.
    unfold queue_cost. rewrite map_app, list_sum_app, map_map.
    cbn [map fst snd]. rewrite Hc.
    replace (S max_depth - d)%nat with (S (max_depth - d)) by lia.
    cbn [probe_cost].
    change (fun x : DriveFile.t => probe_cost svc (S max_depth - S d) (DriveFile.id x))
      with (fun ch : DriveFile.t => probe_cost svc (max_depth - d) (DriveFile.id ch)).
    lia.
Qed.

Definition _folder_has_any_report (svc : DriveService) (folder_id : pystr) : bool :=
  probe_loop svc 6 [(folder_id, 0%nat)].

Definition choose_class_folder_with_content (svc : DriveService) (parent_id class_name : pystr)
  : option pystr :=
  let candidates := _list_named_child_folders svc parent_id class_name in
  match candidates with
  | [] => None
  | first :: _ =>
      match List.find (fun cand => _folder_has_any_report svc (DriveFile.id cand)) candidates with
      | Some cand => Some (DriveFile.id cand)
      | None => Some (DriveFile.id first)
      end
  end.

Definition find_report_file (svc : DriveService) (folder_id : pystr) : option (pystr * pystr) :=
  match
    List.find (fun f => negb (is_folder f) && _is_report_file (DriveFile.name f))
              (list_children svc folder_id)
  with
  | Some f => Some (DriveFile.id f, DriveFile.name f)
  | None => None
  end.

Definition download_file_text (svc : DriveService) (file_id : pystr) : pystr :=
  media svc file_id.

(** [\d{4}-\d{2}-\d{2}] and [\d{2}:\d{2}:\d{2}]. *)
Definition DATE_RE : list atom :=
  [Digit; Digit; Digit; Digit; Lit 45; Digit; Digit; Lit 45; Digit; Digit].
Definition TIME_RE : list atom :=
  [Digit; Digit; Lit 58; Digit; Digit; Lit 58; Digit; Digit].

(** The condition of the [if] of [extract_laeq] on the tokens of a line. *)
Definition data_line (toks : list pystr) : bool :=
  match toks with
  | t0 :: t1 :: t2 :: t3 :: _ :: _ =>
      re_match DATE_RE t0 && re_match TIME_RE t1 && re_match DATE_RE t2 && re_match TIME_RE t3
  | _ => false
  end.

Fixpoint extract_laeq_lines (lines : list pystr) : option pystr :=
  match lines with
  | [] => None
  | line :: rest =>
      let toks := split line in
      if data_line toks then nth_error toks 4 else extract_laeq_lines rest
  end.

Definition extract_laeq (text : pystr) : option pystr :=
  extract_laeq_lines (splitlines text).

(** The [enumerate(resp, start=4)] loop that fills the dict [m]. *)
Fixpoint rows_to_map (idx : Z) (resp : list (list pystr)) (m : gmap pystr Z) : gmap pystr Z :=
  match resp with
  | [] => m
  | row :: rest =>
      rows_to_map (idx + 1)%Z rest
        match row with
        | cell :: _ =>
            if truthy (Some (strip cell)) then <[_keyize (Some (strip cell)) := idx]> m else m
        | [] => m
        end
  end.

Definition map_sheet_rows (svc : SheetsService) (st : run) : run * (gmap pystr Z + exn) :=
  let st := call SpreadsheetsGet st in
  match spreadsheets_get svc with
  | None => (print MsgSheetsError st, inr (SystemExit 1))
  | Some available =>
      if bool_decide (SHEET_NAME ∈ available)
      then
        let r := SHEET_NAME ++ py "!A4:A240" in
        let st := call (ValuesGet r) st in
        match values_get svc r with
        | None => (print MsgSheetsError st, inr (SystemExit 1))
        | Some resp => (st, inl (rows_to_map 4 resp ∅))
        end
      else (print (MsgConfigError available) st, inr (SystemExit 1))
  end.

(** The spelling tried when a segment is not found as configured. *)
Definition alt (seg : pystr) : pystr :=
  if contains_char seg 95
  then replace seg (py "_") (py " ")
  else replace seg (py " ") (py "_").

(** One turn of the loop over the segments of a path: [next_id] after
    the primary attempt and, if that is falsy, the attempt on [alt]. *)
Definition resolve_segment (svc : DriveService) (fid seg : pystr) : option pystr :=
  let next_id := descend_to_folder svc fid seg in
  if truthy next_id then next_id else descend_to_folder svc fid (alt seg).

(** The loop over the segments: the folder reached, or [None] after the
    [break]. *)
Fixpoint walk_path (svc : DriveService) (fid : pystr) (segs : list pystr) : option pystr :=
  match segs with
  | [] => Some fid
  | seg :: rest =>
      let next_id := resolve_segment svc fid seg in
      if truthy next_id then walk_path svc (default [] next_id) rest else None
  end.

(** The body of the loop over INDEX_TO_COL for one item. *)
Definition index_step (svc : DriveService) (c_id : pystr) (row : Z)
    (item : pystr * pystr) (st : run) : run + exn :=
  let '(idx, col) := item in
  match INDEX_TO_DRIVE_PATH !! idx with
  | None => inr KeyError
  | Some path =>
      let fid := walk_path svc c_id path in
      if negb (truthy fid) then inl st
      else
        match find_report_file svc (default [] fid) with
        | None => inl st
        | Some (file_id, fname) =>
            if negb (truthy (Some file_id)) then inl st
            else
              let text := download_file_text svc file_id in
              match extract_laeq text with
              | None => inl st
              | Some laeq =>
                  inl (append_update
                         {| range := SHEET_NAME ++ py "!" ++ col ++ str_of_Z row;
                            values := [[laeq]] |} st)
              end
        end
  end.

Fixpoint index_loop (svc : DriveService) (c_id : pystr) (row : Z)
    (items : list (pystr * pystr)) (st : run) : run * option exn :=
  match items with
  | [] => (st, None)
  | item :: rest =>
      match index_step svc c_id row item st with
      | inl st' => index_loop svc c_id row rest st'
      | inr e => (st, Some e)
      end
  end.

(** The body of the loop over TARGET_CLASSES for one class. *)
Definition class_step (svc : DriveService) (class_map : gmap pystr Z)
    (class_name : pystr) (st : run) : run * option exn :=
  match split class_name with
  | [] => (st, Some IndexError)
  | building :: _ =>
      let b_id := descend_to_folder svc DRIVE_ROOT_FOLDER_ID building in
      if negb (truthy b_id) then (st, None)
      else
        let c_id := choose_class_folder_with_content svc (default [] b_id) class_name in
        if negb (truthy c_id) then (st, None)
        else
          let key := _keyize (Some class_name) in
          match class_map !! key with
          | None => (st, None)
          | Some row =>
              if (row =? 0)%Z then (st, None)
              else index_loop svc (default [] c_id) row INDEX_TO_COL st
          end
  end.

Fixpoint class_loop (svc : DriveService) (class_map : gmap pystr Z)
    (classes : list pystr) (st : run) : run * option exn :=
  match classes with
  | [] => (st, None)
  | class_name :: rest =>
      match class_step svc class_map class_name st with
      | (st', None) => class_loop svc class_map rest st'
      | (st', Some e) => (st', Some e)
      end
  end.

(** The last statement of [main]: one batchUpdate request with the whole
    list, or the notice that there is nothing to write. *)
Definition write_updates (sheets_svc : SheetsService) (st : run) : run * outcome :=
  match updates st with
  | [] => (print MsgNoUpdates st, Completed)
  | _ :: _ =>
      let st' := call (ValuesBatchUpdate (updates st)) st in
      if values_batchUpdate sheets_svc (updates st)
      then (print (MsgWrote (length (updates st))) st', Completed)
      else (st', Raised HttpError)
  end.

Definition main (drive_svc : DriveService) (sheets_svc : SheetsService) : run * outcome :=
  match map_sheet_rows sheets_svc run0 with
  | (st, inr e) => (st, Raised e)
  | (st, inl class_map) =>
      match class_loop drive_svc class_map TARGET_CLASSES st with
      | (st', Some e) => (st', Raised e)
      | (st', None) => write_updates sheets_svc st'
      end
  end.

End Sheet_Update_runt_this.

(** ** Sheet_update_new_remote.py *)

Module Sheet_update_new_remote.

Definition DRIVE_ROOT_FOLDER_ID : pystr := py "1T4lh501yhxxfhmzRMwLpBqKt5kpH4U2f".
Definition SHEET_NAME : pystr := py "Main Sheet".
Definition TARGET_CLASSES : list pystr := [py "SOS B37"].

(** [_(\d{3})_123_Report\.txt$] under re.IGNORECASE; group 1 is made of
    the three characters after the first. *)
Definition INDEX_RE : list atom :=
  [Lit 95; Digit; Digit; Digit] ++ ignorecase "_123_Report.txt".

Definition INDEX_RE_group1 (m : pystr) : pystr := firstn 3 (skipn 1 m).

Definition _keyize (name : option pystr) : pystr :=
  match name with
  | None => []
  | Some [] => []
  | Some name =>
      let s := replace name (py "_") (py " ") in
      upper (List.filter is_ascii_alnum s)
  end.

Definition list_children (svc : DriveService) (parent_id : pystr) : list DriveFile.t :=
  concat (pages svc parent_id).

(** The pair (id, name) of the folder found; [None] is (None, None). *)
Definition descend_to_folder (svc : DriveService) (parent_id name : pystr)
  : option (pystr * pystr) :=
  let target_key := _keyize (Some name) in
  match
    List.find
      (fun f => is_folder f && bool_decide (_keyize (Some (DriveFile.name f)) = target_key))
      (list_children svc parent_id)
  with
  | Some f => Some (DriveFile.id f, DriveFile.name f)
  | None => None
  end.

Definition _list_named_child_folders (svc : DriveService) (parent_id name : pystr)
  : list DriveFile.t :=
  let target_key := _keyize (Some name) in
  List.filter
    (fun f => is_folder f && bool_decide (_keyize (Some (DriveFile.name f)) = target_key))
    (list_children svc parent_id).

Definition has_index (name : pystr) : bool :=
  match re_search INDEX_RE true name with
  | Some _ => true
  | None => false
  end.

(** The [for] loop over the children of one folder inside the probe:
    [None] when it returns True, else the deque after the appends. *)
Fixpoint probe_children (d : nat) (children : list DriveFile.t) (dq : list (pystr * nat))
  : option (list (pystr * nat)) :=
  match children with
  | [] => Some dq
  | ch :: rest =>
      if negb (is_folder ch) && has_index (DriveFile.name ch) then None
      else if is_folder ch then probe_children d rest (dq ++ [(DriveFile.id ch, S d)])
      else probe_children d rest dq
  end.

Fixpoint probe_cost (svc : DriveService) (r : nat) (fid : pystr) : nat :=
  match r with
  | O => 1
  | S r' =>
      S (list_sum (map (fun ch => probe_cost svc r' (DriveFile.id ch))
                       (List.filter is_folder (list_children svc fid))))
  end.

Definition queue_cost (svc : DriveService) (max_depth : nat) (dq : list (pystr * nat)) : nat :=
  list_sum (map (fun it => probe_cost svc (S max_depth - snd it) (fst it)) dq).

Equations? probe_loop (svc : DriveService) (max_depth : nat) (dq : list (pystr * nat))
  : bool by wf (queue_cost svc max_depth dq) lt :=
  probe_loop svc max_depth [] := false;
  probe_loop svc max_depth ((fid, d) :: dq) with inspect (max_depth <? d)%nat => {
    | exist _ true _ := probe_loop svc max_depth dq;
    | exist _ false e with inspect (probe_children d (list_children svc fid) dq) => {
        | exist _ None _ := true;
        | exist _ (Some dq') e' := probe_loop svc max_depth dq' } }.
Proof.
  - assert (H : forall r f, (1 <= probe_cost svc r f)%nat) by (intros [|r] f; simpl; lia).
    specialize (H (S max_depth - d)%nat fid).
    unfold queue_cost, list_sum. cbn [map fold_right fst snd]. lia.
  - apply Nat.ltb_ge in e.
    assert (Hc : forall (x : nat) l, list_sum (x :: l) = (x + list_sum l)%nat) by reflexivity.
    assert (Hq : forall children q q',
               probe_children d children q = Some q' ->
               q' = q ++ map (fun ch => (DriveFile.id ch, S d)) (List.filter is_folder children)).
    { induction children as [|ch rest IH]; simpl; intros q q' Hs.
      - injection Hs as <-. now rewrite app_nil_r.
      - destruct (is_folder ch); simpl in Hs.
        + apply IH in Hs. rewrite Hs, <- app_assoc. reflexivity.
        + destruct (has_index (DriveFile.name ch)); [discriminate | now apply IH]. }
    apply Hq in e'. subst dq'.
    unfold queue_cost. rewrite map_app, list_sum_app, map_map.
    cbn [map fst snd]. rewrite Hc.
    replace (S max_depth - d)%nat with (S (max_depth - d)) by lia.
    cbn [probe_cost].
    change (fun x : DriveFile.t => probe_cost svc (S max_depth - S d) (DriveFile.id x))
      with (fun ch : DriveFile.t => probe_cost svc (max_depth - d) (DriveFile.id ch)).
    lia.
Qed.

Definition _folder_has_any_report (svc : DriveService) (folder_id : pystr) : bool :=
  probe_loop svc 6 [(folder_id, 0%nat)].

Definition choose_class_folder_with_content (svc : DriveService) (parent_id class_name : pystr)
  : option pystr :=
  let candidates := _list_named_child_folders svc parent_id class_name in
  match candidates with
  | [] => None
  | first :: _ =>
      match List.find (fun cand => _folder_has_any_report svc (DriveFile.id cand)) candidates with
      | Some cand => Some (DriveFile.id cand)
      | None => Some (DriveFile.id first)
      end
  end.

Definition is_target_report_for_index (name idx : pystr) : bool :=
  match re_search INDEX_RE true name with
  | Some m => bool_decide (INDEX_RE_group1 m = idx)
  | None => false
  end.

(** A bound on the folders the walk still has to list below a folder
    that may be followed [r] more levels down. *)
Fixpoint walk_cost (svc : DriveService) (r : nat) (fid : pystr) : nat :=
  match r with
  | O => 1
  | S r' =>
      S (list_sum (map (fun ch => walk_cost svc r' (DriveFile.id ch))
                       (List.filter is_folder (list_children svc fid))))
  end.

Definition walk_queue_cost (svc : DriveService) (max_depth : nat) (dq : list (pystr * nat)) : nat :=
  list_sum (map (fun it => walk_cost svc (max_depth - snd it) (fst it)) dq).

(** The generator [list_files_recursive], as the list of what it yields. *)
Equations? list_files_loop (svc : DriveService) (max_depth : nat) (dq : list (pystr * nat))
  : list DriveFile.t by wf (walk_queue_cost svc max_depth dq) lt :=
  list_files_loop svc max_depth [] := [];
  list_files_loop svc max_depth ((fid, d) :: dq) with inspect (d <? max_depth)%nat => {
    | exist _ true e :=
        List.filter (fun ch => negb (is_folder ch)) (list_children svc fid)
        ++ list_files_loop svc max_depth
             (dq ++ map (fun ch => (DriveFile.id ch, S d))
                        (List.filter is_folder (list_children svc fid)));
    | exist _ false _ :=
        List.filter (fun ch => negb (is_folder ch)) (list_children svc fid)
        ++ list_files_loop svc max_depth dq }.
Proof.
  - apply Nat.ltb_lt in e.
    assert (Hc : forall (x : nat) l, list_sum (x :: l) = (x + list_sum l)%nat) by reflexivity.
    unfold walk_queue_cost. rewrite map_app, list_sum_app, map_map.
    cbn [map fst snd]. rewrite Hc.
    replace (max_depth - d)%nat with (S (max_depth - S d)) by lia.
    cbn [walk_cost]. lia.
  - assert (H : forall r f, (1 <= walk_cost svc r f)%nat) by (intros [|r] f; simpl; lia).
    specialize (H (max_depth - d)%nat fid).
    unfold walk_queue_cost, list_sum. cbn [map fold_right fst snd]. lia.
Qed.

Definition list_files_recursive (svc : DriveService) (parent_id : pystr) (max_depth : nat)
  : list DriveFile.t :=
  list_files_loop svc max_depth [(parent_id, 0%nat)].

Definition find_report_file_by_index (svc : DriveService) (folder_id idx : pystr)
  : option (pystr * pystr) + exn :=
  match int idx with
  | None => inr ValueError
  | Some n =>
      let idx := format_03d n in
      let matches :=
        List.filter (fun f => is_target_report_for_index (DriveFile.name f) idx)
                    (list_files_recursive svc folder_id 2) in
      match matches with
      | [] => inl None
      | first :: _ =>
          let matches := sort_by DriveFile.name matches in
          let chosen := List.last matches first in
          inl (Some (DriveFile.id chosen, DriveFile.name chosen))
      end
  end.

Definition download_file_text (svc : DriveService) (file_id : pystr) : pystr :=
  media svc file_id.

Definition DATE_RE : list atom :=
  [Digit; Digit; Digit; Digit; Lit 45; Digit; Digit; Lit 45; Digit; Digit].
Definition TIME_RE : list atom :=
  [Digit; Digit; Lit 58; Digit; Digit; Lit 58; Digit; Digit].

Definition data_line (toks : list pystr) : bool :=
  match toks with
  | t0 :: t1 :: t2 :: t3 :: _ :: _ =>
      re_match DATE_RE t0 && re_match TIME_RE t1 && re_match DATE_RE t2 && re_match TIME_RE t3
  | _ => false
  end.

Fixpoint extract_laeq_lines (lines : list pystr) : option pystr :=
  match lines with
  | [] => None
  | line :: rest =>
      let toks := split line in
      if data_line toks then nth_error toks 4 else extract_laeq_lines rest
  end.

Definition extract_laeq (text : pystr) : option pystr :=
  extract_laeq_lines (splitlines text).

Fixpoint rows_to_map (idx : Z) (resp : list (list pystr)) (m : gmap pystr Z) : gmap pystr Z :=
  match resp with
  | [] => m
  | row :: rest =>
      rows_to_map (idx + 1)%Z rest
        match row with
        | cell :: _ =>
            if truthy (Some (strip cell)) then <[_keyize (Some (strip cell)) := idx]> m else m
        | [] => m
        end
  end.

Definition map_sheet_rows (svc : SheetsService) (st : run) : run * (gmap pystr Z + exn) :=
  let r := SHEET_NAME ++ py "!A4:A240" in
  let st := call (ValuesGet r) st in
  match values_get svc r with
  | None => (print MsgSheetsError st, inr (SystemExit 1))
  | Some resp => (st, inl (rows_to_map 4 resp ∅))
  end.

(** The items of REMOTE_MAP and of its inner dicts, in order:
    remote name, then index, column and label. *)
Definition REMOTE_MAP : list (pystr * list (pystr * (pystr * pystr))) :=
  [ (py "Remote3",
      [ (py "000", (py "Z", py "Left"));
        (py "001", (py "AA", py "Center"));
        (py "002", (py "AB", py "Right")) ]);
    (py "Remote4",
      [ (py "003", (py "AC", py "Left"));
        (py "004", (py "AD", py "Center"));
        (py "005", (py "AE", py "Right")) ]) ].

(** The body of the loop over one [slm_map] for one item. *)
Definition slm_step (svc : DriveService) (rid : pystr) (row : Z)
    (item : pystr * (pystr * pystr)) (st : run) : run + exn :=
  let '(idx, (col, label)) := item in
  match find_report_file_by_index svc rid idx with
  | inr e => inr e
  | inl None => inl st
  | inl (Some (file_id, fname)) =>
      if negb (truthy (Some file_id)) then inl st
      else
        let text := download_file_text svc file_id in
        let laeq := extract_laeq text in
        if negb (truthy laeq) then inl st
        else
          inl (append_update
                 {| range := SHEET_NAME ++ py "!" ++ col ++ str_of_Z row;
                    values := [[default [] laeq]] |} st)
  end.

Fixpoint slm_loop (svc : DriveService) (rid : pystr) (row : Z)
    (items : list (pystr * (pystr * pystr))) (st : run) : run * option exn :=
  match items with
  | [] => (st, None)
  | item :: rest =>
      match slm_step svc rid row item st with
      | inl st' => slm_loop svc rid row rest st'
      | inr e => (st, Some e)
      end
  end.

Fixpoint remote_loop (svc : DriveService) (c_id : pystr) (row : Z)
    (remotes : list (pystr * list (pystr * (pystr * pystr)))) (st : run) : run * option exn :=
  match remotes with
  | [] => (st, None)
  | (remote_name, slm_map) :: rest =>
      let rid := fst <$> descend_to_folder svc c_id remote_name in
      if negb (truthy rid) then remote_loop svc c_id row rest st
      else
        match slm_loop svc (default [] rid) row slm_map st with
        | (st', None) => remote_loop svc c_id row rest st'
        | (st', Some e) => (st', Some e)
        end
  end.

(** [sheets_updates] is the list [updates] of [main], extended in place. *)
Definition process_one_classroom (drive_svc : DriveService) (bname b_id class_name : pystr)
    (row : Z) (st : run) : run * option exn :=
  let c_id := choose_class_folder_with_content drive_svc b_id class_name in
  if negb (truthy c_id) then (st, None)
  else remote_loop drive_svc (default [] c_id) row REMOTE_MAP st.

(** Branch 1 of [main]: the body of the loop over the target list. *)
Definition target_step (svc : DriveService) (class_map : gmap pystr Z)
    (class_name : pystr) (st : run) : run * option exn :=
  let key := _keyize (Some class_name) in
  match class_map !! key with
  | None => (st, None)
  | Some row =>
      if (row =? 0)%Z then (st, None)
      else
        match split class_name with
        | [] => (st, Some IndexError)
        | building_token :: _ =>
            match descend_to_folder svc DRIVE_ROOT_FOLDER_ID building_token with
            | None => (st, None)
            | Some (b_id, bname) =>
                if negb (truthy (Some b_id)) then (st, None)
                else
                  process_one_classroom svc
                    (if truthy (Some bname) then bname else building_token)
                    b_id class_name row st
            end
        end
  end.

Fixpoint target_loop (svc : DriveService) (class_map : gmap pystr Z)
    (classes : list pystr) (st : run) : run * option exn :=
  match classes with
  | [] => (st, None)
  | class_name :: rest =>
      match target_step svc class_map class_name st with
      | (st', None) => target_loop svc class_map rest st'
      | (st', Some e) => (st', Some e)
      end
  end.

(** Branch 2 of [main]: the loop over the children of one building. *)
Fixpoint classroom_loop (svc : DriveService) (class_map : gmap pystr Z)
    (bname b_id : pystr) (classrooms : list DriveFile.t) (st : run) : run * option exn :=
  match classrooms with
  | [] => (st, None)
  | classroom :: rest =>
      if negb (is_folder classroom) then classroom_loop svc class_map bname b_id rest st
      else
        let cname := DriveFile.name classroom in
        match class_map !! _keyize (Some cname) with
        | None => classroom_loop svc class_map bname b_id rest st
        | Some row =>
            if (row =? 0)%Z then classroom_loop svc class_map bname b_id rest st
            else
              match process_one_classroom svc bname b_id cname row st with
              | (st', None) => classroom_loop svc class_map bname b_id rest st'
              | (st', Some e) => (st', Some e)
              end
        end
  end.

Fixpoint building_loop (svc : DriveService) (class_map : gmap pystr Z)
    (buildings : list DriveFile.t) (st : run) : run * option exn :=
  match buildings with
  | [] => (st, None)
  | building :: rest =>
      if negb (is_folder building) then building_loop svc class_map rest st
      else
        let b_id := DriveFile.id building in
        let bname := DriveFile.name building in
        match classroom_loop svc class_map bname b_id (list_children svc b_id) st with
        | (st', None) => building_loop svc class_map rest st'
        | (st', Some e) => (st', Some e)
        end
  end.

Definition write_updates (sheets_svc : SheetsService) (st : run) : run * outcome :=
  match updates st with
  | [] => (print MsgNoUpdates st, Completed)
  | _ :: _ =>
      let st' := call (ValuesBatchUpdate (updates st)) st in
      if values_batchUpdate sheets_svc (updates st)
      then (print (MsgWrote (length (updates st))) st', Completed)
      else (st', Raised HttpError)
  end.

(** [main] for a given value of the constant TARGET_CLASSES, whose
    emptiness selects the branch. *)
Definition main_on (targets : list pystr) (drive_svc : DriveService)
    (sheets_svc : SheetsService) : run * outcome :=
  match map_sheet_rows sheets_svc run0 with
  | (st, inr e) => (st, Raised e)
  | (st, inl class_map) =>
      match
        match targets with
        | _ :: _ => target_loop drive_svc class_map targets st
        | [] => building_loop drive_svc class_map
                  (list_children drive_svc DRIVE_ROOT_FOLDER_ID) st
        end
      with
      | (st', Some e) => (st', Raised e)
      | (st', None) => write_updates sheets_svc st'
      end
  end.

Definition main : DriveService -> SheetsService -> run * outcome :=
  main_on TARGET_CLASSES.

End Sheet_update_new_remote.

(** ** drive_upload_run_this.py *)

(** The folder requests of the uploaders on a remote of type [R]:
    [files_list r name parent] is the list of ids the query for folders
    called [name] under [parent] returns, [files_create r name parent]
    the id of the folder made and the remote afterwards. *)
Record FolderService (R : Type) := {
  files_list : R -> pystr -> pystr -> list pystr;
  files_create : R -> pystr -> pystr -> pystr * R
}.
Arguments files_list {R}.
Arguments files_create {R}.

Inductive drive_call :=
| FilesList (name parent_id : pystr)
| FilesCreate (name parent_id : pystr).

(** The remote, the module-level dict [_folder_cache], and the requests
    sent so far. *)
Record world (R : Type) := {
  remote : R;
  _folder_cache : gmap (pystr * pystr) pystr;
  requests : list drive_call
}.
Arguments remote {R}.
Arguments _folder_cache {R}.
Arguments requests {R}.

Definition is_create (c : drive_call) : bool :=
  match c with
  | FilesCreate _ _ => true
  | FilesList _ _ => false
  end.

(** Number of create requests sent so far. *)
Definition creates {R} (w : world R) : nat :=
  length (List.filter is_create (requests w)).

Module drive_upload_run_this.

Definition DRIVE_ROOT_FOLDER_ID : pystr := py "1AiDo1LcV6JSfPOi4x0I9z89QjFnYE3cn".

Definition find_or_create_folder {R} (service : FolderService R)
    (name parent_id : pystr) (w : world R) : pystr * world R :=
  let key := (parent_id, name) in
  match _folder_cache w !! key with
  | Some fid => (fid, w)
  | None =>
      let files := files_list service (remote w) name parent_id in
      let reqs := requests w ++ [FilesList name parent_id] in
      match files with
      | fid :: _ =>
          (fid, {| remote := remote w;
                   _folder_cache := <[key := fid]> (_folder_cache w);
                   requests := reqs |})
      | [] =>
          let '(fid, r') := files_create service (remote w) name parent_id in
          (fid, {| remote := r';
                   _folder_cache := <[key := fid]> (_folder_cache w);
                   requests := reqs ++ [FilesCreate name parent_id] |})
      end
  end.

(** The loop of [resolve_drive_path], from a given [parent]. *)
Fixpoint resolve_from {R} (service : FolderService R) (parent : pystr)
    (segments : list pystr) (w : world R) : pystr * world R :=
  match segments with
  | [] => (parent, w)
  | seg :: rest =>
      let '(parent', w') := find_or_create_folder service seg parent w in
      resolve_from service parent' rest w'
  end.

Definition resolve_drive_path {R} (service : FolderService R)
    (segments : list pystr) (w : world R) : pystr * world R :=
  resolve_from service DRIVE_ROOT_FOLDER_ID segments w.

End drive_upload_run_this.

(** ** drive_upload_new_remote.py *)

Module drive_upload_new_remote.

(** [SLM[_\-](\d{3})] under re.IGNORECASE; group 1 is made of the last
    three characters of the match. *)
Definition INDEX_RE : list atom :=
  ignorecase "SLM" ++ [Class [95; 45]; Digit; Digit; Digit].

Definition INDEX_RE_group1 (m : pystr) : pystr := skipn 4 m.

Definition REMOTE3_NAME : pystr := py "Remote3".
Definition REMOTE4_NAME : pystr := py "Remote4".
Definition MICROPHONE_NAME : pystr := py "Microphone".

(** The statements of [route_index_to_folder] after the [try]. *)
Definition route_int (n : Z) : option pystr :=
  if ((0 <=? n) && (n <=? 2))%Z then Some REMOTE3_NAME
  else if ((3 <=? n) && (n <=? 5))%Z then Some REMOTE4_NAME
  else if (5 <? n)%Z then Some MICROPHONE_NAME
  else None.

Definition route_index_to_folder (idx_str : pystr) : option pystr :=
  match int idx_str with
  | None => None
  | Some n => route_int n
  end.

(** [idx] in the loop of [main] over the files of a class directory:
    group 1 of the search in the file name, if it matches. *)
Definition file_index (fname : pystr) : option pystr :=
  INDEX_RE_group1 <$> re_search INDEX_RE false fname.

End drive_upload_new_remote.

(** ** Vocabulary of the statements *)

Module S1 := Sheet_Update_runt_this.
Module S2 := Sheet_update_new_remote.
Module U1 := drive_upload_run_this.
Module U2 := drive_upload_new_remote.

(** ASCII punctuation, and the curly single and double quotes. *)
Definition is_punctuation (c : N) : bool :=
  ((33 <=? c) && (c <=? 47)) || ((58 <=? c) && (c <=? 64))
  || ((91 <=? c) && (c <=? 96)) || ((123 <=? c) && (c <=? 126))
  || ((8216 <=? c) && (c <=? 8217)) || ((8220 <=? c) && (c <=? 8221)).

(** The same ASCII letter in either case. *)
Definition case_variant (c d : N) : Prop :=
  (is_ascii_upper c = true /\ d = c + 32) \/ (is_ascii_upper d = true /\ c = d + 32).

(** Names that differ only by letter case, by underscore versus space,
    or by punctuation characters present in one and not in the other. *)
Inductive same_name : pystr -> pystr -> Prop :=
| same_nil : same_name [] []
| same_char c a b : same_name a b -> same_name (c :: a) (c :: b)
| same_case c d a b : case_variant c d -> same_name a b -> same_name (c :: a) (d :: b)
| same_underscore_space a b : same_name a b -> same_name (95 :: a) (32 :: b)
| same_space_underscore a b : same_name a b -> same_name (32 :: a) (95 :: b)
| same_punct_l p a b : is_punctuation p = true -> same_name a b -> same_name (p :: a) b
| same_punct_r p a b : is_punctuation p = true -> same_name a b -> same_name a (p :: b).

(** What is left of a name in a key: ASCII capitals and digits. *)
Definition is_key_char (c : N) : bool := is_ascii_upper c || is_ascii_digit c.

(** [old in s]. *)
Fixpoint occurs (old s : pystr) : bool :=
  startswith s old || match s with [] => false | _ :: s' => occurs old s' end.

(** KEYIZE_OLD with its letters in capitals. *)
Definition KEYIZE_OLD_CAPS : pystr := py ", " ++ [34; 39; 34] ++ py ").REPLACE(".

(** A three-line report: a header, then two data lines. *)
Definition sample_report : pystr :=
  py "Start Stop LAeq" ++ [10]
  ++ py "2024-01-01 00:00:00 2024-01-01 01:00:00 55.3 extra" ++ [10]
  ++ py "2024-01-01 01:00:00 2024-01-01 02:00:00 61.0".

(** [reaches ls k f g]: the folder [g] lies [k] levels below the folder
    [f], through folders only, in the listing [ls]. *)
Inductive reaches (ls : pystr -> list DriveFile.t) : nat -> pystr -> pystr -> Prop :=
| reaches_here f : reaches ls 0 f f
| reaches_down k f ch g :
    In ch (ls f) -> is_folder ch = true ->
    reaches ls k (DriveFile.id ch) g ->
    reaches ls (S k) f g.

(** The entry [x] is not a folder, passes [test], and is listed in a
    folder at most [levels] levels below [f]. *)
Definition file_within (ls : pystr -> list DriveFile.t) (test : DriveFile.t -> bool)
    (levels : nat) (f : pystr) (x : DriveFile.t) : Prop :=
  exists k g,
    (k <= levels)%nat /\ reaches ls k f g
    /\ In x (ls g) /\ is_folder x = false /\ test x = true.

(** Whether some file passing [test] is listed fewer than [r] levels
    below [f]. *)
Fixpoint deep (ls : pystr -> list DriveFile.t) (test : DriveFile.t -> bool)
    (r : nat) (f : pystr) : bool :=
  match r with
  | O => false
  | S r' =>
      existsb (fun ch => negb (is_folder ch) && test ch) (ls f)
      || existsb (fun ch => deep ls test r' (DriveFile.id ch)) (List.filter is_folder (ls f))
  end.

(** A folder of the class holds a report that the probe of
    Sheet_Update_runt_this.py can see: a file with a report name, listed
    in the folder or in a folder at most six levels below it. *)
Definition has_report (svc : DriveService) (folder_id : pystr) : Prop :=
  exists x,
    file_within (S1.list_children svc) (fun ch => S1._is_report_file (DriveFile.name ch))
                6 folder_id x.

(** ** Sample data *)

Definition folder (i n : string) : DriveFile.t :=
  {| DriveFile.id := py i; DriveFile.name := py n; DriveFile.mimeType := FOLDER_MIME |}.

Definition text_file (i n : string) : DriveFile.t :=
  {| DriveFile.id := py i; DriveFile.name := py n; DriveFile.mimeType := py "text/plain" |}.

(** A campus with one building.  The class WPH 400 has two folders: the
    first is empty, the second holds one report, for index 003, four
    levels down, under folders spelled with a blank where the table of
    paths has an underscore. *)
Definition campus_pages (parent : pystr) : list (list DriveFile.t) :=
  if bool_decide (parent = S1.DRIVE_ROOT_FOLDER_ID) then [[folder "b1" "WPH"]]
  else if bool_decide (parent = py "b1")
  then [[folder "c1" "WPH 400"; text_file "n1" "notes.txt"]; [folder "c2" "wph_400"]]
  else if bool_decide (parent = py "c2") then [[folder "l1" "Local"]]
  else if bool_decide (parent = py "l1") then [[folder "w1" "Without Audio"]]
  else if bool_decide (parent = py "w1") then [[folder "k2" "Front 1"; folder "k1" "Back 1"]]
  else if bool_decide (parent = py "k1") then [[text_file "r1" "WPH400_003_123_Report.txt"]]
  else [].

Definition campus : DriveService :=
  {| pages := campus_pages;
     media := fun file =>
       if bool_decide (file = py "r1")
       then py "Start Stop LAeq" ++ [10]
            ++ py "2024-01-01 00:00:00 2024-01-01 01:00:00 42.1 extra"
       else [] |}.

(** A spreadsheet whose tab Main Sheet names the class in row 10. *)
Definition main_sheet : SheetsService :=
  {| spreadsheets_get := Some [py "Notes"; py "Main Sheet"];
     values_get := fun r =>
       if bool_decide (r = py "Main Sheet!A4:A240")
       then Some [[py "KAP 113"]; []; [py " "]; [py "SGM 111"]; [py "THH 101"];
                  [py "VKC 100"]; [py "WPH 400"]]
       else None;
     values_batchUpdate := fun _ => true |}.

(** The files that the walk yields for one entry of its deque. *)
Definition walk_yields (svc : DriveService) (max_depth : nat) (x : DriveFile.t)
    (it : pystr * nat) : Prop :=
  exists k g,
    (k <= max_depth - snd it)%nat
    /\ reaches (S2.list_children svc) k (fst it) g
    /\ In x (S2.list_children svc g) /\ is_folder x = false.

(** A list in ascending order of the names given by [key]. *)
Definition ordered {A : Type} (key : A -> pystr) (l : list A) : Prop :=
  StronglySorted (fun a b => str_leb (key a) (key b) = true) l.

(** A second campus, for Sheet_update_new_remote.py: the folder Remote3
    of the class SOS B37 holds two reports for index 000 and, one level
    down, a report for index 001. *)
Definition campus2_pages (parent : pystr) : list (list DriveFile.t) :=
  if bool_decide (parent = S2.DRIVE_ROOT_FOLDER_ID) then [[folder "b2" "SOS"]]
  else if bool_decide (parent = py "b2") then [[folder "c3" "SOS B37"]]
  else if bool_decide (parent = py "c3") then [[folder "r3" "Remote3"]]
  else if bool_decide (parent = py "r3")
  then [[text_file "y0" "Y_000_123_Report.txt"; folder "o1" "old";
         text_file "x0" "X_000_123_Report.txt"]]
  else if bool_decide (parent = py "o1") then [[text_file "z1" "Z_001_123_Report.txt"]]
  else [].

Definition campus2 : DriveService :=
  {| pages := campus2_pages;
     media := fun file =>
       if bool_decide (file = py "y0")
       then py "2024-01-01 00:00:00 2024-01-01 01:00:00 50.2"
       else if bool_decide (file = py "z1")
       then py "2024-01-01 00:00:00 2024-01-01 01:00:00 48.9"
       else [] |}.

(** A spreadsheet whose tab Main Sheet names the class in row 5. *)
Definition main_sheet2 : SheetsService :=
  {| spreadsheets_get := Some [py "Main Sheet"];
     values_get := fun r =>
       if bool_decide (r = py "Main Sheet!A4:A240")
       then Some [[py "KAP 113"]; [py "SOS B37"]]
       else None;
     values_batchUpdate := fun _ => true |}.

Definition ascii_digits : list N := [48; 49; 50; 51; 52; 53; 54; 55; 56; 57].

(** A request that writes to the spreadsheet. *)
Definition is_write (c : sheets_call) : bool :=
  match c with
  | ValuesBatchUpdate _ => true
  | _ => false
  end.

(** The write requests among those sent so far. *)
Definition writes (st : run) : list sheets_call := List.filter is_write (calls st).

(** What a run leaves behind as far as writing goes: if updates were
    recorded, the requests end with one batchUpdate that carries them
    all, after requests none of which writes; if none was recorded, no
    request writes and a run that completes has printed the notice. *)
Definition one_batched_write (r : run * outcome) : Prop :=
  (updates (fst r) <> [] ->
   exists reads,
     calls (fst r) = reads ++ [ValuesBatchUpdate (updates (fst r))]
     /\ List.filter is_write reads = [])
  /\ (updates (fst r) = [] ->
      writes (fst r) = []
      /\ (snd r = Completed -> In MsgNoUpdates (out (fst r)))).

(** The Sheets service refuses to read a range of a tab that is not
    among [tabs]. *)
Definition rejects_unknown_tab (svc : SheetsService) (tabs : list pystr) : Prop :=
  forall tab cells, tab ∉ tabs -> values_get svc (tab ++ py "!" ++ cells) = None.

(** A spreadsheet with the single tab Sheet1. *)
Definition other_sheet : SheetsService :=
  {| spreadsheets_get := Some [py "Sheet1"];
     values_get := fun r =>
       if bool_decide (r = py "Sheet1!A4:A240") then Some [] else None;
     values_batchUpdate := fun _ => true |}.

(** The state [st'] comes from [st] by recording updates only: no
    request was sent and nothing was printed in between. *)
Definition only_records (st st' : run) : Prop :=
  calls st' = calls st /\ out st' = out st.

(** A remote for the uploaders: the folders made so far, each with its
    id, name and parent; a new folder gets the next number for id. *)
Definition shelf : FolderService (list (pystr * pystr * pystr)) :=
  {| files_list := fun r name parent =>
       map (fun f => fst (fst f))
           (List.filter (fun f => bool_decide (snd (fst f) = name)
                                  && bool_decide (snd f = parent)) r);
     files_create := fun r name parent =>
       let i := py "f" ++ str_of_N (N.of_nat (length r)) in
       (i, r ++ [(i, name, parent)]) |}.

(** A run that starts on a remote where the building KAP exists. *)
Definition shelf0 : world (list (pystr * pystr * pystr)) :=
  {| remote := [(py "kap", py "KAP", U1.DRIVE_ROOT_FOLDER_ID)];
     _folder_cache := ∅;
     requests := [] |}.

(** A chain of folders 0, 1, 2, ... below one another, with a report in
    the folder numbered [n]. *)
Definition chain (n : N) : DriveService :=
  {| pages := fun parent =>
       match List.find (fun k => bool_decide (parent = str_of_N k))
                       [0; 1; 2; 3; 4; 5; 6; 7; 8] with
       | Some k =>
           [[ {| DriveFile.id := str_of_N (k + 1);
                 DriveFile.name := py "level";
                 DriveFile.mimeType := FOLDER_MIME |} ]
            ++ if k =? n then [text_file "r" "SLM_000_123_Report.txt"] else [] ]
       | None => []
       end;
     media := fun _ => [] |}.

(** ** Vocabulary of the further properties *)

(** A token of [split]: not empty, and free of white space. *)
Definition is_token (t : pystr) : Prop :=
  t <> [] /\ Forall (fun c => isspace c = false) t.

(** A string that is empty or made of white space only. *)
Definition blank (s : pystr) : bool := forallb isspace s.

(** The key under which [map_sheet_rows] enters a row of the range, if
    it enters it: the first cell, stripped, must not be empty. *)
Definition row_key (keyize : option pystr -> pystr) (row : list pystr) : option pystr :=
  match row with
  | cell :: _ =>
      if truthy (Some (strip cell)) then Some (keyize (Some (strip cell))) else None
  | [] => None
  end.

(** The loop that fills the dict, for either normalizer. *)
Fixpoint enter_rows (keyize : option pystr -> pystr) (idx : Z)
    (resp : list (list pystr)) (m : gmap pystr Z) : gmap pystr Z :=
  match resp with
  | [] => m
  | row :: rest =>
      enter_rows keyize (idx + 1)%Z rest
        match row_key keyize row with
        | Some k => <[k := idx]> m
        | None => m
        end
  end.

(** A folder holds a report that the probe of Sheet_update_new_remote.py
    can see: a file whose name carries an index, listed in the folder or
    in a folder at most six levels below it. *)
Definition has_indexed_report (svc : DriveService) (folder_id : pystr) : Prop :=
  exists x,
    file_within (S2.list_children svc) (fun ch => S2.has_index (DriveFile.name ch))
                6 folder_id x.





(** ** The upload loops of the two uploaders *)

(** An entry of a local directory, as [main] uses it: its name and
    whether it is a regular file. *)
Record LocalFile := { file_name : pystr; is_file : bool }.

(** An entry of the local folder of classes: its name, whether it is a
    directory, and its entries in the order [main] visits them. *)
Record LocalDir := { dir_name : pystr; is_dir : bool; dir_files : list LocalFile }.

(** The Drive service of an uploader: the folder requests, and the
    request that uploads a file called [name] into [parent], which gives
    the remote afterwards and whether it went through (it raises if
    not). *)
Record UploadService (R : Type) := {
  folders : FolderService R;
  files_upload : R -> pystr -> pystr -> R * bool
}.
Arguments folders {R}.
Arguments files_upload {R}.

(** The state of a run of an uploader: the Drive side, the uploads
    requested so far (name and parent), and the names of the files whose
    upload failed. *)
Record upload_run (R : Type) := {
  drive_world : world R;
  uploaded : list (pystr * pystr);
  failed : list pystr
}.
Arguments drive_world {R}.
Arguments uploaded {R}.
Arguments failed {R}.

(** The upload request of [main] and its [except] clause. *)
Definition upload {R} (service : UploadService R) (name folder_id : pystr)
    (w : world R) (s : upload_run R) : upload_run R :=
  let '(r', ok) := files_upload service (remote w) name folder_id in
  {| drive_world := {| remote := r';
                       _folder_cache := _folder_cache w;
                       requests := requests w |};
     uploaded := uploaded s ++ [(name, folder_id)];
     failed := if ok then failed s else failed s ++ [name] |}.

(** The rest of drive_upload_run_this.py: the pattern of the index, the
    table of paths, and the loops of [main].  The local folder of classes
    is taken to exist and its files to be readable. *)
Module drive_upload_run_this_main.

(** [SLM[_\-](\d{3})] under re.IGNORECASE. *)
Definition INDEX_RE : list atom :=
  ignorecase "SLM" ++ [Class [95; 45]; Digit; Digit; Digit].

Definition INDEX_RE_group1 (m : pystr) : pystr := skipn 4 m.

(** The segment written with a curly apostrophe (U+2019) in the table. *)
Definition PROFESSORS_DESK : pystr := py "Professor" ++ [8217] ++ py "s Desk".

Definition INDEX_TO_DRIVE_PATH : gmap pystr (list pystr) :=
  list_to_map
    [ (py "000", [py "Local"; py "Without Audio"; py "Center"]);
      (py "001", [py "Local"; py "Without Audio"; py "Front_1"]);
      (py "002", [py "Local"; py "Without Audio"; py "Front_2"]);
      (py "003", [py "Local"; py "Without Audio"; py "Back_1"]);
      (py "004", [py "Local"; py "Without Audio"; py "Back_2"]);
      (py "005", [py "Local"; py "Without Audio"; PROFESSORS_DESK]);
      (py "006", [py "Local"; py "With Audio"; py "Center"]);
      (py "007", [py "Local"; py "With Audio"; py "Front_1"]);
      (py "008", [py "Local"; py "With Audio"; py "Front_2"]);
      (py "009", [py "Local"; py "With Audio"; py "Back_1"]);
      (py "010", [py "Local"; py "With Audio"; py "Back_2"]);
      (py "011", [py "Local"; py "With Audio"; PROFESSORS_DESK]);
      (py "012", [py "Remote_1"; py "Center"]);
      (py "013", [py "Remote_1"; py "Front_1"]);
      (py "014", [py "Remote_1"; py "Front_2"]);
      (py "015", [py "Remote_1"; py "Back_1"]);
      (py "016", [py "Remote_1"; py "Back_2"]);
      (py "017", [py "Remote_1"; PROFESSORS_DESK]);
      (py "018", [py "Remote_2"]) ].

(** The body of the loop over the entries of a class directory. *)
Definition file_step {R} (service : UploadService R) (building class_name : pystr)
    (f : LocalFile) (s : upload_run R) : upload_run R :=
  if negb (is_file f) then s
  else
    match re_search INDEX_RE false (file_name f) with
    | None => s
    | Some m =>
        let idx := INDEX_RE_group1 m in
        match INDEX_TO_DRIVE_PATH !! idx with
        | None => s
        | Some [] => s
        | Some subpath =>
            let segments := [building; class_name] ++ subpath in
            let '(folder_id, w) :=
              U1.resolve_drive_path (folders service) segments (drive_world s) in
            upload service (file_name f) folder_id w s
        end
    end.

Definition file_loop {R} (service : UploadService R) (building class_name : pystr)
    (files : list LocalFile) (s : upload_run R) : upload_run R :=
  fold_left (fun s f => file_step service building class_name f s) files s.

(** The body of the loop over the entries of the local folder. *)
Definition dir_step {R} (service : UploadService R) (class_dir : LocalDir)
    (s : upload_run R) : upload_run R * option exn :=
  if negb (is_dir class_dir) then (s, None)
  else
    let class_name := dir_name class_dir in
    match split class_name with
    | [] => (s, Some IndexError)
    | building :: _ =>
        (file_loop service building class_name (dir_files class_dir) s, None)
    end.

Fixpoint dir_loop {R} (service : UploadService R) (dirs : list LocalDir)
    (s : upload_run R) : upload_run R * option exn :=
  match dirs with
  | [] => (s, None)
  | class_dir :: rest =>
      match dir_step service class_dir s with
      | (s', None) => dir_loop service rest s'
      | (s', Some e) => (s', Some e)
      end
  end.

Definition main {R} (service : UploadService R) (local : list LocalDir)
    (s : upload_run R) : upload_run R * option exn :=
  dir_loop service local s.

End drive_upload_run_this_main.

(** The rest of drive_upload_new_remote.py: the folder helpers and the
    loops of [main].  [None] for the local folder of classes says that it
    does not exist; the listings are given as [sorted] leaves them, and
    the files are taken to be readable. *)
Module drive_upload_new_remote_main.

Definition DRIVE_ROOT_FOLDER_ID : pystr := py "1T4lh501yhxxfhmzRMwLpBqKt5kpH4U2f".

Definition find_or_create_folder {R} (service : FolderService R)
    (name parent_id : pystr) (w : world R) : pystr * world R :=
  let key := (parent_id, name) in
  match _folder_cache w !! key with
  | Some fid => (fid, w)
  | None =>
      let files := files_list service (remote w) name parent_id in
      let reqs := requests w ++ [FilesList name parent_id] in
      match files with
      | fid :: _ =>
          (fid, {| remote := remote w;
                   _folder_cache := <[key := fid]> (_folder_cache w);
                   requests := reqs |})
      | [] =>
          let '(fid, r') := files_create service (remote w) name parent_id in
          (fid, {| remote := r';
                   _folder_cache := <[key := fid]> (_folder_cache w);
                   requests := reqs ++ [FilesCreate name parent_id] |})
      end
  end.

Fixpoint resolve_from {R} (service : FolderService R) (parent : pystr)
    (segments : list pystr) (w : world R) : pystr * world R :=
  match segments with
  | [] => (parent, w)
  | seg :: rest =>
      let '(parent', w') := find_or_create_folder service seg parent w in
      resolve_from service parent' rest w'
  end.

Definition resolve_drive_path {R} (service : FolderService R)
    (segments : list pystr) (w : world R) : pystr * world R :=
  resolve_from service DRIVE_ROOT_FOLDER_ID segments w.

(** The body of the loop over the entries of a class directory. *)
Definition file_step {R} (service : UploadService R) (remote3_id remote4_id mic_id : pystr)
    (f : LocalFile) (s : upload_run R) : upload_run R :=
  if negb (is_file f) then s
  else
    match U2.file_index (file_name f) with
    | None => s
    | Some idx =>
        let target := U2.route_index_to_folder idx in
        if negb (truthy target) then s
        else
          let folder_id :=
            if bool_decide (target = Some U2.REMOTE3_NAME) then remote3_id
            else if bool_decide (target = Some U2.REMOTE4_NAME) then remote4_id
            else mic_id in
          upload service (file_name f) folder_id (drive_world s) s
    end.

Definition file_loop {R} (service : UploadService R) (remote3_id remote4_id mic_id : pystr)
    (files : list LocalFile) (s : upload_run R) : upload_run R :=
  fold_left (fun s f => file_step service remote3_id remote4_id mic_id f s) files s.

Definition with_world {R} (w : world R) (s : upload_run R) : upload_run R :=
  {| drive_world := w; uploaded := uploaded s; failed := failed s |}.

(** The body of the loop over the entries of the local folder. *)
Definition dir_step {R} (service : UploadService R) (class_dir : LocalDir)
    (s : upload_run R) : upload_run R :=
  if negb (is_dir class_dir) then s
  else
    let class_name := dir_name class_dir in
    match split class_name with
    | [] => s
    | building :: _ =>
        let base_segments := [building; class_name] in
        let '(class_folder_id, w) :=
          resolve_drive_path (folders service) base_segments (drive_world s) in
        let '(remote3_id, w) :=
          find_or_create_folder (folders service) U2.REMOTE3_NAME class_folder_id w in
        let '(remote4_id, w) :=
          find_or_create_folder (folders service) U2.REMOTE4_NAME class_folder_id w in
        let '(mic_id, w) :=
          find_or_create_folder (folders service) U2.MICROPHONE_NAME class_folder_id w in
        file_loop service remote3_id remote4_id mic_id (dir_files class_dir)
                  (with_world w s)
    end.

Definition main {R} (service : UploadService R) (local : option (list LocalDir))
    (s : upload_run R) : upload_run R :=
  match local with
  | None => s
  | Some dirs => fold_left (fun s class_dir => dir_step service class_dir s) dirs s
  end.

End drive_upload_new_remote_main.

Module U1m := drive_upload_run_this_main.
Module U2m := drive_upload_new_remote_main.

(** The key of [_folder_cache] that a folder request is about. *)
Definition request_key (c : drive_call) : pystr * pystr :=
  match c with
  | FilesList name parent_id => (parent_id, name)
  | FilesCreate name parent_id => (parent_id, name)
  end.

(** No folder request was sent twice, and the folder of every request
    sent is in the cache. *)
Definition tidy {R} (w : world R) : Prop :=
  NoDup (requests w)
  /\ forall c, In c (requests w) -> is_Some (_folder_cache w !! request_key c).

(** The start of a run: nothing requested, nothing cached. *)
Definition fresh {R} (r : R) : upload_run R :=
  {| drive_world := {| remote := r; _folder_cache := ∅; requests := [] |};
     uploaded := [];
     failed := [] |}.

(** A file that [main] of drive_upload_new_remote.py uploads: a regular
    file whose name holds SLM, a dash or underscore, and three digits. *)
Definition has_slm_index (f : LocalFile) : bool :=
  is_file f && match U2.file_index (file_name f) with Some _ => true | None => false end.

(** The folder that a file called [fname] belongs to, by the number its
    index stands for: up to 2, up to 5, above. *)
Definition folder_for (remote3_id remote4_id mic_id fname : pystr) : pystr :=
  match U2.file_index fname ≫= int with
  | Some n =>
      if (n <=? 2)%Z then remote3_id
      else if (n <=? 5)%Z then remote4_id
      else mic_id
  | None => mic_id
  end.

(** A class directory that [main] of drive_upload_new_remote.py goes
    through: a directory whose name is not blank. *)
Definition is_class_dir (d : LocalDir) : bool :=
  is_dir d && negb (blank (dir_name d)).

(** The indexes 000 to 018, in ASCII digits. *)
Definition local_indexes : list pystr := map (fun k => format_03d (Z.of_nat k)) (seq 0 19).

(** A file that [main] of drive_upload_run_this.py uploads: a regular
    file whose index is one of 000 to 018. *)
Definition has_local_index (f : LocalFile) : bool :=
  is_file f && match U2.file_index (file_name f) with
               | Some idx => bool_decide (idx ∈ local_indexes)
               | None => false
               end.

(** The names of the uploads requested so far. *)
Definition uploaded_names {R} (s : upload_run R) : list pystr := map fst (uploaded s).

(** An uploader service on [shelf] whose uploads all go through. *)
Definition shelf_uploads : UploadService (list (pystr * pystr * pystr)) :=
  {| folders := shelf; files_upload := fun r _ _ => (r, true) |}.

(** A local folder of classes: a class directory with reports of index
    000 and 019 and a text file, then a stray file. *)
Definition classroom : list LocalDir :=
  [ {| dir_name := py "KAP 113"; is_dir := true;
       dir_files :=
         [ {| file_name := py "KAP113_SLM_000_123_Report.txt"; is_file := true |};
           {| file_name := py "KAP113_SLM_019_123_Report.txt"; is_file := true |};
           {| file_name := py "notes.txt"; is_file := true |} ] |};
    {| dir_name := py ".DS_Store"; is_dir := false; dir_files := [] |} ].

(** A directory whose name is one space. *)
Definition unnamed_dir : LocalDir :=
  {| dir_name := py " "; is_dir := true; dir_files := [] |}.

(** ** Vocabulary of the statements: names of reports and data lines *)

(** The end of a report name: _123_Report.txt in any letter case. *)
Definition report_suffix (tail : pystr) : Prop := lower tail = py "_123_report.txt".

(** The report grammar as the specification gives it: the name ends with
    an index of three digits followed by _123_Report.txt, the suffix in
    any letter case. *)
Definition report_grammar (name : pystr) : Prop :=
  exists before idx tail,
    name = before ++ idx ++ tail
    /\ length idx = 3%nat
    /\ Forall (fun c => isdecimal c = true) idx
    /\ report_suffix tail.

(** A name that carries the index [idx]: it ends with an underscore, the
    index and _123_Report.txt in any letter case; one final newline may
    follow, which [$] lets pass. *)
Definition report_name_for (idx name : pystr) : Prop :=
  exists before tail rest,
    name = before ++ [95] ++ idx ++ tail ++ rest
    /\ report_suffix tail
    /\ (rest = [] \/ rest = [10]).

(** What Sheet_Update_runt_this.py takes for the name of a report: a
    name that ends with _123_Report.txt in any letter case, whatever comes
    before, or a name that carries an index of three digits. *)
Definition report_like (name : pystr) : Prop :=
  (exists before tail, name = before ++ tail /\ report_suffix tail)
  \/ (exists idx,
        length idx = 3%nat
        /\ Forall (fun c => isdecimal c = true) idx
        /\ report_name_for idx name).

(** The entry [x] is not a folder, its name satisfies [P], and it is
    listed in the folder [f] or in a folder at most [levels] levels below
    it. *)
Definition file_below (ls : pystr -> list DriveFile.t) (P : pystr -> Prop)
    (levels : nat) (f : pystr) (x : DriveFile.t) : Prop :=
  exists k g,
    (k <= levels)%nat /\ reaches ls k f g
    /\ In x (ls g) /\ is_folder x = false /\ P (DriveFile.name x).

(** The folder [f] holds such a file. *)
Definition holds_file (ls : pystr -> list DriveFile.t) (P : pystr -> Prop)
    (levels : nat) (f : pystr) : Prop :=
  exists x, file_below ls P levels f x.

(** The rule of choice among the folders of a class, with [P] for the
    names that count as reports: the candidates are the child folders
    with the key of the class name, in listing order; the result is the
    first candidate that holds a report within six levels, the first
    candidate if none does, and None exactly when there is no
    candidate. *)
Definition chooses_first_with_report (P : pystr -> Prop) (svc : DriveService)
    (parent_id class_name : pystr) (result : option pystr) : Prop :=
  let candidates :=
    List.filter
      (fun f => is_folder f
                && bool_decide (S1._keyize (Some (DriveFile.name f))
                                = S1._keyize (Some class_name)))
      (S1.list_children svc parent_id) in
  let holds c := holds_file (S1.list_children svc) P 6 (DriveFile.id c) in
  (forall before c after,
     candidates = before ++ c :: after ->
     (forall c', In c' before -> ~ holds c') ->
     holds c ->
     result = Some (DriveFile.id c))
  /\ (forall first rest,
        candidates = first :: rest ->
        (forall c', In c' candidates -> ~ holds c') ->
        result = Some (DriveFile.id first))
  /\ (result = None <-> candidates = []).

(** A third campus: the first folder of the class WPH 400 holds a file
    whose name ends with _123_report.txt and has no index, the second a
    report for index 003. *)
Definition campus3_pages (parent : pystr) : list (list DriveFile.t) :=
  if bool_decide (parent = py "b1")
  then [[folder "c1" "WPH 400"; folder "c2" "wph_400"]]
  else if bool_decide (parent = py "c1") then [[text_file "n1" "notes_123_report.txt"]]
  else if bool_decide (parent = py "c2") then [[text_file "r1" "WPH400_003_123_Report.txt"]]
  else [].

Definition campus3 : DriveService := {| pages := campus3_pages; media := fun _ => [] |}.

(** dddd-dd-dd at the start of a token, [rest] after it; the digits are
    decimal digits of any script, as [\d] takes them. *)
Definition date_then (rest t : pystr) : Prop :=
  exists y1 y2 y3 y4 m1 m2 d1 d2,
    t = [y1; y2; y3; y4; 45; m1; m2; 45; d1; d2] ++ rest
    /\ Forall (fun c => isdecimal c = true) [y1; y2; y3; y4; m1; m2; d1; d2].

(** dd:dd:dd at the start of a token, [rest] after it. *)
Definition time_then (rest t : pystr) : Prop :=
  exists h1 h2 m1 m2 s1 s2,
    t = [h1; h2; 58; m1; m2; 58; s1; s2] ++ rest
    /\ Forall (fun c => isdecimal c = true) [h1; h2; m1; m2; s1; s2].

(** A token that is a date, YYYY-MM-DD, and one that is a time,
    HH:MM:SS. *)
Definition is_date : pystr -> Prop := date_then [].
Definition is_time : pystr -> Prop := time_then [].

(** A token that starts with a date, and one that starts with a time. *)
Definition starts_with_date (t : pystr) : Prop := exists rest, date_then rest t.
Definition starts_with_time (t : pystr) : Prop := exists rest, time_then rest t.

(** A line qualifies when it splits into five tokens at least and its
    tokens 0 to 3 are accepted as date, time, date and time. *)
Definition qualifies (date time : pystr -> Prop) (line : pystr) : Prop :=
  exists t0 t1 t2 t3 t4 more,
    split line = t0 :: t1 :: t2 :: t3 :: t4 :: more
    /\ date t0 /\ time t1 /\ date t2 /\ time t3.

(** [result] is token 4 of the first line of [text] that satisfies [Q],
    and None exactly when no line does. *)
Definition first_qualifying (Q : pystr -> Prop) (text : pystr) (result : option pystr) : Prop :=
  (forall tok,
     result = Some tok <->
     exists before line after,
       splitlines text = before ++ line :: after
       /\ Forall (fun l => ~ Q l) before
       /\ Q line
       /\ nth_error (split line) 4 = Some tok)
  /\ (result = None <-> Forall (fun l => ~ Q l) (splitlines text)).

(** A report whose first line has a first token that starts with a date
    and goes on, and whose second line is a plain data line. *)
Definition odd_report : pystr :=
  py "2024-01-01x 00:00:00 2024-01-01 01:00:00 1.0" ++ [10]
  ++ py "2024-01-01 00:00:00 2024-01-01 01:00:00 55.3".

(** * Part II: properties *)

Example py_int_samples :
  int (py " 1 ") = Some 1%Z /\ int (py "1_0") = Some 10%Z /\ int (py "_1") = None
  /\ int (py "1__0") = None /\ int (py "-1") = Some (-1)%Z /\ int (py "- 1") = None
  /\ int [1635; 1636; 1637] = Some 345%Z /\ int (py "007") = Some 7%Z
  /\ int (py "1 2") = None /\ int [] = None /\ int [160; 49] = Some 1%Z
  /\ int [28; 49] = None /\ int [49; 95; 1635] = Some 13%Z.
Proof. vm_compute. repeat split. Qed.

Example py_text_samples :
  split (py " a  b ") = [py "a"; py "b"]
  /\ splitlines [] = []
  /\ splitlines [10] = [[]]
  /\ splitlines [97; 13; 10; 98; 13] = [py "a"; py "b"]
  /\ splitlines [97; 13; 13; 10; 98] = [py "a"; []; py "b"]
  /\ replace (py "abc") [] (py "-") = py "-a-b-c-"
  /\ replace (py "aaa") (py "aa") (py "b") = py "ba"
  /\ format_03d (-5) = py "-05" /\ format_03d 1234 = py "1234" /\ format_03d 0 = py "000"
  /\ sort_by (fun x => x) [py "b"; py "a"; py "ab"; py "B"; []] = [[]; py "B"; py "a"; py "ab"; py "b"].
Proof. vm_compute. repeat split. Qed.

(** ** Strings *)

Lemma replace_char (s : pystr) (a b : N) :
  replace s [a] [b] = map (fun c => if c =? a then b else c) s.
Proof.
  unfold replace.
  induction s as [|c s IH]; simpl; [reflexivity|].
  rewrite IH. rewrite (N.eqb_sym a c).
  destruct (c =? a); reflexivity.
Qed.

(** A string in which the first character of [old] does not occur is
    left as it is. *)
Lemma replace_from_absent (old new s : pystr) (a : N) (old' : pystr) :
  old = a :: old' ->
  Forall (fun c => c <> a) s ->
  replace_from old new 0 s = s.
Proof.
  intros -> Hs. induction Hs as [|c s Hc Hs IH]; simpl; [reflexivity|].
  destruct (N.eqb_spec a c) as [->|_]; [contradiction|].
  simpl. now rewrite IH.
Qed.

Lemma key_char_alnum c : is_key_char c = true -> is_ascii_alnum c = true.
Proof.
  unfold is_key_char, is_ascii_alnum.
  destruct (is_ascii_upper c), (is_ascii_lower c), (is_ascii_digit c); simpl; congruence.
Qed.

Lemma key_char_upper c : is_key_char c = true -> ascii_upper c = c.
Proof.
  unfold is_key_char, ascii_upper, is_ascii_upper, is_ascii_lower, is_ascii_digit.
  intros H. destruct ((97 <=? c) && (c <=? 122)) eqn:E; [|reflexivity].
  exfalso. lia.
Qed.

Lemma alnum_upper_key c : is_ascii_alnum c = true -> is_key_char (ascii_upper c) = true.
Proof.
  unfold is_key_char, is_ascii_alnum, ascii_upper, is_ascii_upper, is_ascii_lower, is_ascii_digit.
  intros H. destruct ((97 <=? c) && (c <=? 122)) eqn:E; lia.
Qed.

(** The common tail of both normalizers yields key characters only. *)
Lemma upper_filter_key (s : pystr) :
  Forall (fun c => is_key_char c = true) (upper (List.filter is_ascii_alnum s)).
Proof.
  unfold upper. induction s as [|c s IH]; simpl; [constructor|].
  destruct (is_ascii_alnum c) eqn:E; simpl; [|exact IH].
  constructor; [now apply alnum_upper_key | exact IH].
Qed.

Lemma upper_filter_fixed (k : pystr) :
  Forall (fun c => is_key_char c = true) k ->
  upper (List.filter is_ascii_alnum k) = k.
Proof.
  unfold upper. induction 1 as [|c k Hc Hk IH]; simpl; [reflexivity|].
  rewrite (key_char_alnum c Hc). simpl. rewrite IH, (key_char_upper c Hc). reflexivity.
Qed.

Lemma key_chars_no (a : N) (k : pystr) :
  is_key_char a = false ->
  Forall (fun c => is_key_char c = true) k ->
  Forall (fun c => c <> a) k.
Proof.
  intros Ha Hk. eapply List.Forall_impl; [|exact Hk].
  intros c Hc ->. congruence.
Qed.

Lemma map_fixed {A} (f : A -> A) (l : list A) :
  Forall (fun x => f x = x) l -> map f l = l.
Proof. induction 1; simpl; congruence. Qed.

(** ** The normalizers *)

Lemma S2_keyize_some (name : pystr) :
  S2._keyize (Some name) =
  upper (List.filter is_ascii_alnum (map (fun c => if c =? 95 then 32 else c) name)).
Proof.
  destruct name as [|c name]; [reflexivity|].
  unfold S2._keyize. change (py "_") with [95]. change (py " ") with [32].
  now rewrite replace_char.
Qed.

Lemma S1_keyize_some (name : pystr) :
  S1._keyize (Some name) =
  upper (List.filter is_ascii_alnum
           (map (fun c => if c =? 95 then 32 else c)
                (replace name S1.KEYIZE_OLD (py "'")))).
Proof.
  destruct name as [|c name]; [reflexivity|].
  unfold S1._keyize. change (py "_") with [95]. change (py " ") with [32].
  now rewrite replace_char.
Qed.

Lemma S2_keyize_key (name : option pystr) :
  Forall (fun c => is_key_char c = true) (S2._keyize name).
Proof.
  destruct name as [name|]; [|constructor].
  rewrite S2_keyize_some. apply upper_filter_key.
Qed.

Lemma S1_keyize_key (name : option pystr) :
  Forall (fun c => is_key_char c = true) (S1._keyize name).
Proof.
  destruct name as [name|]; [|constructor].
  rewrite S1_keyize_some. apply upper_filter_key.
Qed.

Lemma S2_keyize_of_key (k : pystr) :
  Forall (fun c => is_key_char c = true) k -> S2._keyize (Some k) = k.
Proof.
  intros Hk. rewrite S2_keyize_some.
  rewrite map_fixed; [now apply upper_filter_fixed|].
  eapply List.Forall_impl; [|exact (key_chars_no 95 k eq_refl Hk)].
  intros c Hc. simpl in Hc. destruct (N.eqb_spec c 95); congruence.
Qed.

Lemma S1_keyize_of_key (k : pystr) :
  Forall (fun c => is_key_char c = true) k -> S1._keyize (Some k) = k.
Proof.
  intros Hk. rewrite S1_keyize_some.
  assert (Hr : replace k S1.KEYIZE_OLD (py "'") = k).
  { change S1.KEYIZE_OLD with (44 :: tl S1.KEYIZE_OLD). unfold replace.
    apply (replace_from_absent _ _ k 44 (tl S1.KEYIZE_OLD) eq_refl).
    exact (key_chars_no 44 k eq_refl Hk). }
  rewrite Hr.
  rewrite map_fixed; [now apply upper_filter_fixed|].
  eapply List.Forall_impl; [|exact (key_chars_no 95 k eq_refl Hk)].
  intros c Hc. simpl in Hc. destruct (N.eqb_spec c 95); congruence.
Qed.

(** Both normalizers are idempotent and send None and '' to ''. *)
Lemma S2_keyize_idempotent (x : pystr) :
  S2._keyize (Some (S2._keyize (Some x))) = S2._keyize (Some x).
Proof. apply S2_keyize_of_key, S2_keyize_key. Qed.

Lemma S1_keyize_idempotent (x : pystr) :
  S1._keyize (Some (S1._keyize (Some x))) = S1._keyize (Some x).
Proof. apply S1_keyize_of_key, S1_keyize_key. Qed.

Lemma keyize_empty :
  S1._keyize None = [] /\ S1._keyize (Some []) = []
  /\ S2._keyize None = [] /\ S2._keyize (Some []) = [].
Proof. repeat split. Qed.

Lemma punctuation_not_alnum p : is_punctuation p = true -> is_ascii_alnum p = false.
Proof.
  unfold is_punctuation, is_ascii_alnum, is_ascii_upper, is_ascii_lower, is_ascii_digit.
  intros H.
  destruct ((65 <=? p) && (p <=? 90) || (97 <=? p) && (p <=? 122) || (48 <=? p) && (p <=? 57)) eqn:E;
    [exfalso; lia | reflexivity].
Qed.

Lemma case_variant_alnum c d :
  case_variant c d ->
  is_ascii_alnum c = true /\ is_ascii_alnum d = true /\ ascii_upper c = ascii_upper d.
Proof.
  unfold case_variant, is_ascii_alnum, ascii_upper, is_ascii_upper, is_ascii_lower, is_ascii_digit.
  intros [[H ->]|[H ->]].
  - destruct ((97 <=? c) && (c <=? 122)) eqn:E1; [exfalso; lia|].
    destruct ((97 <=? c + 32) && (c + 32 <=? 122)) eqn:E2; [|exfalso; lia].
    repeat split; lia.
  - destruct ((97 <=? d) && (d <=? 122)) eqn:E1; [exfalso; lia|].
    destruct ((97 <=? d + 32) && (d + 32 <=? 122)) eqn:E2; [|exfalso; lia].
    repeat split; lia.
Qed.

(** The normalizer of Sheet_update_new_remote.py identifies names that
    differ only by case, separator or punctuation. *)
Lemma S2_keyize_same_name (a b : pystr) :
  same_name a b -> S2._keyize (Some a) = S2._keyize (Some b).
Proof.
  intros H. rewrite !S2_keyize_some. unfold upper.
  induction H as [ | c a b H IH | c d a b Hcd H IH | a b H IH | a b H IH
                   | p a b Hp H IH | p a b Hp H IH ]; simpl.
  - reflexivity.
  - destruct (is_ascii_alnum (if c =? 95 then 32 else c)); simpl; congruence.
  - destruct (case_variant_alnum c d Hcd) as (Hc & Hd & Hu).
    assert ((c =? 95) = false) as ->.
    { apply N.eqb_neq. intros ->. discriminate Hc. }
    assert ((d =? 95) = false) as ->.
    { apply N.eqb_neq. intros ->. discriminate Hd. }
    rewrite Hc, Hd. simpl. congruence.
  - exact IH.
  - exact IH.
  - destruct (N.eqb_spec p 95); [exact IH|].
    rewrite (punctuation_not_alnum p Hp). exact IH.
  - destruct (N.eqb_spec p 95); [exact IH|].
    rewrite (punctuation_not_alnum p Hp). exact IH.
Qed.

(** The name on which the two normalizers part: the fifteen characters
    that line 85 of Sheet_Update_runt_this.py takes for an old
    substring, and the same with its letters in capitals. *)
Example S1_keyize_old : S1._keyize (Some S1.KEYIZE_OLD) = [].
Proof. vm_compute. reflexivity. Qed.

Lemma replace_from_no_occurrence (old new s : pystr) :
  occurs old s = false -> replace_from old new 0 s = s.
Proof.
  induction s as [|c s IH]; simpl; [reflexivity|].
  intros H. apply orb_false_iff in H as [H1 H2].
  rewrite H1. now rewrite IH.
Qed.

(** The two normalizers agree on every name in which the fifteen
    characters do not occur. *)
Lemma keyize_agree (name : pystr) :
  occurs S1.KEYIZE_OLD name = false ->
  S1._keyize (Some name) = S2._keyize (Some name).
Proof.
  intros H. rewrite S1_keyize_some, S2_keyize_some.
  change S1.KEYIZE_OLD with (44 :: tl S1.KEYIZE_OLD) in *.
  unfold replace. now rewrite replace_from_no_occurrence.
Qed.

(** C9, at the input where the claim fails: on the name made of the
    fifteen characters [, "'").replace(] the normalizer of
    Sheet_Update_runt_this.py returns the empty key and the normalizer of
    Sheet_update_new_remote.py returns REPLACE, so the two are not
    extensionally equal. *)
Theorem C9_keyize_versions_differ :
  S1._keyize (Some S1.KEYIZE_OLD) = []
  /\ S2._keyize (Some S1.KEYIZE_OLD) = py "REPLACE".
Proof. split; vm_compute; reflexivity. Qed.

(** C4, at the input where the claim fails: the name [, "'").replace(]
    and the same name with REPLACE in capitals differ only by letter
    case, and the normalizer of Sheet_Update_runt_this.py sends the first
    to the empty key and the second to REPLACE. *)
Theorem C4_keyize_case_variants_differ :
  same_name S1.KEYIZE_OLD KEYIZE_OLD_CAPS
  /\ S1._keyize (Some S1.KEYIZE_OLD) = []
  /\ S1._keyize (Some KEYIZE_OLD_CAPS) = py "REPLACE".
Proof.
  split; [|split; vm_compute; reflexivity].
  unfold S1.KEYIZE_OLD, KEYIZE_OLD_CAPS. cbn [py app].
  repeat first
    [ apply same_nil
    | apply same_char
    | apply same_case; [right; split; vm_compute; reflexivity|] ].
Qed.

(** ** The metric extractor *)

Lemma extract_laeq_lines_some (lines : list pystr) (tok : pystr) :
  S1.extract_laeq_lines lines = Some tok <->
  exists before line after,
    lines = before ++ line :: after
    /\ Forall (fun l => S1.data_line (split l) = false) before
    /\ S1.data_line (split line) = true
    /\ nth_error (split line) 4 = Some tok.
Proof.
  induction lines as [|l lines IH]; simpl.
  - split; [discriminate|].
    intros (before & line & after & H & _). now destruct before.
  - destruct (S1.data_line (split l)) eqn:E.
    + split.
      * intros H. exists [], l, lines. repeat split; auto.
      * intros (before & line & after & H & Hb & Hl & Ht).
        destruct before as [|b before]; simpl in H; injection H as -> ->; [exact Ht|].
        apply Forall_inv in Hb. congruence.
    + rewrite IH. split.
      * intros (before & line & after & -> & Hb & Hl & Ht).
        exists (l :: before), line, after. repeat split; auto.
      * intros (before & line & after & H & Hb & Hl & Ht).
        destruct before as [|b before]; simpl in H; injection H as -> ->; [congruence|].
        exists before, line, after. repeat split; auto.
        now apply Forall_inv_tail in Hb.
Qed.

Lemma extract_laeq_lines_none (lines : list pystr) :
  S1.extract_laeq_lines lines = None <->
  Forall (fun l => S1.data_line (split l) = false) lines.
Proof.
  induction lines as [|l lines IH]; simpl.
  - split; [constructor | reflexivity].
  - destruct (S1.data_line (split l)) eqn:E.
    + split.
      * intros H. exfalso.
        unfold S1.data_line in E.
        destruct (split l) as [|t0 [|t1 [|t2 [|t3 [|t4 r]]]]]; try discriminate.
      * intros H. apply Forall_inv in H. congruence.
    + rewrite IH. split.
      * intros H. now constructor.
      * intros H. now apply Forall_inv_tail in H.
Qed.

Lemma extract_laeq_lines_first (before : list pystr) (line : pystr) (rest : list pystr) :
  Forall (fun l => S1.data_line (split l) = false) before ->
  S1.data_line (split line) = true ->
  S1.extract_laeq_lines (before ++ line :: rest) = nth_error (split line) 4.
Proof.
  intros Hb Hl. induction Hb as [|b before Hb _ IH]; simpl.
  - now rewrite Hl.
  - now rewrite Hb.
Qed.

(** The condition on the tokens: five of them at least, the first four
    starting with a date, a time, a date and a time. *)
Lemma data_line_spec (toks : list pystr) :
  S1.data_line toks = true <->
  (5 <= length toks)%nat
  /\ exists t0 t1 t2 t3,
       nth_error toks 0 = Some t0 /\ nth_error toks 1 = Some t1
       /\ nth_error toks 2 = Some t2 /\ nth_error toks 3 = Some t3
       /\ re_match S1.DATE_RE t0 = true /\ re_match S1.TIME_RE t1 = true
       /\ re_match S1.DATE_RE t2 = true /\ re_match S1.TIME_RE t3 = true.
Proof.
  unfold S1.data_line.
  destruct toks as [|t0 [|t1 [|t2 [|t3 [|t4 r]]]]]; simpl;
    try (split; [discriminate | intros [H _]; lia]).
  rewrite !andb_true_iff. split.
  - intros [[[H0 H1] H2] H3]. split; [lia|].
    exists t0, t1, t2, t3. repeat split; auto.
  - intros (_ & u0 & u1 & u2 & u3 & E0 & E1 & E2 & E3 & H0 & H1 & H2 & H3).
    injection E0 as <-. injection E1 as <-. injection E2 as <-. injection E3 as <-.
    auto.
Qed.

(** What [match_prefix] returns is the split of the string at the length
    of the pattern, each character accepted by its atom. *)
Lemma match_prefix_spec (p : list atom) (s m rest : pystr) :
  match_prefix p s = Some (m, rest) <->
  s = m ++ rest /\ Forall2 (fun a ch => atom_accepts a ch = true) p m.
Proof.
  revert s m rest. induction p as [|a p IH]; intros s m rest; simpl.
  - split.
    + intros H. injection H as <- <-. split; [reflexivity | constructor].
    + intros [-> H]. inversion H. reflexivity.
  - destruct s as [|ch s].
    + split; [discriminate|]. intros [H1 H2]. inversion H2; subst. discriminate.
    + destruct (atom_accepts a ch) eqn:E.
      * destruct (match_prefix p s) as [[m' rest']|] eqn:Em.
        -- apply IH in Em as [-> Hm]. split.
           ++ intros H. injection H as <- <-. split; [reflexivity | now constructor].
           ++ intros [H1 H2]. inversion H2 as [|? ch' ? m'' Hacc Hrest]; subst.
              simpl in H1. injection H1 as <- H1.
              assert (Hx : match_prefix p (m' ++ rest') = Some (m'', rest)) by (apply IH; auto).
              assert (Hy : match_prefix p (m' ++ rest') = Some (m', rest')) by (apply IH; auto).
              congruence.
        -- split; [discriminate|].
           intros [H1 H2]. inversion H2 as [|? ch' ? m'' Hacc Hrest]; subst.
           simpl in H1. injection H1 as <- ->.
           assert (Hx : match_prefix p (m'' ++ rest) = Some (m'', rest)) by (apply IH; auto).
           congruence.
      * split; [discriminate|].
        intros [H1 H2]. inversion H2 as [|? ch' ? m'' Hacc Hrest]; subst.
        simpl in H1. injection H1 as <- ->. congruence.
Qed.

(** A token passes the date test when it starts with
    dddd-dd-dd, whatever follows. *)
Lemma re_match_date (t : pystr) :
  re_match S1.DATE_RE t = true <->
  exists y1 y2 y3 y4 m1 m2 d1 d2 rest,
    t = [y1; y2; y3; y4; 45; m1; m2; 45; d1; d2] ++ rest
    /\ Forall (fun c => isdecimal c = true) [y1; y2; y3; y4; m1; m2; d1; d2].
Proof.
  unfold re_match. split.
  - destruct (match_prefix S1.DATE_RE t) as [[m rest]|] eqn:E; [|discriminate].
    intros _. apply match_prefix_spec in E as [-> H].
    unfold S1.DATE_RE in H.
    repeat match goal with
           | H : Forall2 _ (_ :: _) _ |- _ => inversion H; subst; clear H
           | H : Forall2 _ [] _ |- _ => inversion H; subst; clear H
           end.
    simpl in *.
    repeat match goal with
           | H : (_ =? _) = true |- _ => apply N.eqb_eq in H; subst
           end.
    do 9 eexists. split; [reflexivity|]. repeat constructor; assumption.
  - intros (y1 & y2 & y3 & y4 & m1 & m2 & d1 & d2 & rest & -> & H).
    repeat match goal with
           | H : Forall _ (_ :: _) |- _ => inversion H; subst; clear H
           end.
    simpl.
    repeat match goal with
           | H : isdecimal _ = true |- _ => rewrite H; clear H
           end.
    reflexivity.
Qed.

Lemma re_match_time (t : pystr) :
  re_match S1.TIME_RE t = true <->
  exists h1 h2 m1 m2 s1 s2 rest,
    t = [h1; h2; 58; m1; m2; 58; s1; s2] ++ rest
    /\ Forall (fun c => isdecimal c = true) [h1; h2; m1; m2; s1; s2].
Proof.
  unfold re_match. split.
  - destruct (match_prefix S1.TIME_RE t) as [[m rest]|] eqn:E; [|discriminate].
    intros _. apply match_prefix_spec in E as [-> H].
    unfold S1.TIME_RE in H.
    repeat match goal with
           | H : Forall2 _ (_ :: _) _ |- _ => inversion H; subst; clear H
           | H : Forall2 _ [] _ |- _ => inversion H; subst; clear H
           end.
    simpl in *.
    repeat match goal with
           | H : (_ =? _) = true |- _ => apply N.eqb_eq in H; subst
           end.
    do 7 eexists. split; [reflexivity|]. repeat constructor; assumption.
  - intros (h1 & h2 & m1 & m2 & s1 & s2 & rest & -> & H).
    repeat match goal with
           | H : Forall _ (_ :: _) |- _ => inversion H; subst; clear H
           end.
    simpl.
    repeat match goal with
           | H : isdecimal _ = true |- _ => rewrite H; clear H
           end.
    reflexivity.
Qed.

Lemma data_line_qualifies (line : pystr) :
  S1.data_line (split line) = true <-> qualifies starts_with_date starts_with_time line.
Proof.
  rewrite data_line_spec. unfold qualifies, starts_with_date, starts_with_time,
    date_then, time_then. split.
  - intros (Hl & t0 & t1 & t2 & t3 & E0 & E1 & E2 & E3 & H0 & H1 & H2 & H3).
    destruct (split line) as [|u0 [|u1 [|u2 [|u3 [|u4 more]]]]]; cbn [length] in Hl; try lia.
    cbn in E0, E1, E2, E3.
    injection E0 as ->. injection E1 as ->. injection E2 as ->. injection E3 as ->.
    exists t0, t1, t2, t3, u4, more. split; [reflexivity|].
    apply re_match_date in H0 as (a1 & a2 & a3 & a4 & a5 & a6 & a7 & a8 & r0 & -> & H0).
    apply re_match_time in H1 as (b1 & b2 & b3 & b4 & b5 & b6 & r1 & -> & H1).
    apply re_match_date in H2 as (c1 & c2 & c3 & c4 & c5 & c6 & c7 & c8 & r2 & -> & H2).
    apply re_match_time in H3 as (e1 & e2 & e3 & e4 & e5 & e6 & r3 & -> & H3).
    split; [exists r0; do 8 eexists; split; [reflexivity | exact H0]|].
    split; [exists r1; do 6 eexists; split; [reflexivity | exact H1]|].
    split; [exists r2; do 8 eexists; split; [reflexivity | exact H2]|].
    exists r3; do 6 eexists; split; [reflexivity | exact H3].
  - intros (t0 & t1 & t2 & t3 & t4 & more & -> & H0 & H1 & H2 & H3).
    split; [cbn [length]; lia|].
    exists t0, t1, t2, t3. repeat (split; [reflexivity|]).
    split; [apply re_match_date; destruct H0 as (r & y1 & y2 & y3 & y4 & m1 & m2 & d1 & d2 & E & H);
            exists y1, y2, y3, y4, m1, m2, d1, d2, r; auto|].
    split; [apply re_match_time; destruct H1 as (r & h1 & h2 & m1 & m2 & s1 & s2 & E & H);
            exists h1, h2, m1, m2, s1, s2, r; auto|].
    split; [apply re_match_date; destruct H2 as (r & y1 & y2 & y3 & y4 & m1 & m2 & d1 & d2 & E & H);
            exists y1, y2, y3, y4, m1, m2, d1, d2, r; auto|].
    apply re_match_time; destruct H3 as (r & h1 & h2 & m1 & m2 & s1 & s2 & E & H);
      exists h1, h2, m1, m2, s1, s2, r; auto.
Qed.

Lemma data_line_false_qualifies (lines : list pystr) :
  Forall (fun l => S1.data_line (split l) = false) lines
  <-> Forall (fun l => ~ qualifies starts_with_date starts_with_time l) lines.
Proof.
  rewrite !List.Forall_forall. split; intros H l Hl; specialize (H l Hl); cbv beta in *.
  - rewrite <- data_line_qualifies, H. discriminate.
  - destruct (S1.data_line (split l)) eqn:E; [|reflexivity].
    apply data_line_qualifies in E. contradiction.
Qed.

Lemma extract_laeq_first_qualifying (text : pystr) :
  first_qualifying (qualifies starts_with_date starts_with_time) text (S1.extract_laeq text).
Proof.
  unfold first_qualifying, S1.extract_laeq. split.
  - intros tok. rewrite extract_laeq_lines_some. split.
    + intros (before & line & after & E & Hb & Hl & Ht).
      exists before, line, after. split; [exact E|].
      split; [now apply data_line_false_qualifies|].
      split; [now apply data_line_qualifies | exact Ht].
    + intros (before & line & after & E & Hb & Hl & Ht).
      exists before, line, after. split; [exact E|].
      split; [now apply data_line_false_qualifies|].
      split; [now apply data_line_qualifies | exact Ht].
  - rewrite extract_laeq_lines_none. apply data_line_false_qualifies.
Qed.

(** C2, amended statement.  [extract_laeq] returns token 4 of the first
    line that splits into five tokens at least and whose tokens 0 to 3
    START WITH dddd-dd-dd, dd:dd:dd, dddd-dd-dd and dd:dd:dd, each d a
    decimal digit of any script, whatever follows in the token; it
    returns None exactly when no line is such.  The lines after the first
    such line do not count, the token is returned as it stands, and both
    scripts define the same function. *)
Theorem C2_extract_laeq_first_data_line (text : pystr) :
  first_qualifying (qualifies starts_with_date starts_with_time) text (S1.extract_laeq text)
  /\ (forall text' before line after after',
        splitlines text = before ++ line :: after ->
        splitlines text' = before ++ line :: after' ->
        Forall (fun l => ~ qualifies starts_with_date starts_with_time l) before ->
        qualifies starts_with_date starts_with_time line ->
        S1.extract_laeq text' = S1.extract_laeq text
        /\ S1.extract_laeq text = nth_error (split line) 4)
  /\ S2.extract_laeq text = S1.extract_laeq text.
Proof.
  split; [apply extract_laeq_first_qualifying|]. split; [|reflexivity].
  intros text' before line after after' H H' Hb Hl.
  apply data_line_false_qualifies in Hb. apply data_line_qualifies in Hl.
  unfold S1.extract_laeq.
  rewrite H, H', !(extract_laeq_lines_first before line) by assumption.
  split; reflexivity.
Qed.

(** On the odd report the first line counts, though its first token is
    not a date: the answer is its token 4. *)
Lemma C2_extract_laeq_witness : S1.extract_laeq odd_report = Some (py "1.0").
Proof.
  apply (proj1 (C2_extract_laeq_first_data_line odd_report)).
  exists [], (py "2024-01-01x 00:00:00 2024-01-01 01:00:00 1.0"),
         [py "2024-01-01 00:00:00 2024-01-01 01:00:00 55.3"].
  split; [vm_compute; reflexivity|].
  split; [constructor|].
  split; [|vm_compute; reflexivity].
  exists (py "2024-01-01x"), (py "00:00:00"), (py "2024-01-01"), (py "01:00:00"), (py "1.0"), [].
  split; [vm_compute; reflexivity|].
  split; [exists (py "x"); do 8 eexists; split; [reflexivity | repeat constructor]|].
  split; [exists []; do 6 eexists; split; [reflexivity | repeat constructor]|].
  split; [exists []; do 8 eexists; split; [reflexivity | repeat constructor]|].
  exists []; do 6 eexists; split; [reflexivity | repeat constructor].
Defined.

(** C2, counterexample to the statement of the specification: were the
    tokens 0 to 3 required to BE a date, a time, a date and a time, the
    first line of the odd report would not qualify and the answer would
    be 55.3, from the second line; the code answers 1.0, from the
    first. *)
Lemma C2_counterexample :
  ~ first_qualifying (qualifies is_date is_time) odd_report (S1.extract_laeq odd_report).
Proof.
  intros [H _].
  destruct (proj1 (H (py "1.0"))) as (before & line & after & E & _ & Hq & Ht);
    [vm_compute; reflexivity|].
  change (splitlines odd_report)
    with [py "2024-01-01x 00:00:00 2024-01-01 01:00:00 1.0";
          py "2024-01-01 00:00:00 2024-01-01 01:00:00 55.3"] in E.
  destruct before as [|b0 [|b1 [|b2 before]]]; cbn [app] in E.
  - injection E as <- _.
    destruct Hq as (t0 & t1 & t2 & t3 & t4 & more & Es & H0 & _).
    vm_compute in Es. injection Es as <- _.
    destruct H0 as (y1 & y2 & y3 & y4 & m1 & m2 & d1 & d2 & E0 & _).
    vm_compute in E0. discriminate E0.
  - injection E as _ <- _. vm_compute in Ht. discriminate Ht.
  - injection E as _ _ E. discriminate E.
  - injection E as _ _ E. destruct before; discriminate E.
Qed.

(** The example of the specification: a line that does not qualify,
    then the data line whose token 4 is returned. *)
Example extract_laeq_sample : S1.extract_laeq sample_report = Some (py "55.3").
Proof. vm_compute. reflexivity. Qed.

(** The fifth token is not examined: any text is returned. *)
Example extract_laeq_verbatim :
  S1.extract_laeq (py "2024-01-01x 00:00:00 2024-01-01 01:00:00abc n/a") = Some (py "n/a").
Proof. vm_compute. reflexivity. Qed.

(** ** Decimal digits and [int] *)

Lemma decimal_value_zero (c v : N) :
  decimal_value c = Some v ->
  exists z, In z nd_zeros /\ z <= c < z + 10 /\ v = c - z.
Proof.
  unfold decimal_value.
  destruct (List.find _ nd_zeros) as [z|] eqn:E; [|discriminate].
  intros H. injection H as <-.
  apply List.find_some in E as [Hin Hz].
  exists z. repeat split; try assumption; lia.
Qed.

Lemma nd_zeros_ascii : Forall (fun z => z = 48 \/ 128 <= z) nd_zeros.
Proof. unfold nd_zeros. repeat (constructor; [lia|]). constructor. Qed.

Lemma nd_zeros_no_space :
  Forall (fun z => forall c, z <= c < z + 10 -> 128 <= c -> isspace c = false) nd_zeros.
Proof.
  unfold nd_zeros.
  repeat (constructor; [intros c H1 H2; unfold isspace; lia|]). constructor.
Qed.

Lemma to_ascii_char_decimal (c : N) :
  isdecimal c = true ->
  exists c', to_ascii_char c = Some c' /\ is_ascii_digit c' = true.
Proof.
  unfold isdecimal, to_ascii_char.
  destruct (decimal_value c) as [v|] eqn:E; [|discriminate]. intros _.
  apply decimal_value_zero in E as (z & Hin & Hz & ->).
  pose proof (proj1 (List.Forall_forall _ _) nd_zeros_ascii z Hin) as Ha.
  pose proof (proj1 (List.Forall_forall _ _) nd_zeros_no_space z Hin c Hz) as Hs.
  cbv beta in Ha, Hs.
  destruct (c <? 128) eqn:E1.
  - exists c. split; [reflexivity|]. unfold is_ascii_digit. lia.
  - rewrite Hs by lia. exists (48 + (c - z)). split; [reflexivity|].
    unfold is_ascii_digit. lia.
Qed.

Lemma to_ascii_decimal (s : pystr) :
  Forall (fun c => isdecimal c = true) s ->
  exists a, to_ascii_decimal_and_space s = Some a
            /\ length a = length s
            /\ Forall (fun c => is_ascii_digit c = true) a.
Proof.
  induction 1 as [|c s Hc Hs IH]; simpl.
  - exists []. repeat split. constructor.
  - destruct (to_ascii_char_decimal c Hc) as (c' & E & Hd).
    rewrite E.
    destruct IH as (a & -> & Hl & Ha).
    exists (c' :: a). repeat split; [simpl; congruence | now constructor].
Qed.

Lemma int_digits_ascii (a : pystr) (last : int_scan) (acc : Z) :
  Forall (fun c => is_ascii_digit c = true) a ->
  (0 <= acc)%Z ->
  a <> [] \/ last = ScanDigit ->
  exists n, int_digits last acc a = Some n
            /\ (acc * 10 ^ Z.of_nat (length a) <= n < (acc + 1) * 10 ^ Z.of_nat (length a))%Z.
Proof.
  intros Ha. revert last acc.
  induction Ha as [|c a Hc Ha IH]; intros last acc Hacc Hne.
  - destruct Hne as [Hne | ->]; [congruence|]. exists acc. simpl. split; [reflexivity | lia].
  - simpl int_digits. rewrite Hc.
    destruct (IH ScanDigit (acc * 10 + Z.of_N (c - 48))%Z) as (n & E & Hn); [lia | now right |].
    exists n. split; [exact E|].
    unfold is_ascii_digit in Hc.
    replace (Z.of_nat (length (c :: a))) with (Z.succ (Z.of_nat (length a))) by (simpl; lia).
    rewrite Z.pow_succ_r by lia.
    assert (0 < 10 ^ Z.of_nat (length a))%Z by (apply Z.pow_pos_nonneg; lia).
    nia.
Qed.

(** [int] of a non-empty string of decimal digits is a natural number
    below the power of ten of its length. *)
Lemma int_decimal (s : pystr) :
  s <> [] ->
  Forall (fun c => isdecimal c = true) s ->
  exists n, int s = Some n /\ (0 <= n < 10 ^ Z.of_nat (length s))%Z.
Proof.
  intros Hne Hs. unfold int.
  destruct (to_ascii_decimal s Hs) as (a & -> & Hl & Ha).
  destruct a as [|c a]; [destruct s; [congruence | discriminate]|].
  pose proof (Forall_inv Ha) as Hc.
  assert (Hstrip : c_lstrip (c :: a) = c :: a).
  { simpl. unfold is_ascii_digit in Hc.
    destruct (c_isspace c) eqn:E; [unfold c_isspace in E; lia | reflexivity]. }
  rewrite Hstrip.
  destruct (int_digits_ascii (c :: a) ScanStart 0 Ha) as (n & E & Hn);
    [lia | left; congruence |].
  exists n. rewrite <- Hl. split; [|lia].
  unfold is_ascii_digit in Hc.
  destruct (N.eq_dec c 43) as [->|]; [lia|].
  destruct (N.eq_dec c 45) as [->|]; [lia|].
  destruct c as [|p]; [exact E|].
  do 6 (destruct p as [p|p|]; try exact E); lia.
Qed.

(** ** Routing of an index to a folder (drive_upload_new_remote.py) *)

Lemma re_search_spec (p : list atom) (dollar : bool) (s m : pystr) :
  re_search p dollar s = Some m ->
  exists before rest,
    s = before ++ m ++ rest
    /\ Forall2 (fun a ch => atom_accepts a ch = true) p m
    /\ (dollar = true -> at_dollar rest = true).
Proof.
  induction s as [|c s IH]; simpl.
  - destruct (match_prefix p []) as [[m' rest]|] eqn:E; [|discriminate].
    destruct (negb dollar || at_dollar rest) eqn:D; [|discriminate].
    intros H. injection H as ->.
    apply match_prefix_spec in E as [E1 E2].
    exists [], rest. repeat split; auto.
    intros ->. exact D.
  - destruct (match_prefix p (c :: s)) as [[m' rest]|] eqn:E.
    + destruct (negb dollar || at_dollar rest) eqn:D.
      * intros H. injection H as ->.
        apply match_prefix_spec in E as [E1 E2].
        exists [], rest. repeat split; auto.
        intros ->. exact D.
      * intros H. destruct (IH H) as (before & rest' & -> & H1 & H2).
        exists (c :: before), rest'. repeat split; auto.
    + intros H. destruct (IH H) as (before & rest' & -> & H1 & H2).
      exists (c :: before), rest'. repeat split; auto.
Qed.

Lemma route_int_none (n : Z) : U2.route_int n = None <-> (n < 0)%Z.
Proof.
  unfold U2.route_int.
  destruct ((0 <=? n) && (n <=? 2))%Z eqn:E1; [split; [discriminate | lia]|].
  destruct ((3 <=? n) && (n <=? 5))%Z eqn:E2; [split; [discriminate | lia]|].
  destruct (5 <? n)%Z eqn:E3; [split; [discriminate | lia]|].
  split; [lia | reflexivity].
Qed.

Lemma file_index_digits (fname idx : pystr) :
  U2.file_index fname = Some idx ->
  length idx = 3%nat /\ Forall (fun c => isdecimal c = true) idx.
Proof.
  unfold U2.file_index.
  destruct (re_search U2.INDEX_RE false fname) as [m|] eqn:E; [|discriminate].
  intros H. injection H as <-.
  apply re_search_spec in E as (before & rest & _ & H & _).
  unfold U2.INDEX_RE in H. cbn [ignorecase py map app] in H.
  repeat match goal with
         | H : Forall2 _ (_ :: _) _ |- _ => inversion H; subst; clear H
         | H : Forall2 _ [] _ |- _ => inversion H; subst; clear H
         end.
  split; [reflexivity|].
  unfold U2.INDEX_RE_group1. cbn [skipn].
  repeat constructor; assumption.
Qed.

(** C10. An index of three decimal digits, which is what the file name
    pattern of the uploader extracts, is an integer from 0 to 999 and is
    routed to Remote3 (0 to 2), Remote4 (3 to 5) or Microphone (above 5),
    never to None; the final [return None] is reached only for a negative
    integer, hence for no string of decimal digits. *)
Theorem C10_route_index_to_folder_total :
  (forall idx,
     length idx = 3%nat ->
     Forall (fun c => isdecimal c = true) idx ->
     exists n,
       int idx = Some n /\ (0 <= n <= 999)%Z
       /\ U2.route_index_to_folder idx =
          Some (if (n <=? 2)%Z then U2.REMOTE3_NAME
                else if (n <=? 5)%Z then U2.REMOTE4_NAME
                else U2.MICROPHONE_NAME))
  /\ (forall fname idx,
        U2.file_index fname = Some idx ->
        length idx = 3%nat /\ Forall (fun c => isdecimal c = true) idx)
  /\ (forall s n,
        int s = Some n ->
        U2.route_int n = None ->
        (n < 0)%Z /\ ~ (s <> [] /\ Forall (fun c => isdecimal c = true) s)).
Proof.
  split; [|split].
  - intros idx Hl Hd.
    destruct (int_decimal idx) as (n & E & Hn); [now destruct idx | exact Hd |].
    rewrite Hl in Hn. change (10 ^ Z.of_nat 3)%Z with 1000%Z in Hn.
    exists n. split; [exact E|]. split; [lia|].
    unfold U2.route_index_to_folder, U2.route_int. rewrite E.
    destruct (n <=? 2)%Z eqn:E1.
    + replace ((0 <=? n) && true)%Z with true by lia. reflexivity.
    + replace ((0 <=? n) && false)%Z with false by lia.
      destruct (n <=? 5)%Z eqn:E2.
      * replace ((3 <=? n) && true)%Z with true by lia. reflexivity.
      * replace ((3 <=? n) && false)%Z with false by lia.
        replace (5 <? n)%Z with true by lia. reflexivity.
  - apply file_index_digits.
  - intros s n E Hr. apply route_int_none in Hr. split; [exact Hr|].
    intros [Hne Hd].
    destruct (int_decimal s Hne Hd) as (n' & E' & Hn'). rewrite E in E'.
    injection E' as <-. lia.
Qed.

Lemma C10_route_index_to_folder_witness :
  U2.file_index (py "WPH400_SLM_004_Report.txt") = Some (py "004")
  /\ exists n,
       int (py "004") = Some n /\ (0 <= n <= 999)%Z
       /\ U2.route_index_to_folder (py "004") =
          Some (if (n <=? 2)%Z then U2.REMOTE3_NAME
                else if (n <=? 5)%Z then U2.REMOTE4_NAME
                else U2.MICROPHONE_NAME).
Proof.
  split; [vm_compute; reflexivity|].
  apply (proj1 C10_route_index_to_folder_total (py "004")).
  - reflexivity.
  - repeat constructor; vm_compute; reflexivity.
Defined.

Example route_samples :
  U2.route_index_to_folder (py "002") = Some (py "Remote3")
  /\ U2.route_index_to_folder (py "005") = Some (py "Remote4")
  /\ U2.route_index_to_folder (py "018") = Some (py "Microphone")
  /\ U2.route_index_to_folder (py "-01") = None
  /\ U2.route_index_to_folder (py "abc") = None.
Proof. vm_compute. repeat split. Qed.

(** ** Bounded search below a folder *)

Section Listing.
Variable ls : pystr -> list DriveFile.t.
Variable test : DriveFile.t -> bool.

Lemma deep_spec (r : nat) (f : pystr) :
  deep ls test r f = true <->
  exists x k g,
    (k < r)%nat /\ reaches ls k f g
    /\ In x (ls g) /\ is_folder x = false /\ test x = true.
Proof.
  revert f. induction r as [|r IH]; intros f; simpl.
  - split; [discriminate|]. intros (x & k & g & Hk & _). lia.
  - rewrite orb_true_iff, !existsb_exists. split.
    + intros [(x & Hin & Hx) | (ch & Hin & Hch)].
      * apply andb_true_iff in Hx as [Hf Ht]. apply negb_true_iff in Hf.
        exists x, 0%nat, f. repeat split; auto; [lia | constructor].
      * apply List.filter_In in Hin as [Hin Hf].
        apply IH in Hch as (x & k & g & Hk & Hr & Hx).
        exists x, (S k), g. repeat split; try tauto; [lia|].
        econstructor; eauto.
    + intros (x & k & g & Hk & Hr & Hin & Hf & Ht).
      inversion Hr as [f' | k' f' ch g' Hch Hchf Hr']; subst.
      * left. exists x. split; [exact Hin|]. now rewrite Hf, Ht.
      * right. exists ch. split; [apply List.filter_In; auto|].
        apply IH. exists x, k', g. repeat split; auto. lia.
Qed.

Lemma deep_file_within (levels : nat) (f : pystr) :
  deep ls test (S levels) f = true <-> exists x, file_within ls test levels f x.
Proof.
  rewrite deep_spec. unfold file_within. split.
  - intros (x & k & g & Hk & H). exists x, k, g. split; [lia | exact H].
  - intros (x & k & g & Hk & H). exists x, k, g. split; [lia | exact H].
Qed.

End Listing.

Lemma existsb_map {A B} (f : B -> bool) (g : A -> B) (l : list A) :
  existsb f (map g l) = existsb (fun x => f (g x)) l.
Proof. induction l as [|x l IH]; simpl; [reflexivity | now rewrite IH]. Qed.

(** The probe loop of Sheet_Update_runt_this.py answers whether some
    entry of the deque has a report within the levels left to it. *)
Lemma S1_probe_loop_spec (svc : DriveService) (max_depth : nat) (dq : list (pystr * nat)) :
  S1.probe_loop svc max_depth dq =
  existsb (fun it => deep (S1.list_children svc)
                          (fun ch => S1._is_report_file (DriveFile.name ch))
                          (S max_depth - snd it) (fst it)) dq.
Proof.
  funelim (S1.probe_loop svc max_depth dq).
  - reflexivity.
  - match goal with IH : S1.probe_loop _ _ _ = existsb _ _ |- _ => rewrite IH end.
    match goal with E : (_ <? _)%nat = true |- _ => pose proof (proj1 (Nat.ltb_lt _ _) E) end.
    cbn [existsb fst snd].
    replace (S max_depth - d)%nat with 0%nat by lia. reflexivity.
  - match goal with E : (_ <? _)%nat = false |- _ => pose proof (proj1 (Nat.ltb_ge _ _) E) end.
    cbn [existsb fst snd].
    replace (S max_depth - d)%nat with (S (max_depth - d)) by lia.
    cbn [deep]. rewrite Heq. reflexivity.
  - match goal with IH : S1.probe_loop _ _ _ = existsb _ _ |- _ => rewrite IH end.
    match goal with E : (_ <? _)%nat = false |- _ => pose proof (proj1 (Nat.ltb_ge _ _) E) end.
    rewrite existsb_app. cbn [existsb fst snd].
    replace (S max_depth - d)%nat with (S (max_depth - d)) by lia.
    cbn [deep]. rewrite Heq. cbn [orb]. rewrite orb_comm.
    apply (f_equal2 orb); [|reflexivity].
    rewrite existsb_map. reflexivity.
Qed.

(** ** Choice among the folders of a class (Sheet_Update_runt_this.py) *)

Lemma S1_folder_has_any_report_spec (svc : DriveService) (folder_id : pystr) :
  S1._folder_has_any_report svc folder_id = true <-> has_report svc folder_id.
Proof.
  unfold S1._folder_has_any_report, has_report.
  rewrite S1_probe_loop_spec. cbn [existsb fst snd]. rewrite orb_false_r.
  change (7 - 0)%nat with 7%nat. apply deep_file_within.
Qed.

Lemma find_first {A} (f : A -> bool) (before : list A) (x : A) (after : list A) :
  Forall (fun y => f y = false) before ->
  f x = true ->
  List.find f (before ++ x :: after) = Some x.
Proof.
  intros Hb Hx. induction Hb as [|y before Hy _ IH]; simpl.
  - now rewrite Hx.
  - now rewrite Hy.
Qed.

Lemma find_none_all {A} (f : A -> bool) (l : list A) :
  Forall (fun y => f y = false) l -> List.find f l = None.
Proof. induction 1 as [|y l Hy _ IH]; simpl; [reflexivity | now rewrite Hy]. Qed.

(** ** Reports by index (Sheet_update_new_remote.py) *)

Lemma walk_yields_unfold (svc : DriveService) (max_depth : nat) (x : DriveFile.t)
    (fid : pystr) (d : nat) :
  walk_yields svc max_depth x (fid, d) <->
  (In x (S2.list_children svc fid) /\ is_folder x = false)
  \/ ((d < max_depth)%nat
      /\ exists ch, In ch (List.filter is_folder (S2.list_children svc fid))
                    /\ walk_yields svc max_depth x (DriveFile.id ch, S d)).
Proof.
  unfold walk_yields. cbn [fst snd]. split.
  - intros (k & g & Hk & Hr & Hin & Hf).
    inversion Hr as [f' | k' f' ch g' Hch Hchf Hr']; subst.
    + left. auto.
    + right. split; [lia|]. exists ch. split; [apply List.filter_In; auto|].
      exists k', g. repeat split; auto. lia.
  - intros [[Hin Hf] | (Hd & ch & Hch & k & g & Hk & Hr & Hin & Hf)].
    + exists 0%nat, fid. repeat split; auto; [lia | constructor].
    + apply List.filter_In in Hch as [Hch Hchf].
      exists (S k), g. repeat split; auto; [lia|].
      econstructor; eauto.
Qed.

Lemma S2_list_files_loop_spec (svc : DriveService) (max_depth : nat)
    (dq : list (pystr * nat)) (x : DriveFile.t) :
  In x (S2.list_files_loop svc max_depth dq) <->
  Exists (walk_yields svc max_depth x) dq.
Proof.
  funelim (S2.list_files_loop svc max_depth dq).
  - split; [intros [] | intros H; inversion H].
  - match goal with E : (_ <? _)%nat = true |- _ => pose proof (proj1 (Nat.ltb_lt _ _) E) end.
    match goal with IH : forall x, In x _ <-> _ |- _ => rename IH into IHq end.
    rewrite in_app_iff, IHq, List.Exists_app, List.Exists_cons, walk_yields_unfold.
    rewrite List.filter_In, negb_true_iff.
    rewrite !List.Exists_exists.
    split.
    + intros [Hx | [Hx | (it & Hit & Hw)]]; [tauto | tauto |].
      apply in_map_iff in Hit as (ch & <- & Hch).
      left. right. split; [assumption|]. exists ch. auto.
    + intros [[Hx | (_ & ch & Hch & Hw)] | Hx]; [tauto | | tauto].
      right. right. exists (DriveFile.id ch, S d). split; [|assumption].
      apply in_map_iff. exists ch. auto.
  - match goal with E : (_ <? _)%nat = false |- _ => pose proof (proj1 (Nat.ltb_ge _ _) E) end.
    match goal with IH : forall x, In x _ <-> _ |- _ => rename IH into IHq end.
    rewrite in_app_iff, IHq, List.Exists_cons, walk_yields_unfold.
    rewrite List.filter_In, negb_true_iff.
    split.
    + intros [Hx | Hx]; tauto.
    + intros [[Hx | (Hd & _)] | Hx]; [tauto | lia | tauto].
Qed.

Lemma S2_list_files_recursive_spec (svc : DriveService) (parent_id : pystr)
    (max_depth : nat) (x : DriveFile.t) :
  In x (S2.list_files_recursive svc parent_id max_depth) <->
  file_within (S2.list_children svc) (fun _ => true) max_depth parent_id x.
Proof.
  unfold S2.list_files_recursive. rewrite S2_list_files_loop_spec.
  rewrite List.Exists_cons, List.Exists_nil.
  unfold walk_yields, file_within. cbn [fst snd]. rewrite Nat.sub_0_r.
  split.
  - intros [(k & g & H1 & H2 & H3 & H4) | []]. exists k, g. auto.
  - intros (k & g & H1 & H2 & H3 & H4 & _). left. exists k, g. auto.
Qed.

(** *** The order of names and the stable sort *)

Lemma str_leb_refl (a : pystr) : str_leb a a = true.
Proof.
  induction a as [|x a IH]; simpl; [reflexivity|].
  rewrite N.eqb_refl, IH. apply orb_true_r.
Qed.

Lemma str_leb_total (a b : pystr) : str_leb a b = true \/ str_leb b a = true.
Proof.
  revert b. induction a as [|x a IH]; intros [|y b]; simpl; auto.
  destruct (IH b) as [H|H]; rewrite H; lia.
Qed.

Lemma str_leb_trans (a b c : pystr) :
  str_leb a b = true -> str_leb b c = true -> str_leb a c = true.
Proof.
  revert b c. induction a as [|x a IH]; intros [|y b] [|z c]; simpl; auto; try discriminate.
  intros H1 H2.
  destruct (str_leb a b) eqn:Eab, (str_leb b c) eqn:Ebc;
    try rewrite (IH b c Eab Ebc); lia.
Qed.

Lemma str_leb_antisym (a b : pystr) :
  str_leb a b = true -> str_leb b a = true -> a = b.
Proof.
  revert b. induction a as [|x a IH]; intros [|y b]; simpl; auto; try discriminate.
  intros H1 H2.
  assert (x = y) as -> by lia.
  rewrite N.ltb_irrefl, N.eqb_refl in H1, H2. simpl in H1, H2.
  f_equal. now apply IH.
Qed.

Section Sorting.
Context {A : Type} (key : A -> pystr).

Lemma insert_sorted_In (x y : A) (l : list A) :
  In y (insert_sorted key x l) <-> y = x \/ In y l.
Proof.
  induction l as [|z l IH]; simpl; [intuition congruence|].
  destruct (str_leb (key x) (key z)); simpl; [intuition congruence|].
  rewrite IH. intuition congruence.
Qed.

Lemma sort_by_In (y : A) (l : list A) : In y (sort_by key l) <-> In y l.
Proof.
  induction l as [|x l IH]; simpl; [tauto|].
  rewrite insert_sorted_In, IH. intuition congruence.
Qed.

Lemma insert_sorted_ordered (x : A) (l : list A) :
  ordered key l -> ordered key (insert_sorted key x l).
Proof.
  unfold ordered. induction 1 as [|z l Hl IH Hz]; simpl.
  - repeat constructor.
  - destruct (str_leb (key x) (key z)) eqn:E.
    + constructor; [now constructor|].
      constructor; [exact E|].
      eapply List.Forall_impl; [|exact Hz].
      intros a Ha. cbv beta in *. eapply str_leb_trans; eauto.
    + constructor; [exact IH|].
      apply List.Forall_forall. intros a Ha.
      apply insert_sorted_In in Ha as [->|Ha].
      * destruct (str_leb_total (key x) (key z)); congruence.
      * exact (proj1 (List.Forall_forall _ _) Hz a Ha).
Qed.

Lemma sort_by_ordered (l : list A) : ordered key (sort_by key l).
Proof.
  induction l as [|x l IH]; simpl; [constructor | now apply insert_sorted_ordered].
Qed.

Lemma ordered_last (l : list A) (d : A) :
  ordered key l -> l <> [] ->
  In (List.last l d) l /\ forall y, In y l -> str_leb (key y) (key (List.last l d)) = true.
Proof.
  unfold ordered. induction 1 as [|z l Hl IH Hz]; [congruence|]. intros _.
  destruct l as [|z' l].
  - simpl. split; [auto|]. intros y [<-|[]]. apply str_leb_refl.
  - destruct IH as [IH1 IH2]; [congruence|].
    change (List.last (z :: z' :: l) d) with (List.last (z' :: l) d).
    split; [now right|].
    intros y [<-|Hy]; [|now apply IH2].
    exact (proj1 (List.Forall_forall _ _) Hz _ IH1).
Qed.

(** The last element of the sorted list is a greatest element. *)
Lemma sort_by_last (l : list A) (d : A) :
  l <> [] ->
  In (List.last (sort_by key l) d) l
  /\ forall y, In y l -> str_leb (key y) (key (List.last (sort_by key l) d)) = true.
Proof.
  intros Hne.
  assert (Hs : sort_by key l <> []).
  { destruct l as [|x l]; [congruence|]. intros E.
    assert (Hx : In x (sort_by key (x :: l))) by (apply sort_by_In; now left).
    rewrite E in Hx. destruct Hx. }
  destruct (ordered_last (sort_by key l) d (sort_by_ordered l) Hs) as [H1 H2].
  split; [now apply sort_by_In|].
  intros y Hy. apply H2. now apply sort_by_In.
Qed.

End Sorting.

(** *** Indexes of three ASCII digits *)

Lemma three_digits_check :
  forallb (fun a => forallb (fun b => forallb (fun c =>
    bool_decide (format_03d <$> int [a; b; c] = Some [a; b; c]))
    ascii_digits) ascii_digits) ascii_digits = true.
Proof. vm_compute. reflexivity. Qed.

Lemma ascii_digit_In (c : N) : is_ascii_digit c = true -> In c ascii_digits.
Proof.
  unfold is_ascii_digit, ascii_digits. intros H.
  assert (c = 48 \/ c = 49 \/ c = 50 \/ c = 51 \/ c = 52
          \/ c = 53 \/ c = 54 \/ c = 55 \/ c = 56 \/ c = 57) by lia.
  simpl. intuition auto.
Qed.

(** [f"{int(idx):03d}"] gives back an index of three ASCII digits. *)
Lemma three_digits_roundtrip (idx : pystr) :
  length idx = 3%nat ->
  Forall (fun c => is_ascii_digit c = true) idx ->
  exists n, int idx = Some n /\ format_03d n = idx.
Proof.
  destruct idx as [|a [|b [|c [|]]]]; try discriminate. intros _ H.
  inversion H as [|? ? Ha H']; subst. inversion H' as [|? ? Hb H'']; subst.
  inversion H'' as [|? ? Hc _]; subst.
  pose proof three_digits_check as Hk.
  rewrite forallb_forall in Hk. specialize (Hk a (ascii_digit_In a Ha)).
  rewrite forallb_forall in Hk. specialize (Hk b (ascii_digit_In b Hb)).
  rewrite forallb_forall in Hk. specialize (Hk c (ascii_digit_In c Hc)).
  apply bool_decide_eq_true in Hk.
  destruct (int [a; b; c]) as [n|]; [|discriminate].
  exists n. split; [reflexivity|]. now injection Hk.
Qed.

(** *** The name of a report for an index *)

Lemma Lit_accepts (c ch : N) : atom_accepts (Lit c) ch = true -> ch = c.
Proof. cbn [atom_accepts]. apply N.eqb_eq. Qed.

Lemma LitI_accepts (c ch : N) :
  ignorecase_extra c = [] ->
  atom_accepts (LitI c) ch = true ->
  ascii_lower ch = ascii_lower c.
Proof.
  cbn [atom_accepts]. intros ->. cbn [existsb]. rewrite orb_false_r. apply N.eqb_eq.
Qed.

(** A name passes [is_target_report_for_index] only if it ends, up to a
    final newline, with an underscore, the index, and _123_Report.txt in
    any letter case. *)
Lemma S2_is_target_report_for_index_name (name idx : pystr) :
  S2.is_target_report_for_index name idx = true ->
  exists before tail rest,
    name = before ++ [95] ++ idx ++ tail ++ rest
    /\ lower tail = py "_123_report.txt"
    /\ at_dollar rest = true
    /\ length idx = 3%nat
    /\ Forall (fun c => isdecimal c = true) idx.
Proof.
  unfold S2.is_target_report_for_index.
  destruct (re_search S2.INDEX_RE true name) as [m|] eqn:E; [|discriminate].
  intros Hg. apply bool_decide_eq_true in Hg.
  apply re_search_spec in E as (before & rest & -> & H & Hd).
  change S2.INDEX_RE
    with [Lit 95; Digit; Digit; Digit; Lit 95; Lit 49; Lit 50; Lit 51; Lit 95;
          LitI 82; LitI 101; LitI 112; LitI 111; LitI 114; LitI 116; Lit 46;
          LitI 116; LitI 120; LitI 116] in H.
  repeat match goal with
         | H : Forall2 _ (_ :: _) _ |- _ => inversion H; subst; clear H
         | H : Forall2 _ [] _ |- _ => inversion H; subst; clear H
         end.
  repeat match goal with
         | H : atom_accepts (Lit _) _ = true |- _ => apply Lit_accepts in H; subst
         | H : atom_accepts (LitI _) _ = true |- _ =>
             apply LitI_accepts in H; [|reflexivity]
         end.
  cbn [S2.INDEX_RE_group1 skipn firstn].
  match goal with
  | |- context [[95; ?d1; ?d2; ?d3; 95; 49; 50; 51; 95; ?a; ?b; ?c; ?d; ?e; ?f; 46; ?g; ?h; ?i]] =>
      exists before, [95; 49; 50; 51; 95; a; b; c; d; e; f; 46; g; h; i], rest
  end.
  split; [reflexivity|].
  split.
  { unfold lower. cbn [map].
    repeat match goal with H : ascii_lower _ = _ |- _ => rewrite H; clear H end.
    reflexivity. }
  split; [now apply Hd|].
  split; [reflexivity|].
  repeat constructor; assumption.
Qed.

(** ** Names of reports *)

(** Every ASCII digit is a decimal digit; the decimal digits of other
    scripts, such as the Arabic-Indic zero, are not ASCII. *)
Lemma ascii_digit_decimal (c : N) : is_ascii_digit c = true -> isdecimal c = true.
Proof.
  intros H. apply ascii_digit_In in H. cbn [In ascii_digits] in H.
  repeat (destruct H as [<-|H]; [vm_compute; reflexivity|]). destruct H.
Qed.

Example decimal_not_ascii : isdecimal 1632 = true /\ is_ascii_digit 1632 = false.
Proof. vm_compute. split; reflexivity. Qed.

Lemma startswith_spec (p s : pystr) :
  startswith s p = true <-> exists rest, s = p ++ rest.
Proof.
  revert s. induction p as [|a p IH]; intros s; cbn [startswith].
  - split; [intros _; exists s; reflexivity | reflexivity].
  - destruct s as [|b s].
    + split; [discriminate | intros (rest & E); discriminate E].
    + rewrite andb_true_iff, IH, N.eqb_eq. split.
      * intros (-> & rest & ->). exists rest. reflexivity.
      * intros (rest & E). injection E as -> ->. split; [reflexivity|]. exists rest. reflexivity.
Qed.

Lemma endswith_spec (s suffix : pystr) :
  endswith s suffix = true <-> exists before, s = before ++ suffix.
Proof.
  unfold endswith. rewrite startswith_spec. split.
  - intros (rest & E). exists (rev rest).
    rewrite <- (rev_involutive s), E, rev_app_distr, rev_involutive. reflexivity.
  - intros (before & ->). exists (rev before). apply rev_app_distr.
Qed.

(** The characters that the atoms of the suffix accept are those that
    [lower] sends to the characters of _123_report.txt. *)
Lemma suffix_accepts (tail : pystr) :
  report_suffix tail <->
  Forall2 (fun a ch => atom_accepts a ch = true) (ignorecase "_123_Report.txt") tail.
Proof.
  unfold report_suffix.
  change (ignorecase "_123_Report.txt")
    with [Lit 95; Lit 49; Lit 50; Lit 51; Lit 95;
          LitI 82; LitI 101; LitI 112; LitI 111; LitI 114; LitI 116; Lit 46;
          LitI 116; LitI 120; LitI 116].
  change (py "_123_report.txt")
    with [95; 49; 50; 51; 95; 114; 101; 112; 111; 114; 116; 46; 116; 120; 116].
  assert (Hlit : forall c ch, is_ascii_lower c = false -> is_ascii_upper c = false ->
                   (ascii_lower ch = c <-> atom_accepts (Lit c) ch = true)).
  { intros c ch H1 H2. cbn [atom_accepts]. rewrite N.eqb_eq.
    unfold ascii_lower, is_ascii_lower, is_ascii_upper in *.
    destruct ((65 <=? ch) && (ch <=? 90)) eqn:E; lia. }
  assert (Hci : forall c ch, ignorecase_extra c = [] ->
                  (ascii_lower ch = ascii_lower c <-> atom_accepts (LitI c) ch = true)).
  { intros c ch H. cbn [atom_accepts]. rewrite H. cbn [existsb].
    rewrite orb_false_r, N.eqb_eq. reflexivity. }
  split.
  - intros H.
    do 15 (destruct tail as [|? tail]; [discriminate H|]).
    destruct tail; [|discriminate H].
    unfold lower in H. cbn [map] in H.
    injection H as H1 H2 H3 H4 H5 H6 H7 H8 H9 H10 H11 H12 H13 H14 H15.
    repeat constructor;
      first [ apply Hlit; [reflexivity | reflexivity | assumption]
            | apply Hci; [reflexivity | assumption] ].
  - intros H.
    repeat match goal with
           | H : Forall2 _ (_ :: _) _ |- _ => inversion H; subst; clear H
           | H : Forall2 _ [] _ |- _ => inversion H; subst; clear H
           end.
    repeat match goal with
           | H : atom_accepts (Lit _) _ = true |- _ =>
               apply Hlit in H; [|reflexivity|reflexivity]
           | H : atom_accepts (LitI _) _ = true |- _ =>
               apply Hci in H; [|reflexivity]
           end.
    unfold lower. cbn [map].
    repeat match goal with H : ascii_lower _ = _ |- _ => rewrite H; clear H end.
    reflexivity.
Qed.

(** The pattern of the index matches at an underscore followed by three
    decimal digits and the suffix. *)
Lemma index_match (m rest : pystr) :
  match_prefix S2.INDEX_RE (m ++ rest) = Some (m, rest) <->
  exists idx tail,
    m = [95] ++ idx ++ tail
    /\ length idx = 3%nat
    /\ Forall (fun c => isdecimal c = true) idx
    /\ report_suffix tail.
Proof.
  rewrite match_prefix_spec. unfold S2.INDEX_RE. split.
  - intros [_ H].
    apply Forall2_app_inv_l in H as (m1 & tail & H1 & H2 & ->).
    apply suffix_accepts in H2.
    repeat match goal with
           | H : Forall2 _ (_ :: _) _ |- _ => inversion H; subst; clear H
           | H : Forall2 _ [] _ |- _ => inversion H; subst; clear H
           end.
    match goal with H : atom_accepts (Lit 95) _ = true |- _ => apply Lit_accepts in H; subst end.
    cbn [atom_accepts] in *.
    match goal with
    | |- context [[95; ?d1; ?d2; ?d3] ++ tail] => exists [d1; d2; d3], tail
    end.
    split; [reflexivity|]. split; [reflexivity|]. split; [|assumption].
    repeat constructor; assumption.
  - intros (idx & tail & -> & Hl & Hd & Ht). split; [reflexivity|].
    destruct idx as [|d1 [|d2 [|d3 [|]]]]; try discriminate Hl.
    inversion Hd as [|? ? H1 Hd']; subst. inversion Hd' as [|? ? H2 Hd'']; subst.
    inversion Hd'' as [|? ? H3 _]; subst.
    change ([95] ++ [d1; d2; d3] ++ tail) with ([95; d1; d2; d3] ++ tail).
    apply Forall2_app; [|now apply suffix_accepts].
    repeat constructor; assumption.
Qed.

(** A match that [$] lets pass is found by the search, here or further
    left. *)
Lemma re_search_finds (p : list atom) (before s m rest : pystr) :
  match_prefix p s = Some (m, rest) ->
  at_dollar rest = true ->
  exists m', re_search p true (before ++ s) = Some m'.
Proof.
  intros Hm Hd. induction before as [|c before IH].
  - exists m. cbn [app].
    destruct s as [|c s]; cbn [re_search]; rewrite Hm, Hd; reflexivity.
  - cbn [app re_search].
    destruct (match_prefix p (c :: before ++ s)) as [[m0 rest0]|]; [|exact IH].
    destruct (negb true || at_dollar rest0); [eexists; reflexivity | exact IH].
Qed.

Lemma at_dollar_rest (rest : pystr) : at_dollar rest = true <-> rest = [] \/ rest = [10].
Proof.
  destruct rest as [|c [|d rest]]; cbn [at_dollar].
  - split; [now left | reflexivity].
  - rewrite N.eqb_eq. split; [intros ->; now right | intros [H|H]; [discriminate H | now injection H]].
  - split; [discriminate | intros [H|H]; discriminate H].
Qed.

(** A text has one match of the pattern of the index at most, since the
    match ends at the end of the text or before its final newline, and
    does not end with a newline itself. *)
Lemma index_match_unique (before m rest before' m' rest' : pystr) :
  before ++ m ++ rest = before' ++ m' ++ rest' ->
  match_prefix S2.INDEX_RE (m ++ rest) = Some (m, rest) ->
  match_prefix S2.INDEX_RE (m' ++ rest') = Some (m', rest') ->
  at_dollar rest = true -> at_dollar rest' = true ->
  m = m'.
Proof.
  intros E Hm Hm' Hd Hd'.
  assert (Hlast : forall m rest, match_prefix S2.INDEX_RE (m ++ rest) = Some (m, rest) ->
                    length m = 19%nat
                    /\ exists c, last m = Some c /\ c <> 10).
  { clear. intros m rest H. apply match_prefix_spec in H as [_ H].
    split; [apply Forall2_length in H; rewrite <- H; reflexivity|].
    change S2.INDEX_RE
      with ([Lit 95; Digit; Digit; Digit; Lit 95; Lit 49; Lit 50; Lit 51; Lit 95;
             LitI 82; LitI 101; LitI 112; LitI 111; LitI 114; LitI 116; Lit 46;
             LitI 116; LitI 120] ++ [LitI 116]) in H.
    apply Forall2_app_inv_l in H as (m1 & m2 & _ & H2 & ->).
    inversion H2 as [|? c ? ? Hc H3]; subst. inversion H3; subst.
    exists c. split; [apply last_snoc|].
    intros ->. vm_compute in Hc. discriminate Hc. }
  destruct (Hlast m rest Hm) as (Hl & c & Hc & Hn).
  destruct (Hlast m' rest' Hm') as (Hl' & c' & Hc' & Hn').
  apply at_dollar_rest in Hd, Hd'.
  assert (Hsame : length rest = length rest' -> m = m').
  { intros Hr. rewrite !app_assoc in E.
    apply app_inj_2 in E as [E _]; [|exact Hr].
    apply app_inj_2 in E as [_ E]; [exact E | congruence]. }
  assert (Hends : forall b n : pystr, n <> [] -> last (b ++ n ++ []) = last n).
  { intros b n Hne. rewrite app_nil_r, last_app. destruct (last n) eqn:El; [reflexivity|].
    apply last_None in El. contradiction. }
  assert (Hnl : forall b n : pystr, last (b ++ n ++ [10]) = Some 10).
  { intros b n. rewrite !app_assoc. apply last_snoc. }
  destruct Hd as [->| ->], Hd' as [->| ->]; try (apply Hsame; reflexivity); exfalso.
  - apply (f_equal (last (A:=N))) in E. rewrite Hnl, Hends, Hc in E; [congruence|].
    intros ->. discriminate Hl.
  - apply (f_equal (last (A:=N))) in E. rewrite Hnl, Hends, Hc' in E; [congruence|].
    intros ->. discriminate Hl'.
Qed.

(** The test of Sheet_update_new_remote.py for the name of a report of
    an index. *)
Lemma S2_is_target_report_for_index_spec (name idx : pystr) :
  length idx = 3%nat ->
  Forall (fun c => isdecimal c = true) idx ->
  S2.is_target_report_for_index name idx = true <-> report_name_for idx name.
Proof.
  intros Hl Hd. split.
  - intros H. apply S2_is_target_report_for_index_name in H
      as (before & tail & rest & E & Ht & Hr & _).
    exists before, tail, rest. split; [exact E|]. split; [exact Ht|].
    now apply at_dollar_rest.
  - intros (before & tail & rest & -> & Ht & Hr).
    apply at_dollar_rest in Hr.
    assert (Hm : match_prefix S2.INDEX_RE (([95] ++ idx ++ tail) ++ rest)
                 = Some ([95] ++ idx ++ tail, rest)).
    { apply index_match. exists idx, tail. auto. }
    destruct (re_search_finds S2.INDEX_RE before _ _ _ Hm Hr) as (m' & Hs).
    unfold S2.is_target_report_for_index.
    replace (before ++ [95] ++ idx ++ tail ++ rest)
      with (before ++ ([95] ++ idx ++ tail) ++ rest)
      by (rewrite <- !app_assoc; reflexivity).
    rewrite Hs. apply bool_decide_eq_true.
    pose proof (re_search_spec _ _ _ _ Hs) as (before' & rest' & E & Hacc & Hd').
    specialize (Hd' eq_refl).
    assert (Hm' : match_prefix S2.INDEX_RE (m' ++ rest') = Some (m', rest'))
      by (apply match_prefix_spec; auto).
    rewrite <- (index_match_unique _ _ _ _ _ _ E Hm Hm' Hr Hd').
    destruct idx as [|d1 [|d2 [|d3 [|]]]]; try discriminate Hl. reflexivity.
Qed.

(** The test of Sheet_Update_runt_this.py for the name of a report. *)
Lemma S1_is_report_file_spec (name : pystr) :
  S1._is_report_file name = true <-> report_like name.
Proof.
  unfold report_like. split.
  - unfold S1._is_report_file. destruct name as [|c name]; [discriminate|].
    intros H. apply orb_true_iff in H as [H|H].
    + left. apply endswith_spec in H as (b & H).
      unfold lower in H. apply map_eq_app in H as (before & tail & E & _ & Ht).
      exists before, tail. split; assumption.
    + right. change S1.INDEX_RE with S2.INDEX_RE in H.
      destruct (re_search S2.INDEX_RE true (c :: name)) as [m|] eqn:E; [|discriminate].
      assert (Ht : S2.is_target_report_for_index (c :: name) (S2.INDEX_RE_group1 m) = true).
      { unfold S2.is_target_report_for_index. rewrite E. now apply bool_decide_eq_true. }
      apply S2_is_target_report_for_index_name in Ht
        as (before & tail & rest & E' & Ht & Hr & Hl & Hd).
      exists (S2.INDEX_RE_group1 m). split; [exact Hl|]. split; [exact Hd|].
      exists before, tail, rest. split; [exact E'|]. split; [exact Ht|].
      now apply at_dollar_rest.
  - assert (Hsuf : forall before tail, report_suffix tail ->
                     S1._is_report_file (before ++ tail) = true).
    { intros before tail Ht. unfold S1._is_report_file.
      destruct (before ++ tail) as [|c n] eqn:E.
      - apply app_eq_nil in E as [_ ->]. discriminate Ht.
      - rewrite <- E. apply orb_true_iff. left. apply endswith_spec.
        exists (lower before). unfold report_suffix, lower in Ht. unfold lower.
        rewrite map_app, Ht. reflexivity. }
    intros [(before & tail & -> & Ht) | (idx & Hl & Hd & before & tail & rest & -> & Ht & [-> | ->])].
    + now apply Hsuf.
    + rewrite app_nil_r.
      replace (before ++ [95] ++ idx ++ tail) with ((before ++ [95] ++ idx) ++ tail)
        by (rewrite <- !app_assoc; reflexivity).
      now apply Hsuf.
    + assert (Hm : match_prefix S2.INDEX_RE (([95] ++ idx ++ tail) ++ [10])
                   = Some ([95] ++ idx ++ tail, [10])).
      { apply index_match. exists idx, tail. auto. }
      destruct (re_search_finds S2.INDEX_RE before _ _ _ Hm eq_refl) as (m' & Hs).
      unfold S1._is_report_file. change S1.INDEX_RE with S2.INDEX_RE.
      replace (before ++ [95] ++ idx ++ tail ++ [10])
        with (before ++ ([95] ++ idx ++ tail) ++ [10]) in *
        by (rewrite <- !app_assoc; reflexivity).
      rewrite Hs.
      destruct (before ++ ([95] ++ idx ++ tail) ++ [10]) eqn:E.
      * apply app_eq_nil in E as [_ E]. discriminate E.
      * apply orb_true_r.
Qed.

Lemma has_report_holds_file (svc : DriveService) (folder_id : pystr) :
  has_report svc folder_id <-> holds_file (S1.list_children svc) report_like 6 folder_id.
Proof.
  unfold has_report, holds_file, file_within, file_below.
  split; intros (x & k & g & Hk & Hr & Hin & Hf & Ht); exists x, k, g;
    repeat (split; [assumption|]); now apply S1_is_report_file_spec.
Qed.

(** C3. For a target index of three digits, [find_report_file_by_index]
    collects exactly the entries that are not folders, lie in the folder
    or at most two levels of folders below it, and whose name carries the
    target index: the name ends with an underscore, the three digits of
    the index and _123_Report.txt in any letter case (one final newline
    may follow).  It returns None exactly when there is none, and
    otherwise one of them whose name is greatest in the order of
    strings. *)
Theorem C3_find_report_file_by_index (svc : DriveService) (folder_id idx : pystr) :
  length idx = 3%nat ->
  Forall (fun c => is_ascii_digit c = true) idx ->
  let matching := file_below (S2.list_children svc) (report_name_for idx) 2 folder_id in
  exists r,
    S2.find_report_file_by_index svc folder_id idx = inl r
    /\ (r = None <-> forall x, ~ matching x)
    /\ (forall i n,
          r = Some (i, n) ->
          (exists x, matching x /\ DriveFile.id x = i /\ DriveFile.name x = n)
          /\ forall y, matching y -> str_leb (DriveFile.name y) n = true).
Proof.
  intros Hl Hd matching.
  destruct (three_digits_roundtrip idx Hl Hd) as (n & Hint & Hfmt).
  assert (Hdec : Forall (fun c => isdecimal c = true) idx).
  { eapply List.Forall_impl; [|exact Hd]. apply ascii_digit_decimal. }
  unfold S2.find_report_file_by_index. rewrite Hint, Hfmt.
  set (matches := List.filter _ _).
  assert (Hm : forall x, In x matches <-> matching x).
  { intros x. unfold matches, matching, file_below.
    rewrite List.filter_In, S2_list_files_recursive_spec,
      (S2_is_target_report_for_index_spec _ _ Hl Hdec).
    split.
    - intros [(k & g & H1 & H2 & H3 & H4) Ht]. exists k, g. tauto.
    - intros (k & g & H1 & H2 & H3 & H4 & Ht). split; [|exact Ht].
      exists k, g. tauto. }
  clearbody matches.
  destruct matches as [|first rest].
  - exists None. split; [reflexivity|]. split.
    + split; [|reflexivity]. intros _ x Hx. now apply Hm in Hx.
    + discriminate.
  - eexists. split; [reflexivity|]. split.
    + split; [discriminate|]. intros H. exfalso.
      apply (H first), Hm. now left.
    + intros i nm E. injection E as <- <-.
      destruct (sort_by_last DriveFile.name (first :: rest) first) as [H1 H2];
        [discriminate|].
      split.
      * eexists. split; [apply Hm; exact H1|]. split; reflexivity.
      * intros y Hy. apply H2, Hm, Hy.
Qed.

(** In the second campus the folder Remote3 lists X_000_123_Report.txt,
    which carries the index 000: the search for 000 returns a file, which
    carries the index too and whose name is not below that one. *)
Lemma C3_find_report_file_by_index_witness :
  exists i n,
    S2.find_report_file_by_index campus2 (py "r3") (py "000") = inl (Some (i, n))
    /\ report_name_for (py "000") n
    /\ str_leb (py "X_000_123_Report.txt") n = true.
Proof.
  assert (Hx : file_below (S2.list_children campus2) (report_name_for (py "000")) 2 (py "r3")
                 (text_file "x0" "X_000_123_Report.txt")).
  { exists 0%nat, (py "r3"). split; [lia|]. split; [constructor|].
    split; [vm_compute; right; right; left; reflexivity|]. split; [reflexivity|].
    exists (py "X"), (py "_123_Report.txt"), []. split; [reflexivity|].
    split; [reflexivity | left; reflexivity]. }
  assert (Hd : Forall (fun c => is_ascii_digit c = true) (py "000"))
    by (repeat constructor).
  destruct (C3_find_report_file_by_index campus2 (py "r3") (py "000") eq_refl Hd)
    as (r & E & Hnone & Hsome).
  destruct r as [[i n]|].
  - exists i, n. split; [exact E|].
    destruct (Hsome i n eq_refl) as ((y & (k & g & _ & _ & _ & _ & Hy) & _ & <-) & Hmax).
    split; [exact Hy|]. apply (Hmax _ Hx).
  - exfalso. exact (proj1 Hnone eq_refl _ Hx).
Defined.

(** Of the two reports for index 000 the one named Y... is taken. *)
Example find_report_file_by_index_tie :
  S2.find_report_file_by_index campus2 (py "r3") (py "000")
  = inl (Some (py "y0", py "Y_000_123_Report.txt"))
  /\ S2.find_report_file_by_index campus2 (py "r3") (py "001")
     = inl (Some (py "z1", py "Z_001_123_Report.txt"))
  /\ S2.find_report_file_by_index campus2 (py "r3") (py "002") = inl None.
Proof. vm_compute. repeat split. Qed.

(** ** Choice among the folders of a class, by the names of reports *)

(** C1, amended statement.  [choose_class_folder_with_content] takes as
    candidates all the child folders of the parent whose key equals the
    key of the class name, in listing order.  It returns the first
    candidate that holds, in its subtree within six levels of folders, a
    file whose name ends with _123_Report.txt in any letter case, WITH OR
    WITHOUT an index of three digits before it (a name that ends with an
    underscore, such an index, that suffix and one final newline counts
    too); if no candidate holds one it returns the first candidate; it
    returns None exactly when there is no candidate. *)
Theorem C1_choose_class_folder_with_content
    (svc : DriveService) (parent_id class_name : pystr) :
  chooses_first_with_report report_like svc parent_id class_name
    (S1.choose_class_folder_with_content svc parent_id class_name).
Proof.
  unfold chooses_first_with_report. cbv zeta.
  set (candidates := List.filter _ _).
  assert (Hc : S1._list_named_child_folders svc parent_id class_name = candidates)
    by reflexivity.
  assert (Hno : forall l : list DriveFile.t,
             (forall c', In c' l ->
                 ~ holds_file (S1.list_children svc) report_like 6 (DriveFile.id c')) ->
             Forall (fun y => S1._folder_has_any_report svc (DriveFile.id y) = false) l).
  { intros l Hl. apply List.Forall_forall. intros y Hy.
    destruct (S1._folder_has_any_report svc (DriveFile.id y)) eqn:E; [|reflexivity].
    apply S1_folder_has_any_report_spec, has_report_holds_file in E. now apply Hl in E. }
  unfold S1.choose_class_folder_with_content. rewrite Hc. clearbody candidates.
  split; [|split].
  - intros before c after -> Hb Hr.
    rewrite (find_first _ before c after);
      [| now apply Hno | now apply S1_folder_has_any_report_spec, has_report_holds_file].
    destruct before; reflexivity.
  - intros first rest -> Hall.
    now rewrite (find_none_all _ (first :: rest)) by now apply Hno.
  - destruct candidates as [|first rest]; [tauto|].
    split; [|discriminate].
    destruct (List.find _ (first :: rest)); discriminate.
Qed.

(** In the third campus the first folder of the class is chosen, for the
    file notes_123_report.txt that it holds. *)
Lemma C1_choose_class_folder_with_content_witness :
  S1.choose_class_folder_with_content campus3 (py "b1") (py "WPH 400") = Some (py "c1").
Proof.
  apply (proj1 (C1_choose_class_folder_with_content campus3 (py "b1") (py "WPH 400"))
           [] (folder "c1" "WPH 400") [folder "c2" "wph_400"]).
  - vm_compute. reflexivity.
  - intros c' [].
  - exists (text_file "n1" "notes_123_report.txt"), 0%nat, (py "c1").
    split; [lia|]. split; [constructor|].
    split; [vm_compute; left; reflexivity|]. split; [reflexivity|].
    left. exists (py "notes"), (py "_123_report.txt"). split; reflexivity.
Defined.

Lemma notes_not_in_grammar : ~ report_grammar (py "notes_123_report.txt").
Proof.
  intros (before & idx & tail & E & Hl & Hd & Ht).
  unfold report_suffix in Ht.
  assert (Hlen : length tail = 15%nat).
  { apply (f_equal (@length N)) in Ht. unfold lower in Ht.
    rewrite length_map in Ht. exact Ht. }
  assert (Hb : length before = 2%nat).
  { apply (f_equal (@length N)) in E. rewrite !length_app, Hl, Hlen in E.
    cbn in E. lia. }
  destruct before as [|a [|b [|]]]; try discriminate Hb.
  destruct idx as [|x [|y [|z [|]]]]; try discriminate Hl.
  cbn in E. injection E as _ _ <- _.
  apply Forall_inv in Hd. vm_compute in Hd. discriminate Hd.
Qed.

(** C1, counterexample to the statement of the specification: with its
    report grammar, which asks for an index of three digits before
    _123_Report.txt, the first folder of the class in the third campus
    holds no report and the second holds one, so the second should be
    chosen; the code chooses the first. *)
Lemma C1_counterexample :
  ~ chooses_first_with_report report_grammar campus3 (py "b1") (py "WPH 400")
      (S1.choose_class_folder_with_content campus3 (py "b1") (py "WPH 400")).
Proof.
  intros [H _].
  specialize (H [folder "c1" "WPH 400"] (folder "c2" "wph_400") []).
  assert (E : S1.choose_class_folder_with_content campus3 (py "b1") (py "WPH 400")
              = Some (py "c2")).
  { apply H.
    - vm_compute. reflexivity.
    - intros c' [<-|[]] (x & k & g & _ & Hr & Hin & Hf & Hg).
      inversion Hr as [f | k' f ch g' Hch Hchf Hr']; subst.
      + vm_compute in Hin. destruct Hin as [<-|[]]. exact (notes_not_in_grammar Hg).
      + vm_compute in Hch. destruct Hch as [<-|[]]. discriminate Hchf.
    - exists (text_file "r1" "WPH400_003_123_Report.txt"), 0%nat, (py "c2").
      split; [lia|]. split; [constructor|].
      split; [vm_compute; left; reflexivity|]. split; [reflexivity|].
      exists (py "WPH400_"), (py "003"), (py "_123_Report.txt").
      split; [reflexivity|]. split; [reflexivity|].
      split; [repeat constructor | reflexivity]. }
  vm_compute in E. discriminate E.
Qed.

(** In the first campus the empty folder of the class comes first and
    the folder that holds the report for index 003 is chosen. *)
Example choose_class_folder_sample :
  S1.choose_class_folder_with_content campus (py "b1") (py "WPH 400") = Some (py "c2").
Proof. vm_compute. reflexivity. Qed.

(** ** Resolution of the segments of a path (Sheet_Update_runt_this.py) *)

Lemma S1_walk_path_app (svc : DriveService) (fid : pystr) (before after : list pystr) :
  S1.walk_path svc fid (before ++ after) =
  match S1.walk_path svc fid before with
  | Some fid' => S1.walk_path svc fid' after
  | None => None
  end.
Proof.
  revert fid. induction before as [|seg before IH]; intros fid; simpl; [reflexivity|].
  destruct (truthy (S1.resolve_segment svc fid seg)); [apply IH | reflexivity].
Qed.

Lemma S1_alt_spelling (seg : pystr) :
  S1.alt seg =
  if contains_char seg 95
  then map (fun c => if c =? 95 then 32 else c) seg
  else map (fun c => if c =? 32 then 95 else c) seg.
Proof.
  unfold S1.alt. change (py "_") with [95]. change (py " ") with [32].
  now rewrite !replace_char.
Qed.

(** C5. A segment is first looked up as configured; if that fails, the
    one alternate spelling is looked up, with every underscore turned
    into a blank when the segment has an underscore and every blank into
    an underscore otherwise; if both fail the index is given up without
    an exception, nothing is recorded for it, and the loop goes on with
    the next index.  The segment Front_1 is found in a folder whose only
    child is a folder named Front 1. *)
Theorem C5_segment_resolution (svc : DriveService) :
  (forall fid seg,
     truthy (S1.descend_to_folder svc fid seg) = true ->
     S1.resolve_segment svc fid seg = S1.descend_to_folder svc fid seg)
  /\ (forall fid seg,
        truthy (S1.descend_to_folder svc fid seg) = false ->
        S1.resolve_segment svc fid seg = S1.descend_to_folder svc fid (S1.alt seg)
        /\ S1.alt seg =
           if contains_char seg 95
           then map (fun c => if c =? 95 then 32 else c) seg
           else map (fun c => if c =? 32 then 95 else c) seg)
  /\ (forall c_id row idx col before seg after fid rest st,
        S1.INDEX_TO_DRIVE_PATH !! idx = Some (before ++ seg :: after) ->
        S1.walk_path svc c_id before = Some fid ->
        truthy (S1.descend_to_folder svc fid seg) = false ->
        truthy (S1.descend_to_folder svc fid (S1.alt seg)) = false ->
        S1.walk_path svc c_id (before ++ seg :: after) = None
        /\ S1.index_step svc c_id row (idx, col) st = inl st
        /\ S1.index_loop svc c_id row ((idx, col) :: rest) st
           = S1.index_loop svc c_id row rest st)
  /\ (forall fid i,
        S1.list_children svc fid
        = [{| DriveFile.id := i; DriveFile.name := py "Front 1";
              DriveFile.mimeType := FOLDER_MIME |}] ->
        S1.resolve_segment svc fid (py "Front_1") = Some i
        /\ (i <> [] -> forall rest,
              S1.walk_path svc fid (py "Front_1" :: rest) = S1.walk_path svc i rest)).
Proof.
  split; [|split; [|split]].
  - intros fid seg H. unfold S1.resolve_segment. now rewrite H.
  - intros fid seg H. unfold S1.resolve_segment. rewrite H.
    split; [reflexivity | apply S1_alt_spelling].
  - intros c_id row idx col before seg after fid rest st Hpath Hwalk H1 H2.
    assert (Hnone : S1.walk_path svc c_id (before ++ seg :: after) = None).
    { rewrite S1_walk_path_app, Hwalk. cbn [S1.walk_path].
      unfold S1.resolve_segment. rewrite H1, H2. reflexivity. }
    assert (Hstep : S1.index_step svc c_id row (idx, col) st = inl st).
    { unfold S1.index_step. rewrite Hpath, Hnone. reflexivity. }
    split; [exact Hnone|]. split; [exact Hstep|].
    cbn [S1.index_loop]. rewrite Hstep. reflexivity.
  - intros fid i Hls.
    assert (Hd : S1.descend_to_folder svc fid (py "Front_1") = Some i).
    { unfold S1.descend_to_folder. rewrite Hls. vm_compute. reflexivity. }
    assert (Hd' : S1.descend_to_folder svc fid (S1.alt (py "Front_1")) = Some i).
    { unfold S1.descend_to_folder. rewrite Hls. vm_compute. reflexivity. }
    assert (Hr : S1.resolve_segment svc fid (py "Front_1") = Some i).
    { unfold S1.resolve_segment. rewrite Hd, Hd'.
      destruct (truthy (Some i)); reflexivity. }
    split; [exact Hr|].
    intros Hi rest. cbn [S1.walk_path]. rewrite Hr.
    destruct i; [congruence | reflexivity].
Qed.

(** In the sample campus the path of index 001 ends in Front_1 and is
    resolved through the folder Front 1, while index 006 is given up at
    With Audio, which the class folder does not have. *)
Lemma C5_segment_resolution_witness :
  S1.walk_path campus (py "c2") [py "Local"; py "Without Audio"; py "Front_1"]
  = Some (py "k2")
  /\ S1.walk_path campus (py "c2") ([py "Local"] ++ py "With Audio" :: [py "Center"]) = None
  /\ S1.index_step campus (py "c2") 10 (py "006", py "J") run0 = inl run0
  /\ S1.index_loop campus (py "c2") 10 [(py "006", py "J"); (py "003", py "F")] run0
     = S1.index_loop campus (py "c2") 10 [(py "003", py "F")] run0.
Proof.
  split; [vm_compute; reflexivity|].
  apply (proj1 (proj2 (proj2 (C5_segment_resolution campus)))
           (py "c2") 10%Z (py "006") (py "J") [py "Local"] (py "With Audio") [py "Center"]
           (py "l1") [(py "003", py "F")] run0); vm_compute; reflexivity.
Defined.

(** ** The requests of a run (Sheet_Update_runt_this.py) *)

Lemma only_records_refl (st : run) : only_records st st.
Proof. split; reflexivity. Qed.

Lemma only_records_trans (a b c : run) :
  only_records a b -> only_records b c -> only_records a c.
Proof. unfold only_records. intros [] []. split; congruence. Qed.

Lemma only_records_append (u : SheetUpdate) (st : run) :
  only_records st (append_update u st).
Proof. split; reflexivity. Qed.

Lemma S1_index_step_records svc c_id row item st st' :
  S1.index_step svc c_id row item st = inl st' -> only_records st st'.
Proof.
  unfold S1.index_step. destruct item as [idx col].
  destruct (S1.INDEX_TO_DRIVE_PATH !! idx) as [path|]; [|discriminate].
  destruct (negb (truthy (S1.walk_path svc c_id path))).
  { intros H. injection H as <-. apply only_records_refl. }
  destruct (S1.find_report_file svc _) as [[file_id fname]|].
  2: { intros H. injection H as <-. apply only_records_refl. }
  destruct (negb (truthy (Some file_id))).
  { intros H. injection H as <-. apply only_records_refl. }
  destruct (S1.extract_laeq _).
  - intros H. injection H as <-. apply only_records_append.
  - intros H. injection H as <-. apply only_records_refl.
Qed.

Lemma S1_index_loop_records svc c_id row items st :
  only_records st (fst (S1.index_loop svc c_id row items st)).
Proof.
  revert st. induction items as [|item items IH]; intros st; cbn [S1.index_loop].
  - apply only_records_refl.
  - destruct (S1.index_step svc c_id row item st) as [st'|e] eqn:E.
    + eapply only_records_trans; [eapply S1_index_step_records; exact E | apply IH].
    + apply only_records_refl.
Qed.

Lemma S1_index_step_ok svc c_id row item st :
  is_Some (S1.INDEX_TO_DRIVE_PATH !! fst item) ->
  exists st', S1.index_step svc c_id row item st = inl st'.
Proof.
  unfold S1.index_step. destruct item as [idx col]. intros [path Hp].
  cbn [fst] in Hp. rewrite Hp.
  destruct (negb (truthy (S1.walk_path svc c_id path))); [eauto|].
  destruct (S1.find_report_file svc _) as [[file_id fname]|]; [|eauto].
  destruct (negb (truthy (Some file_id))); [eauto|].
  destruct (S1.extract_laeq _); eauto.
Qed.

Lemma S1_index_loop_ok svc c_id row items st :
  Forall (fun item => is_Some (S1.INDEX_TO_DRIVE_PATH !! fst item)) items ->
  snd (S1.index_loop svc c_id row items st) = None.
Proof.
  intros H. revert st. induction H as [|item items Hi _ IH]; intros st; cbn [S1.index_loop].
  - reflexivity.
  - destruct (S1_index_step_ok svc c_id row item st Hi) as [st' ->]. apply IH.
Qed.

(** Every index of INDEX_TO_COL has a path in INDEX_TO_DRIVE_PATH. *)
Lemma S1_index_tables :
  Forall (fun item => is_Some (S1.INDEX_TO_DRIVE_PATH !! fst item)) S1.INDEX_TO_COL.
Proof.
  unfold S1.INDEX_TO_COL.
  repeat (constructor; [eexists; vm_compute; reflexivity|]). constructor.
Qed.

Lemma S1_class_step_records svc class_map class_name st :
  only_records st (fst (S1.class_step svc class_map class_name st)).
Proof.
  unfold S1.class_step.
  destruct (split class_name) as [|building ?]; [apply only_records_refl|].
  destruct (negb (truthy (S1.descend_to_folder svc _ building))); [apply only_records_refl|].
  destruct (negb (truthy (S1.choose_class_folder_with_content svc _ class_name)));
    [apply only_records_refl|].
  destruct (class_map !! _) as [row|]; [|apply only_records_refl].
  destruct (row =? 0)%Z; [apply only_records_refl|].
  apply S1_index_loop_records.
Qed.

Lemma S1_class_step_ok svc class_map class_name st :
  split class_name <> [] ->
  snd (S1.class_step svc class_map class_name st) = None.
Proof.
  unfold S1.class_step. intros Hs.
  destruct (split class_name) as [|building ?]; [congruence|].
  destruct (negb (truthy (S1.descend_to_folder svc _ building))); [reflexivity|].
  destruct (negb (truthy (S1.choose_class_folder_with_content svc _ class_name)));
    [reflexivity|].
  destruct (class_map !! _) as [row|]; [|reflexivity].
  destruct (row =? 0)%Z; [reflexivity|].
  apply S1_index_loop_ok, S1_index_tables.
Qed.

(** The traversal sends no request and prints nothing. *)
Lemma S1_class_loop_records svc class_map classes st :
  only_records st (fst (S1.class_loop svc class_map classes st)).
Proof.
  revert st. induction classes as [|c classes IH]; intros st; cbn [S1.class_loop].
  - apply only_records_refl.
  - pose proof (S1_class_step_records svc class_map c st) as Hc.
    destruct (S1.class_step svc class_map c st) as [st' [e|]]; cbn [fst] in *.
    + exact Hc.
    + eapply only_records_trans; [exact Hc | apply IH].
Qed.

Lemma S1_class_loop_ok svc class_map classes st :
  Forall (fun c => split c <> []) classes ->
  snd (S1.class_loop svc class_map classes st) = None.
Proof.
  intros H. revert st. induction H as [|c classes Hc _ IH]; intros st; cbn [S1.class_loop].
  - reflexivity.
  - pose proof (S1_class_step_ok svc class_map c st Hc) as Hs.
    destruct (S1.class_step svc class_map c st) as [st' [e|]]; cbn [snd] in *.
    + discriminate.
    + apply IH.
Qed.

Lemma writes_call_read (c : sheets_call) (st : run) :
  is_write c = false -> writes (call c st) = writes st.
Proof.
  intros H. unfold writes, call. cbn [calls].
  rewrite List.filter_app. cbn [List.filter]. rewrite H. apply app_nil_r.
Qed.

Lemma writes_print (m : message) (st : run) : writes (print m st) = writes st.
Proof. reflexivity. Qed.

(** Reading the rows sends read requests only, records nothing, and
    fails only by leaving with status 1. *)
Lemma S1_map_sheet_rows_reads svc st :
  let r := S1.map_sheet_rows svc st in
  updates (fst r) = updates st
  /\ writes (fst r) = writes st
  /\ (forall e, snd r = inr e -> e = SystemExit 1)
  /\ (forall m, snd r = inl m -> out (fst r) = out st).
Proof.
  unfold S1.map_sheet_rows.
  destruct (spreadsheets_get svc) as [available|]; cbn [fst snd].
  - destruct (bool_decide (S1.SHEET_NAME ∈ available)); cbn [fst snd].
    + destruct (values_get svc _); cbn [fst snd];
        rewrite ?writes_print, !writes_call_read by reflexivity;
        repeat split; try reflexivity; intros ? [=]; congruence.
    + rewrite ?writes_print, !writes_call_read by reflexivity.
      repeat split; try reflexivity; intros ? [=]; congruence.
  - rewrite ?writes_print, !writes_call_read by reflexivity.
    repeat split; try reflexivity; intros ? [=]; congruence.
Qed.

(** The last statement writes once if there is something to write. *)
Lemma write_updates_once (write : SheetsService -> run -> run * outcome)
    (svc : SheetsService) (st : run) :
  write = S1.write_updates \/ write = S2.write_updates ->
  writes st = [] ->
  one_batched_write (write svc st).
Proof.
  intros Hw Hst.
  assert (write svc st = S1.write_updates svc st) as -> by (destruct Hw; subst; reflexivity).
  unfold S1.write_updates, one_batched_write.
  destruct (updates st) as [|u us] eqn:E; cbn [fst snd].
  - unfold print, writes. cbn. rewrite E. split; [congruence|]. intros _.
    split; [exact Hst|]. intros _. apply in_or_app. right. now left.
  - destruct (values_batchUpdate svc (u :: us)); cbn [fst snd];
      unfold print, call; cbn; rewrite E; (split; [|discriminate]);
      intros _; exists (calls st); split; auto.
Qed.

(** ** The requests of a run (Sheet_update_new_remote.py) *)

Lemma S2_find_report_file_by_index_ok svc folder_id idx :
  is_Some (int idx) ->
  exists r, S2.find_report_file_by_index svc folder_id idx = inl r.
Proof.
  intros [n Hn]. unfold S2.find_report_file_by_index. rewrite Hn.
  destruct (List.filter _ _); eauto.
Qed.

Lemma S2_slm_step_records svc rid row item st st' :
  S2.slm_step svc rid row item st = inl st' -> only_records st st'.
Proof.
  unfold S2.slm_step. destruct item as [idx [col label]].
  destruct (S2.find_report_file_by_index svc rid idx) as [[[file_id fname]|]|e];
    [| intros H; injection H as <-; apply only_records_refl | discriminate].
  destruct (negb (truthy (Some file_id))).
  { intros H. injection H as <-. apply only_records_refl. }
  destruct (negb (truthy (S2.extract_laeq _))).
  - intros H. injection H as <-. apply only_records_refl.
  - intros H. injection H as <-. apply only_records_append.
Qed.

Lemma S2_slm_step_ok svc rid row item st :
  is_Some (int (fst item)) ->
  exists st', S2.slm_step svc rid row item st = inl st'.
Proof.
  unfold S2.slm_step. destruct item as [idx [col label]]. cbn [fst]. intros Hi.
  destruct (S2_find_report_file_by_index_ok svc rid idx Hi) as [r ->].
  destruct r as [[file_id fname]|]; [|eauto].
  destruct (negb (truthy (Some file_id))); [eauto|].
  destruct (negb (truthy (S2.extract_laeq _))); eauto.
Qed.

Lemma S2_slm_loop_records svc rid row items st :
  only_records st (fst (S2.slm_loop svc rid row items st)).
Proof.
  revert st. induction items as [|item items IH]; intros st; cbn [S2.slm_loop].
  - apply only_records_refl.
  - destruct (S2.slm_step svc rid row item st) as [st'|e] eqn:E.
    + eapply only_records_trans; [eapply S2_slm_step_records; exact E | apply IH].
    + apply only_records_refl.
Qed.

Lemma S2_slm_loop_ok svc rid row items st :
  Forall (fun item => is_Some (int (fst item))) items ->
  snd (S2.slm_loop svc rid row items st) = None.
Proof.
  intros H. revert st. induction H as [|item items Hi _ IH]; intros st; cbn [S2.slm_loop].
  - reflexivity.
  - destruct (S2_slm_step_ok svc rid row item st Hi) as [st' ->]. apply IH.
Qed.

Lemma S2_remote_loop_records svc c_id row remotes st :
  only_records st (fst (S2.remote_loop svc c_id row remotes st)).
Proof.
  revert st. induction remotes as [|[remote_name slm_map] remotes IH]; intros st;
    cbn [S2.remote_loop].
  - apply only_records_refl.
  - destruct (negb (truthy _)); [apply IH|].
    pose proof (S2_slm_loop_records svc
                  (default [] (fst <$> S2.descend_to_folder svc c_id remote_name))
                  row slm_map st) as Hs.
    destruct (S2.slm_loop svc _ row slm_map st) as [st' [e|]]; cbn [fst] in *.
    + exact Hs.
    + eapply only_records_trans; [exact Hs | apply IH].
Qed.

Lemma S2_remote_loop_ok svc c_id row remotes st :
  Forall (fun remote => Forall (fun item => is_Some (int (fst item))) (snd remote)) remotes ->
  snd (S2.remote_loop svc c_id row remotes st) = None.
Proof.
  intros H. revert st.
  induction H as [|[remote_name slm_map] remotes Hr _ IH]; intros st; cbn [S2.remote_loop].
  - reflexivity.
  - destruct (negb (truthy _)); [apply IH|].
    pose proof (S2_slm_loop_ok svc
                  (default [] (fst <$> S2.descend_to_folder svc c_id remote_name))
                  row slm_map st Hr) as Hs.
    destruct (S2.slm_loop svc _ row slm_map st) as [st' [e|]]; cbn [snd] in *.
    + discriminate.
    + apply IH.
Qed.

(** Every index of REMOTE_MAP is a numeral. *)
Lemma S2_remote_map_indexes :
  Forall (fun remote => Forall (fun item => is_Some (int (fst item))) (snd remote))
         S2.REMOTE_MAP.
Proof.
  unfold S2.REMOTE_MAP.
  repeat (constructor; [cbn [snd]; repeat (constructor; [eexists; vm_compute; reflexivity|]);
                        constructor|]).
  constructor.
Qed.

Lemma S2_process_one_classroom_records svc bname b_id class_name row st :
  only_records st (fst (S2.process_one_classroom svc bname b_id class_name row st))
  /\ snd (S2.process_one_classroom svc bname b_id class_name row st) = None.
Proof.
  unfold S2.process_one_classroom.
  destruct (negb (truthy _)); [split; [apply only_records_refl | reflexivity]|].
  split; [apply S2_remote_loop_records | apply S2_remote_loop_ok, S2_remote_map_indexes].
Qed.

Lemma S2_target_step_records svc class_map class_name st :
  only_records st (fst (S2.target_step svc class_map class_name st))
  /\ (split class_name <> [] -> snd (S2.target_step svc class_map class_name st) = None).
Proof.
  unfold S2.target_step.
  destruct (class_map !! _) as [row|]; [|split; [apply only_records_refl | reflexivity]].
  destruct (row =? 0)%Z; [split; [apply only_records_refl | reflexivity]|].
  destruct (split class_name) as [|building_token ?];
    [split; [apply only_records_refl | congruence]|].
  destruct (S2.descend_to_folder svc _ building_token) as [[b_id bname]|];
    [|split; [apply only_records_refl | reflexivity]].
  destruct (negb (truthy (Some b_id))); [split; [apply only_records_refl | reflexivity]|].
  split; [|intros _]; apply S2_process_one_classroom_records.
Qed.

Lemma S2_target_loop_records svc class_map classes st :
  only_records st (fst (S2.target_loop svc class_map classes st))
  /\ (Forall (fun c => split c <> []) classes ->
      snd (S2.target_loop svc class_map classes st) = None).
Proof.
  revert st. induction classes as [|c classes IH]; intros st; cbn [S2.target_loop].
  - split; [apply only_records_refl | reflexivity].
  - destruct (S2_target_step_records svc class_map c st) as [Hr Hk].
    destruct (S2.target_step svc class_map c st) as [st' [e|]]; cbn [fst snd] in *.
    + split; [exact Hr|]. intros H. apply Forall_inv in H. now apply Hk in H.
    + destruct (IH st') as [IH1 IH2].
      split; [eapply only_records_trans; eauto|].
      intros H. apply Forall_inv_tail in H. auto.
Qed.

Lemma S2_classroom_loop_records svc class_map bname b_id classrooms st :
  only_records st (fst (S2.classroom_loop svc class_map bname b_id classrooms st))
  /\ snd (S2.classroom_loop svc class_map bname b_id classrooms st) = None.
Proof.
  revert st. induction classrooms as [|c classrooms IH]; intros st;
    cbn [S2.classroom_loop].
  - split; [apply only_records_refl | reflexivity].
  - destruct (negb (is_folder c)); [apply IH|].
    destruct (class_map !! _) as [row|]; [|apply IH].
    destruct (row =? 0)%Z; [apply IH|].
    destruct (S2_process_one_classroom_records svc bname b_id (DriveFile.name c) row st)
      as [Hr Hk].
    destruct (S2.process_one_classroom svc bname b_id (DriveFile.name c) row st)
      as [st' [e|]]; cbn [fst snd] in *; [discriminate|].
    destruct (IH st') as [IH1 IH2].
    split; [eapply only_records_trans; eauto | exact IH2].
Qed.

Lemma S2_building_loop_records svc class_map buildings st :
  only_records st (fst (S2.building_loop svc class_map buildings st))
  /\ snd (S2.building_loop svc class_map buildings st) = None.
Proof.
  revert st. induction buildings as [|b buildings IH]; intros st; cbn [S2.building_loop].
  - split; [apply only_records_refl | reflexivity].
  - destruct (negb (is_folder b)); [apply IH|].
    destruct (S2_classroom_loop_records svc class_map (DriveFile.name b) (DriveFile.id b)
                (S2.list_children svc (DriveFile.id b)) st) as [Hr Hk].
    destruct (S2.classroom_loop svc class_map _ _ _ st) as [st' [e|]];
      cbn [fst snd] in *; [discriminate|].
    destruct (IH st') as [IH1 IH2].
    split; [eapply only_records_trans; eauto | exact IH2].
Qed.

Lemma S2_map_sheet_rows_reads svc st :
  let r := S2.map_sheet_rows svc st in
  updates (fst r) = updates st
  /\ writes (fst r) = writes st
  /\ (forall e, snd r = inr e -> e = SystemExit 1)
  /\ (forall m, snd r = inl m -> out (fst r) = out st).
Proof.
  unfold S2.map_sheet_rows.
  destruct (values_get svc _); cbn [fst snd];
    rewrite ?writes_print, !writes_call_read by reflexivity;
    repeat split; try reflexivity; intros ? [=]; congruence.
Qed.

(** ** One batched write per run *)

Lemma only_records_writes (st st' : run) :
  only_records st st' -> writes st' = writes st.
Proof. unfold writes. intros [-> _]. reflexivity. Qed.

Lemma raised_no_write (st : run) (e : exn) :
  updates st = [] -> writes st = [] -> one_batched_write (st, Raised e).
Proof.
  intros Hu Hw. unfold one_batched_write. cbn [fst snd]. split.
  - congruence.
  - intros _. split; [exact Hw | discriminate].
Qed.

Lemma S1_main_one_write (drive : DriveService) (sheets : SheetsService) :
  one_batched_write (S1.main drive sheets).
Proof.
  unfold S1.main.
  destruct (S1_map_sheet_rows_reads sheets run0) as (Hu & Hw & He & _).
  destruct (S1.map_sheet_rows sheets run0) as [st [class_map|e]]; cbn [fst snd] in *.
  - pose proof (S1_class_loop_records drive class_map S1.TARGET_CLASSES st) as Hr.
    pose proof (S1_class_loop_ok drive class_map S1.TARGET_CLASSES st) as Hk.
    destruct (S1.class_loop drive class_map S1.TARGET_CLASSES st) as [st' [e|]];
      cbn [fst snd] in *.
    + exfalso. enough (Some e = None) by discriminate. apply Hk.
      unfold S1.TARGET_CLASSES. repeat constructor; vm_compute; discriminate.
    + apply (write_updates_once S1.write_updates); [now left|].
      rewrite (only_records_writes _ _ Hr). exact Hw.
  - apply raised_no_write; assumption.
Qed.

Lemma S2_main_on_one_write (targets : list pystr) (drive : DriveService)
    (sheets : SheetsService) :
  Forall (fun c => split c <> []) targets ->
  one_batched_write (S2.main_on targets drive sheets).
Proof.
  intros Ht. unfold S2.main_on.
  destruct (S2_map_sheet_rows_reads sheets run0) as (Hu & Hw & He & _).
  destruct (S2.map_sheet_rows sheets run0) as [st [class_map|e]]; cbn [fst snd] in *.
  - assert (Hloop :
      exists st', only_records st st'
        /\ match targets with
           | _ :: _ => S2.target_loop drive class_map targets st
           | [] => S2.building_loop drive class_map
                     (S2.list_children drive S2.DRIVE_ROOT_FOLDER_ID) st
           end = (st', None)).
    { destruct targets as [|c targets].
      - destruct (S2_building_loop_records drive class_map
                    (S2.list_children drive S2.DRIVE_ROOT_FOLDER_ID) st) as [Hr Hk].
        destruct (S2.building_loop drive class_map _ st) as [st' o]; cbn [fst snd] in *.
        subst o. eauto.
      - destruct (S2_target_loop_records drive class_map (c :: targets) st) as [Hr Hk].
        specialize (Hk Ht).
        destruct (S2.target_loop drive class_map (c :: targets) st) as [st' o];
          cbn [fst snd] in *.
        subst o. eauto. }
    destruct Hloop as (st' & Hr & ->).
    apply (write_updates_once S2.write_updates); [now right|].
    rewrite (only_records_writes _ _ Hr). exact Hw.
  - apply raised_no_write; assumption.
Qed.

(** C6. In a run of either sheet updater the traversal only records
    updates: it sends no request to the spreadsheet.  If updates were
    recorded the requests of the run end with one batchUpdate carrying
    all of them, and no earlier request writes; if none was recorded no
    request writes, and a run that reaches its end prints the notice. *)
Theorem C6_single_batched_write (drive : DriveService) (sheets : SheetsService) :
  one_batched_write (S1.main drive sheets)
  /\ one_batched_write (S2.main drive sheets)
  /\ (forall targets,
        Forall (fun c => split c <> []) targets ->
        one_batched_write (S2.main_on targets drive sheets))
  /\ (forall class_map classes st,
        only_records st (fst (S1.class_loop drive class_map classes st)))
  /\ (forall class_map classes st,
        only_records st (fst (S2.target_loop drive class_map classes st)))
  /\ (forall class_map buildings st,
        only_records st (fst (S2.building_loop drive class_map buildings st))).
Proof.
  split; [apply S1_main_one_write|].
  split; [apply S2_main_on_one_write; repeat constructor; vm_compute; discriminate|].
  split; [intros; now apply S2_main_on_one_write|].
  split; [intros; apply S1_class_loop_records|].
  split; [intros; apply S2_target_loop_records | intros; apply S2_building_loop_records].
Qed.

(** The run on the sample campus: the class of row 10 has one report,
    for index 003 and column F, and the run writes that one cell, once. *)
Lemma C6_single_batched_write_witness :
  one_batched_write (S2.main_on [] campus2 main_sheet2)
  /\ S1.main campus main_sheet
     = ({| updates := [{| range := py "Main Sheet!F10"; values := [[py "42.1"]] |}];
           calls := [SpreadsheetsGet; ValuesGet (py "Main Sheet!A4:A240");
                     ValuesBatchUpdate
                       [{| range := py "Main Sheet!F10"; values := [[py "42.1"]] |}]];
           out := [MsgWrote 1] |}, Completed).
Proof.
  split.
  - apply (proj1 (proj2 (proj2 (C6_single_batched_write campus2 main_sheet2))) []).
    constructor.
  - vm_compute. reflexivity.
Defined.

Example S2_main_sample :
  S2.main campus2 main_sheet2
  = ({| updates := [{| range := py "Main Sheet!Z5"; values := [[py "50.2"]] |};
                    {| range := py "Main Sheet!AA5"; values := [[py "48.9"]] |}];
        calls := [ValuesGet (py "Main Sheet!A4:A240");
                  ValuesBatchUpdate
                    [{| range := py "Main Sheet!Z5"; values := [[py "50.2"]] |};
                     {| range := py "Main Sheet!AA5"; values := [[py "48.9"]] |}]];
        out := [MsgWrote 2] |}, Completed)
  /\ S2.main_on [] campus2 main_sheet2 = S2.main campus2 main_sheet2.
Proof. split; vm_compute; reflexivity. Qed.

(** ** A missing tab *)

(** C7. When the configured tab is not among the tabs of the
    spreadsheet, the run ends with exit status 1 and has sent no write
    request.  Sheet_Update_runt_this.py sees it in the titles that the
    spreadsheet reports (or fails to report); Sheet_update_new_remote.py,
    which asks for no titles, sees it when the service refuses the range
    of the unknown tab. *)
Theorem C7_missing_tab_exits_before_write
    (drive : DriveService) (sheets : SheetsService) (tabs : list pystr) :
  (S1.SHEET_NAME ∉ tabs ->
   spreadsheets_get sheets = None \/ spreadsheets_get sheets = Some tabs ->
   exists st,
     S1.main drive sheets = (st, Raised (SystemExit 1))
     /\ writes st = [] /\ updates st = [])
  /\ (S2.SHEET_NAME ∉ tabs ->
      rejects_unknown_tab sheets tabs ->
      forall targets,
      exists st,
        S2.main_on targets drive sheets = (st, Raised (SystemExit 1))
        /\ writes st = [] /\ updates st = [])
  /\ exit_status (Raised (SystemExit 1)) = 1%Z.
Proof.
  split; [|split; [|reflexivity]].
  - intros Hno Hget. unfold S1.main.
    destruct (S1_map_sheet_rows_reads sheets run0) as (Hu & Hw & He & _).
    assert (Hexit : exists st, S1.map_sheet_rows sheets run0 = (st, inr (SystemExit 1))).
    { unfold S1.map_sheet_rows. destruct Hget as [-> | ->]; [eauto|].
      rewrite bool_decide_eq_false_2 by exact Hno. eauto. }
    destruct Hexit as [st Hst]. rewrite Hst in *. cbn [fst snd] in *.
    exists st. auto.
  - intros Hno Hrej targets. unfold S2.main_on.
    destruct (S2_map_sheet_rows_reads sheets run0) as (Hu & Hw & He & _).
    assert (Hexit : exists st, S2.map_sheet_rows sheets run0 = (st, inr (SystemExit 1))).
    { unfold S2.map_sheet_rows.
      change (S2.SHEET_NAME ++ py "!A4:A240") with (S2.SHEET_NAME ++ py "!" ++ py "A4:A240").
      rewrite (Hrej _ _ Hno). eauto. }
    destruct Hexit as [st Hst]. rewrite Hst in *. cbn [fst snd] in *.
    exists st. auto.
Qed.

Lemma other_sheet_rejects : rejects_unknown_tab other_sheet [py "Sheet1"].
Proof.
  intros tab cells Hnot. cbn [values_get other_sheet].
  case_bool_decide as E; [|reflexivity].
  exfalso. apply Hnot.
  do 15 (destruct tab as [|? tab];
        [vm_compute in E; simplify_eq; try (apply list_elem_of_singleton; reflexivity)|]).
  vm_compute in E. simplify_eq.
Qed.

Lemma C7_missing_tab_exits_before_write_witness :
  (exists st,
     S1.main campus other_sheet = (st, Raised (SystemExit 1))
     /\ writes st = [] /\ updates st = [])
  /\ (exists st,
        S2.main_on [] campus2 other_sheet = (st, Raised (SystemExit 1))
        /\ writes st = [] /\ updates st = []).
Proof.
  assert (Hno : py "Main Sheet" ∉ [py "Sheet1"]).
  { intros H. apply list_elem_of_singleton in H. vm_compute in H. discriminate H. }
  split.
  - apply (proj1 (C7_missing_tab_exits_before_write campus other_sheet [py "Sheet1"]));
      [exact Hno | right; reflexivity].
  - apply (proj1 (proj2 (C7_missing_tab_exits_before_write campus2 other_sheet
                           [py "Sheet1"])));
      [exact Hno | exact other_sheet_rejects].
Defined.

(** ** Resolution of a path by the uploader (drive_upload_run_this.py) *)

Section Upload.
Context {R : Type} (service : FolderService R).

Lemma find_or_create_hit (name parent_id fid : pystr) (w : world R) :
  _folder_cache w !! (parent_id, name) = Some fid ->
  U1.find_or_create_folder service name parent_id w = (fid, w).
Proof. intros H. unfold U1.find_or_create_folder. now rewrite H. Qed.

Lemma find_or_create_caches (name parent_id fid : pystr) (w w' : world R) :
  U1.find_or_create_folder service name parent_id w = (fid, w') ->
  _folder_cache w' !! (parent_id, name) = Some fid
  /\ _folder_cache w ⊆ _folder_cache w'.
Proof.
  unfold U1.find_or_create_folder.
  destruct (_folder_cache w !! (parent_id, name)) as [fid0|] eqn:E.
  - intros H. injection H as <- <-. auto.
  - destruct (files_list service (remote w) name parent_id) as [|fid0 others].
    + destruct (files_create service (remote w) name parent_id) as [fid0 r'].
      intros H. injection H as <- <-. cbn [_folder_cache].
      split; [apply lookup_insert_eq | now apply insert_subseteq].
    + intros H. injection H as <- <-. cbn [_folder_cache].
      split; [apply lookup_insert_eq | now apply insert_subseteq].
Qed.

Lemma resolve_from_again (segments : list pystr) (parent fid : pystr) (w w' : world R) :
  U1.resolve_from service parent segments w = (fid, w') ->
  _folder_cache w ⊆ _folder_cache w'
  /\ forall w'' : world R,
       _folder_cache w' ⊆ _folder_cache w'' ->
       U1.resolve_from service parent segments w'' = (fid, w'').
Proof.
  revert parent w. induction segments as [|seg rest IH]; intros parent w; cbn [U1.resolve_from].
  - intros H. injection H as <- <-. split; [reflexivity|]. reflexivity.
  - destruct (U1.find_or_create_folder service seg parent w) as [p1 w1] eqn:E1.
    intros H. destruct (IH _ _ H) as [Hsub Hagain].
    destruct (find_or_create_caches _ _ _ _ _ E1) as [Hhit Hsub1].
    split; [etrans; eassumption|].
    intros w'' Hw''.
    rewrite (find_or_create_hit seg parent p1 w'').
    + now apply Hagain.
    + eapply lookup_weaken; [exact Hhit|]. etrans; eassumption.
Qed.

End Upload.

(** C8. The cache only grows during a run, and resolving a path again,
    at any later point of the run, returns the same folder id and leaves
    the remote, the cache and the list of requests as they are: no
    request is sent, hence no create request; so does looking up one
    folder a second time.  When a folder of that name already exists
    under the parent, the first lookup returns the id the listing gives
    first and creates nothing.  A create request is sent only after a
    miss in the cache and an empty listing. *)
Theorem C8_resolve_drive_path_idempotent {R : Type} (service : FolderService R) :
  (forall segments w fid w',
     U1.resolve_drive_path service segments w = (fid, w') ->
     forall w'' : world R,
       _folder_cache w' ⊆ _folder_cache w'' ->
       U1.resolve_drive_path service segments w'' = (fid, w''))
  /\ (forall name parent_id w fid w',
        U1.find_or_create_folder service name parent_id w = (fid, w') ->
        _folder_cache w ⊆ _folder_cache w'
        /\ U1.find_or_create_folder service name parent_id w' = (fid, w'))
  /\ (forall name parent_id w fid others,
        _folder_cache w !! (parent_id, name) = None ->
        files_list service (remote w) name parent_id = fid :: others ->
        exists w',
          U1.find_or_create_folder service name parent_id w = (fid, w')
          /\ remote w' = remote w /\ creates w' = creates w)
  /\ (forall name parent_id w,
        creates (snd (U1.find_or_create_folder service name parent_id w)) <> creates w ->
        _folder_cache w !! (parent_id, name) = None
        /\ files_list service (remote w) name parent_id = []
        /\ requests (snd (U1.find_or_create_folder service name parent_id w))
           = requests w ++ [FilesList name parent_id; FilesCreate name parent_id]).
Proof.
  split; [|split; [|split]].
  - intros segments w fid w' H. unfold U1.resolve_drive_path in *.
    destruct (resolve_from_again service _ _ _ _ _ H) as [_ Hagain].
    exact Hagain.
  - intros name parent_id w fid w' H.
    destruct (find_or_create_caches service _ _ _ _ _ H) as [Hhit Hsub].
    split; [exact Hsub | now apply find_or_create_hit].
  - intros name parent_id w fid others Hc Hl.
    unfold U1.find_or_create_folder. rewrite Hc, Hl.
    eexists. split; [reflexivity|]. split; [reflexivity|].
    unfold creates. cbn [requests]. rewrite List.filter_app. cbn [List.filter is_create].
    now rewrite app_nil_r.
  - intros name parent_id w. unfold U1.find_or_create_folder.
    destruct (_folder_cache w !! (parent_id, name)) as [fid0|]; [cbn [snd]; congruence|].
    destruct (files_list service (remote w) name parent_id) as [|fid0 others].
    + destruct (files_create service (remote w) name parent_id) as [fid0 r'].
      cbn [snd requests]. intros _. rewrite <- app_assoc. auto.
    + cbn [snd]. unfold creates. cbn [requests].
      rewrite List.filter_app. cbn [List.filter is_create]. rewrite app_nil_r. congruence.
Qed.

(** On the sample remote the path KAP / KAP 113 reuses the building,
    creates the class folder once, and resolves to it again at no cost. *)
Lemma C8_resolve_drive_path_idempotent_witness :
  let w1 := snd (U1.resolve_drive_path shelf [py "KAP"; py "KAP 113"] shelf0) in
  U1.resolve_drive_path shelf [py "KAP"; py "KAP 113"] shelf0 = (py "f1", w1)
  /\ U1.resolve_drive_path shelf [py "KAP"; py "KAP 113"] w1 = (py "f1", w1)
  /\ requests w1
     = [FilesList (py "KAP") U1.DRIVE_ROOT_FOLDER_ID;
        FilesList (py "KAP 113") (py "kap");
        FilesCreate (py "KAP 113") (py "kap")]
  /\ exists w',
       U1.find_or_create_folder shelf (py "KAP") U1.DRIVE_ROOT_FOLDER_ID shelf0
       = (py "kap", w')
       /\ remote w' = remote shelf0 /\ creates w' = creates shelf0.
Proof.
  intros w1.
  assert (H1 : U1.resolve_drive_path shelf [py "KAP"; py "KAP 113"] shelf0 = (py "f1", w1)).
  { unfold w1. vm_compute. reflexivity. }
  split; [exact H1|].
  split; [apply (proj1 (C8_resolve_drive_path_idempotent shelf) _ _ _ _ H1); reflexivity|].
  split; [vm_compute; reflexivity|].
  apply (proj1 (proj2 (proj2 (C8_resolve_drive_path_idempotent shelf)))
           (py "KAP") U1.DRIVE_ROOT_FOLDER_ID shelf0 (py "kap") []);
    vm_compute; reflexivity.
Defined.

(** ** Worked examples *)

(** The keys of some names. *)
Example keyize_samples :
  S1._keyize (Some (py "Front_1")) = py "FRONT1"
  /\ S1._keyize (Some (py "Front 1")) = py "FRONT1"
  /\ S1._keyize (Some (py "Professor's Desk")) = py "PROFESSORSDESK"
  /\ S1._keyize (Some (py "Professor" ++ [8217] ++ py "s Desk")) = py "PROFESSORSDESK"
  /\ S2._keyize (Some (py "Professor" ++ [8217] ++ py "s Desk")) = py "PROFESSORSDESK"
  /\ S2._keyize (Some (py "wph_400")) = py "WPH400".
Proof. vm_compute. repeat split. Qed.

(** Names that are report names, and names that are not. *)
Example is_report_file_samples :
  S1._is_report_file (py "WPH400_003_123_Report.txt") = true
  /\ S1._is_report_file (py "notes_123_REPORT.TXT") = true
  /\ S1._is_report_file (py "x_003_123_Report.txt" ++ [10]) = true
  /\ S1._is_report_file (py "x_003_123_Report.txt.bak") = false
  /\ S2.has_index (py "notes_123_REPORT.TXT") = false
  /\ S2.is_target_report_for_index (py "x_003_123_report.TXT") (py "003") = true
  /\ S2.is_target_report_for_index (py "x_003_123_report.TXT") (py "004") = false.
Proof. vm_compute. repeat split. Qed.

(** The probe lists the folder and the folders down to six levels below
    it; the walk for an index those down to two levels below. *)
Example depth_bounds :
  S1._folder_has_any_report (chain 6) (py "0") = true
  /\ S1._folder_has_any_report (chain 7) (py "0") = false
  /\ S2._folder_has_any_report (chain 6) (py "0") = true
  /\ S2._folder_has_any_report (chain 7) (py "0") = false
  /\ length (S2.list_files_recursive (chain 2) (py "0") 2) = 1%nat
  /\ S2.list_files_recursive (chain 3) (py "0") 2 = [].
Proof. vm_compute. repeat split. Qed.

(** The alternate spelling has the key of the segment in all the
    segments of the table, so it is the first attempt that finds a
    folder spelled the other way. *)
Example alt_samples :
  S1.alt (py "Front_1") = py "Front 1"
  /\ S1.alt (py "Without Audio") = py "Without_Audio"
  /\ S1.descend_to_folder campus (py "w1") (py "Front_1") = Some (py "k2").
Proof. vm_compute. repeat split. Qed.

(** * Part III: further properties *)

(** ** Tokens *)

Lemma split_from_tokens (s cur : pystr) :
  Forall (fun c => isspace c = false) cur ->
  Forall is_token (split_from cur s).
Proof.
  revert cur. induction s as [|c s IH]; intros cur Hcur; cbn [split_from].
  - destruct cur as [|x cur]; [constructor|].
    constructor; [|constructor]. split; [discriminate | exact Hcur].
  - destruct (isspace c) eqn:E.
    + destruct cur as [|x cur]; [apply IH; constructor|].
      constructor; [split; [discriminate | exact Hcur] | apply IH; constructor].
    + apply IH. apply Forall_app. split; [exact Hcur | now repeat constructor].
Qed.

Lemma split_tokens (s : pystr) : Forall is_token (split s).
Proof. apply split_from_tokens. constructor. Qed.

Lemma split_from_nil (s cur : pystr) :
  split_from cur s = [] <-> cur = [] /\ blank s = true.
Proof.
  unfold blank. revert cur. induction s as [|c s IH]; intros cur; cbn [split_from forallb].
  - destruct cur; split; try tauto; try discriminate. intros [H _]. discriminate.
  - destruct (isspace c) eqn:E; cbn [andb].
    + destruct cur as [|x cur].
      * rewrite IH. tauto.
      * split; [discriminate | intros [H _]; discriminate].
    + rewrite IH. split; [intros [H _]; now destruct cur | intros [_ H]; discriminate].
Qed.

(** [s.split()] is empty exactly for a blank string. *)
Lemma split_nil (s : pystr) : split s = [] <-> blank s = true.
Proof. unfold split. rewrite split_from_nil. tauto. Qed.

Lemma token_truthy (t : pystr) : is_token t -> truthy (Some t) = true.
Proof. intros [H _]. now destruct t. Qed.

(** X1. The token that [extract_laeq] returns is not empty and holds no
    white space.  So the test [if not laeq] of Sheet_update_new_remote.py
    skips exactly when the test [laeq is None] of
    Sheet_Update_runt_this.py does: no token that was found is dropped. *)
Theorem X1_extract_laeq_token (text tok : pystr) :
  S1.extract_laeq text = Some tok ->
  is_token tok /\ truthy (S2.extract_laeq text) = true.
Proof.
  intros H.
  assert (Ht : is_token tok).
  { apply extract_laeq_lines_some in H as (before & line & after & _ & _ & _ & Hn).
    apply nth_error_In in Hn.
    exact (proj1 (List.Forall_forall _ _) (split_tokens line) tok Hn). }
  split; [exact Ht|].
  change (S2.extract_laeq text) with (S1.extract_laeq text).
  rewrite H. now apply token_truthy.
Qed.

Lemma X1_extract_laeq_token_witness :
  is_token (py "55.3") /\ truthy (S2.extract_laeq sample_report) = true.
Proof.
  apply (X1_extract_laeq_token sample_report (py "55.3")).
  vm_compute. reflexivity.
Defined.

(** ** Blank class names *)

Lemma space_not_alnum (c : N) : isspace c = true -> is_ascii_alnum c = false.
Proof.
  unfold isspace, is_ascii_alnum, is_ascii_upper, is_ascii_lower, is_ascii_digit.
  intros H.
  destruct ((65 <=? c) && (c <=? 90) || (97 <=? c) && (c <=? 122) || (48 <=? c) && (c <=? 57))
    eqn:E; [exfalso; lia | reflexivity].
Qed.

Lemma S2_keyize_blank (name : pystr) : blank name = true -> S2._keyize (Some name) = [].
Proof.
  rewrite S2_keyize_some. unfold blank, upper.
  induction name as [|c name IH]; cbn [forallb map List.filter]; [reflexivity|].
  intros H. apply andb_true_iff in H as [Hc Hn].
  assert ((c =? 95) = false) as -> by (unfold isspace in Hc; lia).
  rewrite (space_not_alnum c Hc). now apply IH.
Qed.

Lemma S1_class_loop_app svc class_map (before after : list pystr) st :
  S1.class_loop svc class_map (before ++ after) st =
  match S1.class_loop svc class_map before st with
  | (st', None) => S1.class_loop svc class_map after st'
  | (st', Some e) => (st', Some e)
  end.
Proof.
  revert st. induction before as [|c before IH]; intros st; cbn [app S1.class_loop].
  - reflexivity.
  - destruct (S1.class_step svc class_map c st) as [st' [e|]]; [reflexivity | apply IH].
Qed.

Lemma blank_false_split (s : pystr) : blank s = false <-> split s <> [].
Proof.
  rewrite split_nil. destruct (blank s); split; congruence.
Qed.

(** X2. In Sheet_Update_runt_this.py a class name that is empty or all
    white space raises IndexError at [class_name.split()[0]], and no
    other class name makes the loop raise.  The loop over the classes
    stops at the first blank name with the state the classes before it
    left: the classes after it are not visited. *)
Theorem X2_blank_class_name_raises (svc : DriveService) (class_map : gmap pystr Z) :
  (forall name st,
     S1.class_step svc class_map name st
     = if blank name then (st, Some IndexError)
       else (fst (S1.class_step svc class_map name st), None))
  /\ (forall before name after st,
        Forall (fun c => blank c = false) before ->
        blank name = true ->
        S1.class_loop svc class_map (before ++ name :: after) st
        = (fst (S1.class_loop svc class_map before st), Some IndexError)).
Proof.
  assert (Hstep : forall name st,
             S1.class_step svc class_map name st
             = if blank name then (st, Some IndexError)
               else (fst (S1.class_step svc class_map name st), None)).
  { intros name st. destruct (blank name) eqn:E.
    - apply split_nil in E. unfold S1.class_step. now rewrite E.
    - apply blank_false_split in E.
      pose proof (S1_class_step_ok svc class_map name st E) as Hk.
      destruct (S1.class_step svc class_map name st) as [st' o]; cbn [fst snd] in *.
      now subst o. }
  split; [exact Hstep|].
  intros before name after st Hb Hn.
  rewrite S1_class_loop_app.
  assert (Hk : snd (S1.class_loop svc class_map before st) = None).
  { apply S1_class_loop_ok. eapply List.Forall_impl; [|exact Hb].
    intros c Hc. now apply blank_false_split. }
  destruct (S1.class_loop svc class_map before st) as [st' o]; cbn [fst snd] in *.
  subst o. cbn [S1.class_loop]. rewrite (Hstep name st'), Hn. reflexivity.
Qed.

Lemma X2_blank_class_name_raises_witness :
  S1.class_loop campus {[py "WPH400" := 10%Z]}
    ([py "WPH 400"] ++ py "  " :: [py "WPH 603"]) run0
  = (fst (S1.class_loop campus {[py "WPH400" := 10%Z]} [py "WPH 400"] run0),
     Some IndexError).
Proof.
  apply (proj2 (X2_blank_class_name_raises campus {[py "WPH400" := 10%Z]})).
  - repeat constructor.
  - reflexivity.
Defined.

(** X3. In Sheet_update_new_remote.py the row of the class is looked up
    before the name is split, so a target class raises only if its name
    is blank and the sheet has a row under the empty key; the exception
    is then IndexError and the state is left as it was. *)
Theorem X3_target_step_raises (svc : DriveService) (class_map : gmap pystr Z)
    (name : pystr) (st : run) :
  (forall e,
     snd (S2.target_step svc class_map name st) = Some e ->
     e = IndexError /\ blank name = true
     /\ (exists row, class_map !! [] = Some row /\ row <> 0%Z)
     /\ fst (S2.target_step svc class_map name st) = st)
  /\ (blank name = true ->
      forall row, class_map !! [] = Some row -> row <> 0%Z ->
      S2.target_step svc class_map name st = (st, Some IndexError)).
Proof.
  split.
  - intros e He.
    destruct (blank name) eqn:Eb.
    + pose proof (S2_keyize_blank name Eb) as Hkey.
      apply split_nil in Eb.
      unfold S2.target_step in *. rewrite Hkey, Eb in *.
      destruct (class_map !! []) as [row|]; [|discriminate].
      destruct (Z.eqb_spec row 0); [discriminate|].
      cbn [fst snd] in *. injection He as <-.
      repeat split; eauto.
    + apply blank_false_split in Eb.
      rewrite (proj2 (S2_target_step_records svc class_map name st) Eb) in He.
      discriminate.
  - intros Eb row Hrow Hne.
    pose proof (S2_keyize_blank name Eb) as Hkey.
    apply split_nil in Eb.
    unfold S2.target_step. rewrite Hkey, Eb, Hrow.
    destruct (Z.eqb_spec row 0); [contradiction | reflexivity].
Qed.

Lemma X3_target_step_raises_witness :
  S2.target_step campus2 {[([] : pystr) := 7%Z]} (py " ") run0 = (run0, Some IndexError).
Proof.
  apply (proj2 (X3_target_step_raises campus2 {[([] : pystr) := 7%Z]} (py " ") run0)
           eq_refl 7%Z).
  - reflexivity.
  - discriminate.
Defined.

(** ** The rows of the sheet *)

Lemma S1_rows_to_map_enter (idx : Z) (resp : list (list pystr)) (m : gmap pystr Z) :
  S1.rows_to_map idx resp m = enter_rows S1._keyize idx resp m.
Proof.
  revert idx m. induction resp as [|row rest IH]; intros idx m; [reflexivity|].
  cbn [S1.rows_to_map enter_rows]. rewrite IH. f_equal.
  unfold row_key. destruct row as [|cell ?]; [reflexivity|].
  destruct (truthy (Some (strip cell))); reflexivity.
Qed.

Lemma S2_rows_to_map_enter (idx : Z) (resp : list (list pystr)) (m : gmap pystr Z) :
  S2.rows_to_map idx resp m = enter_rows S2._keyize idx resp m.
Proof.
  revert idx m. induction resp as [|row rest IH]; intros idx m; [reflexivity|].
  cbn [S2.rows_to_map enter_rows]. rewrite IH. f_equal.
  unfold row_key. destruct row as [|cell ?]; [reflexivity|].
  destruct (truthy (Some (strip cell))); reflexivity.
Qed.

Section Rows.
Variable keyize : option pystr -> pystr.

Lemma enter_rows_absent (k : pystr) (idx : Z) (resp : list (list pystr)) (m : gmap pystr Z) :
  Forall (fun row => row_key keyize row <> Some k) resp ->
  enter_rows keyize idx resp m !! k = m !! k.
Proof.
  intros H. revert idx m. induction H as [|row rest Hrow _ IH]; intros idx m;
    cbn [enter_rows]; [reflexivity|].
  rewrite IH. destruct (row_key keyize row) as [k'|]; [|reflexivity].
  apply lookup_insert_ne. congruence.
Qed.

Lemma enter_rows_last (k : pystr) (idx : Z) (resp : list (list pystr)) (m : gmap pystr Z)
    (j : nat) (row : list pystr) :
  nth_error resp j = Some row ->
  row_key keyize row = Some k ->
  Forall (fun row' => row_key keyize row' <> Some k) (skipn (S j) resp) ->
  enter_rows keyize idx resp m !! k = Some (idx + Z.of_nat j)%Z.
Proof.
  revert idx m j. induction resp as [|row0 rest IH]; intros idx m j Hj Hk Hlater.
  - destruct j; discriminate.
  - cbn [enter_rows]. destruct j as [|j].
    + cbn in Hj. injection Hj as ->. cbn [skipn] in Hlater.
      rewrite enter_rows_absent by exact Hlater.
      rewrite Hk, lookup_insert_eq. f_equal. lia.
    + cbn in Hj. rewrite (IH _ _ j Hj Hk Hlater). f_equal. lia.
Qed.

Lemma enter_rows_found (k : pystr) (idx i : Z) (resp : list (list pystr)) (m : gmap pystr Z) :
  enter_rows keyize idx resp m !! k = Some i ->
  m !! k = Some i
  \/ exists (j : nat) row,
       i = (idx + Z.of_nat j)%Z /\ nth_error resp j = Some row
       /\ row_key keyize row = Some k.
Proof.
  revert idx m. induction resp as [|row0 rest IH]; intros idx m; cbn [enter_rows].
  - auto.
  - intros H. apply IH in H as [H | (j & row & -> & Hj & Hk)].
    + destruct (row_key keyize row0) as [k'|] eqn:E; [|auto].
      destruct (decide (k' = k)) as [->|Hne].
      * rewrite lookup_insert_eq in H. injection H as <-.
        right. exists 0%nat, row0. repeat split; auto. lia.
      * rewrite lookup_insert_ne in H by exact Hne. auto.
    + right. exists (S j), row. repeat split; auto. lia.
Qed.

End Rows.

(** X4. The row that [map_sheet_rows] gives for a key is that of the
    last row of the range entered under the key: rows are numbered from
    4, a later row with the same key supersedes an earlier one, and a
    key under which no row is entered is absent.  This holds in both
    sheet updaters. *)
Theorem X4_rows_to_map_last_row (resp : list (list pystr)) (k : pystr) :
  (forall (j : nat) row,
     nth_error resp j = Some row ->
     row_key S1._keyize row = Some k ->
     Forall (fun row' => row_key S1._keyize row' <> Some k) (skipn (S j) resp) ->
     S1.rows_to_map 4 resp ∅ !! k = Some (4 + Z.of_nat j)%Z)
  /\ (Forall (fun row => row_key S1._keyize row <> Some k) resp ->
      S1.rows_to_map 4 resp ∅ !! k = None)
  /\ (forall (j : nat) row,
        nth_error resp j = Some row ->
        row_key S2._keyize row = Some k ->
        Forall (fun row' => row_key S2._keyize row' <> Some k) (skipn (S j) resp) ->
        S2.rows_to_map 4 resp ∅ !! k = Some (4 + Z.of_nat j)%Z)
  /\ (Forall (fun row => row_key S2._keyize row <> Some k) resp ->
      S2.rows_to_map 4 resp ∅ !! k = None).
Proof.
  rewrite S1_rows_to_map_enter, S2_rows_to_map_enter.
  split; [|split; [|split]].
  - intros j row. apply enter_rows_last.
  - intros H. now rewrite enter_rows_absent.
  - intros j row. apply enter_rows_last.
  - intros H. now rewrite enter_rows_absent.
Qed.

(** Two rows for the same class: the later one is kept. *)
Lemma X4_rows_to_map_last_row_witness :
  S1.rows_to_map 4 [[py "WPH 400"]; [py ""]; [py " wph_400 "; py "x"]; []] ∅ !! py "WPH400"
  = Some (4 + Z.of_nat 2)%Z.
Proof.
  apply (proj1 (X4_rows_to_map_last_row
                  [[py "WPH 400"]; [py ""]; [py " wph_400 "; py "x"]; []] (py "WPH400"))
           2%nat [py " wph_400 "; py "x"]).
  - reflexivity.
  - vm_compute. reflexivity.
  - repeat constructor. vm_compute. discriminate.
Defined.

(** X5. Every row number that [map_sheet_rows] enters lies from 4 up to
    the end of the range that was read, and belongs to a row whose first
    cell, stripped, is not empty and has that key.  In particular it is
    never 0, so the test [if not row] of [main] skips a class exactly
    when its key is absent from the sheet. *)
Theorem X5_rows_to_map_bounds (resp : list (list pystr)) (k : pystr) (i : Z) :
  (S1.rows_to_map 4 resp ∅ !! k = Some i ->
   (4 <= i < 4 + Z.of_nat (length resp))%Z /\ (i =? 0)%Z = false
   /\ exists row, nth_error resp (Z.to_nat (i - 4)) = Some row
                  /\ row_key S1._keyize row = Some k)
  /\ (S2.rows_to_map 4 resp ∅ !! k = Some i ->
      (4 <= i < 4 + Z.of_nat (length resp))%Z /\ (i =? 0)%Z = false
      /\ exists row, nth_error resp (Z.to_nat (i - 4)) = Some row
                     /\ row_key S2._keyize row = Some k).
Proof.
  rewrite S1_rows_to_map_enter, S2_rows_to_map_enter.
  split; intros H; apply enter_rows_found in H as [H | (j & row & -> & Hj & Hk)];
    try (rewrite lookup_empty in H; discriminate).
  - assert (j < length resp)%nat by (apply nth_error_Some; congruence).
    split; [lia|]. split; [lia|].
    exists row. replace (Z.to_nat (4 + Z.of_nat j - 4)) with j by lia. auto.
  - assert (j < length resp)%nat by (apply nth_error_Some; congruence).
    split; [lia|]. split; [lia|].
    exists row. replace (Z.to_nat (4 + Z.of_nat j - 4)) with j by lia. auto.
Qed.

Lemma X5_rows_to_map_bounds_witness :
  (4 <= 10 < 4 + Z.of_nat 7)%Z /\ (10 =? 0)%Z = false
  /\ exists row,
       nth_error [[py "KAP 113"]; []; [py " "]; [py "SGM 111"]; [py "THH 101"];
                  [py "VKC 100"]; [py "WPH 400"]] (Z.to_nat (10 - 4)) = Some row
       /\ row_key S1._keyize row = Some (py "WPH400").
Proof.
  apply (proj1 (X5_rows_to_map_bounds
                  [[py "KAP 113"]; []; [py " "]; [py "SGM 111"]; [py "THH 101"];
                   [py "VKC 100"]; [py "WPH 400"]] (py "WPH400") 10%Z)).
  vm_compute. reflexivity.
Defined.

(** ** Descent and choice *)

Lemma find_filter_head {A} (f : A -> bool) (l : list A) :
  List.find f l = head (List.filter f l).
Proof.
  induction l as [|x l IH]; cbn [List.find List.filter]; [reflexivity|].
  destruct (f x); [reflexivity | exact IH].
Qed.

(** X6. In Sheet_Update_runt_this.py [descend_to_folder] returns the id
    of the first of the folders that [_list_named_child_folders]
    collects.  [choose_class_folder_with_content] returns None exactly
    when [descend_to_folder] does, returns only the id of a child folder
    of the parent with the key of the class name, and agrees with
    [descend_to_folder] when there is one candidate or when the first
    candidate has a report. *)
Theorem X6_descend_and_choose (svc : DriveService) (parent_id name : pystr) :
  let candidates := S1._list_named_child_folders svc parent_id name in
  S1.descend_to_folder svc parent_id name = DriveFile.id <$> head candidates
  /\ (S1.choose_class_folder_with_content svc parent_id name = None
      <-> S1.descend_to_folder svc parent_id name = None)
  /\ (forall i,
        S1.choose_class_folder_with_content svc parent_id name = Some i ->
        exists c,
          In c (S1.list_children svc parent_id) /\ is_folder c = true
          /\ S1._keyize (Some (DriveFile.name c)) = S1._keyize (Some name)
          /\ DriveFile.id c = i)
  /\ (forall first rest,
        candidates = first :: rest ->
        rest = [] \/ has_report svc (DriveFile.id first) ->
        S1.choose_class_folder_with_content svc parent_id name
        = S1.descend_to_folder svc parent_id name).
Proof.
  intros candidates.
  assert (Hd : S1.descend_to_folder svc parent_id name = DriveFile.id <$> head candidates).
  { unfold S1.descend_to_folder, candidates, S1._list_named_child_folders.
    rewrite find_filter_head. destruct (head _); reflexivity. }
  assert (Hin : forall c, In c candidates ->
             In c (S1.list_children svc parent_id) /\ is_folder c = true
             /\ S1._keyize (Some (DriveFile.name c)) = S1._keyize (Some name)).
  { intros c Hc. unfold candidates, S1._list_named_child_folders in Hc.
    apply List.filter_In in Hc as [Hc Hf]. apply andb_true_iff in Hf as [Hf Hk].
    apply bool_decide_eq_true in Hk. auto. }
  unfold S1.choose_class_folder_with_content. fold candidates. rewrite Hd.
  clearbody candidates.
  split; [reflexivity|]. split; [|split].
  - destruct candidates as [|first rest]; [tauto|].
    cbn [head fmap option_fmap option_map].
    destruct (List.find _ (first :: rest)); split; discriminate.
  - intros i. destruct candidates as [|first rest]; [discriminate|].
    destruct (List.find _ (first :: rest)) as [cand|] eqn:E.
    + intros H. injection H as <-. apply List.find_some in E as [E _].
      exists cand. destruct (Hin cand E) as (H1 & H2 & H3). auto.
    + intros H. injection H as <-.
      exists first. destruct (Hin first (or_introl eq_refl)) as (H1 & H2 & H3). auto.
  - intros first rest -> Hone. cbn [head fmap option_fmap option_map List.find].
    destruct (S1._folder_has_any_report svc (DriveFile.id first)) eqn:E; [reflexivity|].
    destruct Hone as [-> | Hr]; [reflexivity|].
    apply S1_folder_has_any_report_spec in Hr. congruence.
Qed.

Lemma X6_descend_and_choose_witness :
  exists c,
    In c (S1.list_children campus (py "b1")) /\ is_folder c = true
    /\ S1._keyize (Some (DriveFile.name c)) = S1._keyize (Some (py "WPH 400"))
    /\ DriveFile.id c = py "c2".
Proof.
  apply (proj1 (proj2 (proj2 (X6_descend_and_choose campus (py "b1") (py "WPH 400"))))).
  vm_compute. reflexivity.
Defined.

(** ** Spelling of the name asked for *)

Lemma same_name_refl (a : pystr) : same_name a a.
Proof. induction a; constructor; assumption. Qed.

Lemma same_name_alt (seg : pystr) : same_name seg (S1.alt seg).
Proof.
  rewrite S1_alt_spelling. destruct (contains_char seg 95).
  - induction seg as [|c seg IH]; cbn [map]; [constructor|].
    destruct (N.eqb_spec c 95) as [->|_]; now constructor.
  - induction seg as [|c seg IH]; cbn [map]; [constructor|].
    destruct (N.eqb_spec c 32) as [->|_]; now constructor.
Qed.

Lemma occurs_no_comma (s : pystr) :
  Forall (fun c => c <> 44) s -> occurs S1.KEYIZE_OLD s = false.
Proof.
  change S1.KEYIZE_OLD with (44 :: tl S1.KEYIZE_OLD).
  induction 1 as [|c s Hc _ IH]; [reflexivity|].
  cbn [occurs startswith]. rewrite IH.
  destruct (N.eqb_spec 44 c); [congruence | reflexivity].
Qed.

(** The key of Sheet_Update_runt_this.py does not tell apart two names
    without a comma that differ only by case, separator or punctuation. *)
Lemma S1_keyize_same_name (a b : pystr) :
  Forall (fun c => c <> 44) a -> Forall (fun c => c <> 44) b ->
  same_name a b -> S1._keyize (Some a) = S1._keyize (Some b).
Proof.
  intros Ha Hb H.
  rewrite !keyize_agree by now apply occurs_no_comma.
  now apply S2_keyize_same_name.
Qed.

Lemma alt_no_comma (seg : pystr) :
  Forall (fun c => c <> 44) seg -> Forall (fun c => c <> 44) (S1.alt seg).
Proof.
  rewrite S1_alt_spelling. intros H.
  destruct (contains_char seg 95); apply Forall_map;
    (eapply List.Forall_impl; [|exact H]); intros c Hc; cbv beta.
  - destruct (N.eqb_spec c 95); [discriminate | exact Hc].
  - destruct (N.eqb_spec c 32); [discriminate | exact Hc].
Qed.

Lemma S1_descend_key (svc : DriveService) (parent_id a b : pystr) :
  S1._keyize (Some a) = S1._keyize (Some b) ->
  S1.descend_to_folder svc parent_id a = S1.descend_to_folder svc parent_id b
  /\ S1.choose_class_folder_with_content svc parent_id a
     = S1.choose_class_folder_with_content svc parent_id b.
Proof.
  intros H.
  unfold S1.descend_to_folder, S1.choose_class_folder_with_content,
    S1._list_named_child_folders.
  rewrite H. split; reflexivity.
Qed.

Lemma S2_descend_key (svc : DriveService) (parent_id a b : pystr) :
  S2._keyize (Some a) = S2._keyize (Some b) ->
  S2.descend_to_folder svc parent_id a = S2.descend_to_folder svc parent_id b
  /\ S2.choose_class_folder_with_content svc parent_id a
     = S2.choose_class_folder_with_content svc parent_id b.
Proof.
  intros H.
  unfold S2.descend_to_folder, S2.choose_class_folder_with_content,
    S2._list_named_child_folders.
  rewrite H. split; reflexivity.
Qed.

(** X7. The folder found does not depend on how the name asked for is
    spelled: two names that differ only by letter case, by underscore
    versus space or by punctuation give the same result of
    [descend_to_folder] and of [choose_class_folder_with_content], in
    Sheet_update_new_remote.py always and in Sheet_Update_runt_this.py
    when neither name holds a comma. *)
Theorem X7_lookup_insensitive_to_spelling (svc : DriveService) (parent_id a b : pystr) :
  same_name a b ->
  (S2.descend_to_folder svc parent_id a = S2.descend_to_folder svc parent_id b
   /\ S2.choose_class_folder_with_content svc parent_id a
      = S2.choose_class_folder_with_content svc parent_id b)
  /\ (Forall (fun c => c <> 44) a -> Forall (fun c => c <> 44) b ->
      S1.descend_to_folder svc parent_id a = S1.descend_to_folder svc parent_id b
      /\ S1.choose_class_folder_with_content svc parent_id a
         = S1.choose_class_folder_with_content svc parent_id b).
Proof.
  intros H. split.
  - now apply S2_descend_key, S2_keyize_same_name.
  - intros Ha Hb. now apply S1_descend_key, S1_keyize_same_name.
Qed.

Lemma X7_lookup_insensitive_to_spelling_witness :
  S1.descend_to_folder campus (py "b1") (py "WPH_400")
  = S1.descend_to_folder campus (py "b1") (py "wph 400").
Proof.
  refine (proj1 (proj2 (X7_lookup_insensitive_to_spelling campus (py "b1")
                          (py "WPH_400") (py "wph 400") _) _ _)).
  - cbn [py]. repeat first
      [ apply same_nil
      | apply same_underscore_space
      | apply same_case; [left; split; vm_compute; reflexivity|]
      | apply same_char ].
  - repeat constructor; discriminate.
  - repeat constructor; discriminate.
Defined.

(** X8. For a segment without a comma the alternate spelling has the key
    of the segment, so the second attempt of the loop over the segments
    finds what the first attempt found: the result is that of
    [descend_to_folder] on the segment as configured. *)
Theorem X8_alternate_spelling_same_key (svc : DriveService) (fid seg : pystr) :
  Forall (fun c => c <> 44) seg ->
  S1._keyize (Some (S1.alt seg)) = S1._keyize (Some seg)
  /\ S1.descend_to_folder svc fid (S1.alt seg) = S1.descend_to_folder svc fid seg
  /\ S1.resolve_segment svc fid seg = S1.descend_to_folder svc fid seg.
Proof.
  intros H.
  assert (Hk : S1._keyize (Some (S1.alt seg)) = S1._keyize (Some seg)).
  { symmetry. apply S1_keyize_same_name;
      [exact H | now apply alt_no_comma | apply same_name_alt]. }
  assert (Hd : S1.descend_to_folder svc fid (S1.alt seg) = S1.descend_to_folder svc fid seg)
    by now apply S1_descend_key.
  split; [exact Hk|]. split; [exact Hd|].
  unfold S1.resolve_segment. rewrite Hd.
  destruct (truthy _); reflexivity.
Qed.

Lemma X8_alternate_spelling_same_key_witness :
  S1._keyize (Some (S1.alt (py "Back_1"))) = S1._keyize (Some (py "Back_1"))
  /\ S1.descend_to_folder campus (py "w1") (S1.alt (py "Back_1"))
     = S1.descend_to_folder campus (py "w1") (py "Back_1")
  /\ S1.resolve_segment campus (py "w1") (py "Back_1")
     = S1.descend_to_folder campus (py "w1") (py "Back_1").
Proof.
  apply (X8_alternate_spelling_same_key campus (py "w1") (py "Back_1")).
  repeat constructor; discriminate.
Defined.

(** ** The probe of Sheet_update_new_remote.py *)

Lemma S2_probe_children_spec (d : nat) (children : list DriveFile.t)
    (dq : list (pystr * nat)) :
  S2.probe_children d children dq =
  if existsb (fun ch => negb (is_folder ch) && S2.has_index (DriveFile.name ch)) children
  then None
  else Some (dq ++ map (fun ch => (DriveFile.id ch, S d)) (List.filter is_folder children)).
Proof.
  revert dq. induction children as [|ch rest IH]; intros dq;
    cbn [S2.probe_children existsb List.filter map].
  - now rewrite app_nil_r.
  - destruct (is_folder ch) eqn:Ef; cbn [negb andb orb].
    + rewrite IH. destruct (existsb _ rest); [reflexivity|].
      cbn [map]. now rewrite <- app_assoc.
    + destruct (S2.has_index (DriveFile.name ch)); [reflexivity|]. apply IH.
Qed.

Lemma S2_probe_loop_spec (svc : DriveService) (max_depth : nat) (dq : list (pystr * nat)) :
  S2.probe_loop svc max_depth dq =
  existsb (fun it => deep (S2.list_children svc)
                          (fun ch => S2.has_index (DriveFile.name ch))
                          (S max_depth - snd it) (fst it)) dq.
Proof.
  funelim (S2.probe_loop svc max_depth dq).
  - reflexivity.
  - match goal with IH : S2.probe_loop _ _ _ = existsb _ _ |- _ => rewrite IH end.
    match goal with E : (_ <? _)%nat = true |- _ => pose proof (proj1 (Nat.ltb_lt _ _) E) end.
    cbn [existsb fst snd].
    replace (S max_depth - d)%nat with 0%nat by lia. reflexivity.
  - match goal with IH : S2.probe_loop _ _ _ = existsb _ _ |- _ => rewrite IH end.
    match goal with E : (_ <? _)%nat = false |- _ => pose proof (proj1 (Nat.ltb_ge _ _) E) end.
    match goal with
    | E : S2.probe_children _ _ _ = Some _ |- _ => pose proof E as Hp
    end.
    rewrite S2_probe_children_spec in Hp.
    cbn [existsb fst snd].
    replace (S max_depth - d)%nat with (S (max_depth - d)) by lia.
    cbn [deep].
    destruct (existsb _ (S2.list_children svc fid)); [discriminate|].
    injection Hp as <-.
    rewrite existsb_app. cbn [orb]. rewrite orb_comm.
    apply (f_equal2 orb); [|reflexivity].
    rewrite existsb_map. reflexivity.
  - match goal with E : (_ <? _)%nat = false |- _ => pose proof (proj1 (Nat.ltb_ge _ _) E) end.
    match goal with
    | E : S2.probe_children _ _ _ = None |- _ => pose proof E as Hp
    end.
    rewrite S2_probe_children_spec in Hp.
    cbn [existsb fst snd].
    replace (S max_depth - d)%nat with (S (max_depth - d)) by lia.
    cbn [deep].
    destruct (existsb _ (S2.list_children svc fid)); [reflexivity | discriminate].
Qed.

Lemma S2_folder_has_any_report_spec (svc : DriveService) (folder_id : pystr) :
  S2._folder_has_any_report svc folder_id = true <-> has_indexed_report svc folder_id.
Proof.
  unfold S2._folder_has_any_report, has_indexed_report.
  rewrite S2_probe_loop_spec. cbn [existsb fst snd]. rewrite orb_false_r.
  change (7 - 0)%nat with 7%nat. apply deep_file_within.
Qed.

(** A name with an index is a report name for Sheet_Update_runt_this.py. *)
Lemma has_index_is_report (name : pystr) :
  S2.has_index name = true -> S1._is_report_file name = true.
Proof.
  destruct name as [|c name]; [intros H; vm_compute in H; discriminate H|].
  unfold S2.has_index, S1._is_report_file.
  change S2.INDEX_RE with S1.INDEX_RE.
  destruct (re_search S1.INDEX_RE true (c :: name)); [|discriminate].
  intros _. apply orb_true_r.
Qed.

(** X9. The probe of Sheet_update_new_remote.py, whose loop appends to
    the deque while it scans, answers True exactly when a file whose name
    carries an index is listed in the folder or at most six levels of
    folders below it.  Whenever it answers True, so does the probe of
    Sheet_Update_runt_this.py on the same folder. *)
Theorem X9_probe_new_remote (svc : DriveService) (folder_id : pystr) :
  (S2._folder_has_any_report svc folder_id = true <-> has_indexed_report svc folder_id)
  /\ (S2._folder_has_any_report svc folder_id = true ->
      S1._folder_has_any_report svc folder_id = true).
Proof.
  split; [apply S2_folder_has_any_report_spec|].
  intros H. apply S2_folder_has_any_report_spec in H as (x & k & g & Hk & Hr & Hin & Hf & Ht).
  apply S1_folder_has_any_report_spec.
  exists x, k, g. repeat split; auto. now apply has_index_is_report.
Qed.

Lemma X9_probe_new_remote_witness :
  S1._folder_has_any_report campus (py "c2") = true.
Proof.
  apply (proj2 (X9_probe_new_remote campus (py "c2"))).
  vm_compute. reflexivity.
Defined.

(** X10. [choose_class_folder_with_content] of Sheet_update_new_remote.py
    returns the first candidate, in listing order, that has a report
    with an index within six levels; the first candidate if none has;
    and None exactly when no child folder has the key of the class
    name. *)
Theorem X10_choose_new_remote (svc : DriveService) (parent_id class_name : pystr) :
  let candidates :=
    List.filter
      (fun f => is_folder f
                && bool_decide (S2._keyize (Some (DriveFile.name f))
                                = S2._keyize (Some class_name)))
      (S2.list_children svc parent_id) in
  (forall before c after,
     candidates = before ++ c :: after ->
     (forall c', In c' before -> ~ has_indexed_report svc (DriveFile.id c')) ->
     has_indexed_report svc (DriveFile.id c) ->
     S2.choose_class_folder_with_content svc parent_id class_name = Some (DriveFile.id c))
  /\ (forall first rest,
        candidates = first :: rest ->
        (forall c', In c' candidates -> ~ has_indexed_report svc (DriveFile.id c')) ->
        S2.choose_class_folder_with_content svc parent_id class_name
        = Some (DriveFile.id first))
  /\ (S2.choose_class_folder_with_content svc parent_id class_name = None
      <-> candidates = []).
Proof.
  intros candidates.
  assert (Hc : S2._list_named_child_folders svc parent_id class_name = candidates)
    by reflexivity.
  assert (Hno : forall l : list DriveFile.t,
             (forall c', In c' l -> ~ has_indexed_report svc (DriveFile.id c')) ->
             Forall (fun y => S2._folder_has_any_report svc (DriveFile.id y) = false) l).
  { intros l Hl. apply List.Forall_forall. intros y Hy.
    destruct (S2._folder_has_any_report svc (DriveFile.id y)) eqn:E; [|reflexivity].
    apply S2_folder_has_any_report_spec in E. now apply Hl in E. }
  unfold S2.choose_class_folder_with_content. rewrite Hc. clearbody candidates.
  split; [|split].
  - intros before c after -> Hb Hr.
    rewrite (find_first _ before c after);
      [| now apply Hno | now apply S2_folder_has_any_report_spec].
    destruct before; reflexivity.
  - intros first rest -> Hall.
    now rewrite (find_none_all _ (first :: rest)) by now apply Hno.
  - destruct candidates as [|first rest]; [tauto|].
    split; [|discriminate].
    destruct (List.find _ (first :: rest)); discriminate.
Qed.

Lemma X10_choose_new_remote_witness :
  S2.choose_class_folder_with_content campus (py "b1") (py "WPH 400") = Some (py "c2").
Proof.
  apply (proj1 (X10_choose_new_remote campus (py "b1") (py "WPH 400"))
           [folder "c1" "WPH 400"] (folder "c2" "wph_400") []).
  - vm_compute. reflexivity.
  - intros c' [<-|[]] H. apply S2_folder_has_any_report_spec in H.
    vm_compute in H. discriminate H.
  - apply S2_folder_has_any_report_spec. vm_compute. reflexivity.
Defined.

(** ** The report of a folder (Sheet_Update_runt_this.py) *)

Lemma find_some_split {A} (f : A -> bool) (l : list A) (x : A) :
  List.find f l = Some x ->
  exists before after,
    l = before ++ x :: after /\ f x = true /\ Forall (fun y => f y = false) before.
Proof.
  induction l as [|y l IH]; cbn [List.find]; [discriminate|].
  destruct (f y) eqn:E.
  - intros H. injection H as <-. exists [], l. repeat split; auto.
  - intros H. destruct (IH H) as (before & after & -> & Hx & Hb).
    exists (y :: before), after. repeat split; auto.
Qed.

(** X11. [find_report_file] returns the first entry of the folder that
    is not a folder and has a report name; it looks at the entries of the
    folder itself only; it returns (None, None) exactly when there is no
    such entry; and a folder in which it finds a report is a folder for
    which the probe answers True. *)
Theorem X11_find_report_file (svc : DriveService) (folder_id : pystr) :
  (forall i n,
     S1.find_report_file svc folder_id = Some (i, n) ->
     exists before x after,
       S1.list_children svc folder_id = before ++ x :: after
       /\ DriveFile.id x = i /\ DriveFile.name x = n
       /\ is_folder x = false /\ S1._is_report_file n = true
       /\ Forall (fun y => is_folder y = true
                           \/ S1._is_report_file (DriveFile.name y) = false) before)
  /\ (S1.find_report_file svc folder_id = None <->
      Forall (fun y => is_folder y = true
                       \/ S1._is_report_file (DriveFile.name y) = false)
             (S1.list_children svc folder_id))
  /\ (S1.find_report_file svc folder_id <> None ->
      S1._folder_has_any_report svc folder_id = true).
Proof.
  assert (Hneg : forall y : DriveFile.t,
             negb (is_folder y) && S1._is_report_file (DriveFile.name y) = false <->
             is_folder y = true \/ S1._is_report_file (DriveFile.name y) = false).
  { intros y. destruct (is_folder y), (S1._is_report_file (DriveFile.name y));
      cbn; intuition congruence. }
  assert (Hsome : forall i n,
     S1.find_report_file svc folder_id = Some (i, n) ->
     exists before x after,
       S1.list_children svc folder_id = before ++ x :: after
       /\ DriveFile.id x = i /\ DriveFile.name x = n
       /\ is_folder x = false /\ S1._is_report_file n = true
       /\ Forall (fun y => is_folder y = true
                           \/ S1._is_report_file (DriveFile.name y) = false) before).
  { intros i n. unfold S1.find_report_file.
    destruct (List.find _ _) as [x|] eqn:E; [|discriminate].
    intros H. injection H as <- <-.
    apply find_some_split in E as (before & after & Hl & Hx & Hb).
    apply andb_true_iff in Hx as [Hx1 Hx2]. apply negb_true_iff in Hx1.
    exists before, x, after. repeat split; auto.
    eapply List.Forall_impl; [|exact Hb]. intros y. apply Hneg. }
  split; [exact Hsome|]. split.
  - unfold S1.find_report_file.
    destruct (List.find _ _) as [x|] eqn:E.
    + split; [discriminate|]. intros H. exfalso.
      apply List.find_some in E as [Hin Hx].
      pose proof (proj1 (List.Forall_forall _ _) H x Hin) as Hy.
      apply Hneg in Hy. congruence.
    + split; [|reflexivity]. intros _. apply List.Forall_forall. intros y Hy.
      apply Hneg. exact (List.find_none _ _ E y Hy).
  - intros Hne. destruct (S1.find_report_file svc folder_id) as [[i n]|] eqn:E;
      [|congruence].
    destruct (Hsome i n eq_refl) as (before & x & after & Hl & <- & <- & Hf & Hr & _).
    apply S1_folder_has_any_report_spec.
    exists x, 0%nat, folder_id. repeat split; auto; [lia | constructor |].
    rewrite Hl. apply in_or_app. right. now left.
Qed.

Lemma X11_find_report_file_witness :
  S1._folder_has_any_report campus (py "k1") = true.
Proof.
  apply (proj2 (proj2 (X11_find_report_file campus (py "k1")))).
  vm_compute. discriminate.
Defined.

(** ** The report of an index (Sheet_update_new_remote.py) *)

Lemma S2_find_report_file_by_index_target (svc : DriveService) (folder_id idx i n : pystr) :
  S2.find_report_file_by_index svc folder_id idx = inl (Some (i, n)) ->
  exists k x,
    int idx = Some k
    /\ S2.is_target_report_for_index n (format_03d k) = true
    /\ In x (S2.list_files_recursive svc folder_id 2)
    /\ DriveFile.id x = i /\ DriveFile.name x = n.
Proof.
  unfold S2.find_report_file_by_index.
  destruct (int idx) as [k|]; [|discriminate].
  set (matches := List.filter _ _).
  assert (Hm : forall x, In x matches ->
             In x (S2.list_files_recursive svc folder_id 2)
             /\ S2.is_target_report_for_index (DriveFile.name x) (format_03d k) = true).
  { intros x Hx. unfold matches in Hx. now apply List.filter_In in Hx. }
  clearbody matches.
  destruct matches as [|first rest]; [discriminate|].
  intros H. injection H as <- <-.
  destruct (sort_by_last DriveFile.name (first :: rest) first) as [H1 _]; [discriminate|].
  destruct (Hm _ H1) as [Hin Ht].
  exists k. eexists. repeat split; eauto.
Qed.

Lemma is_target_one_index (name idx idx' : pystr) :
  S2.is_target_report_for_index name idx = true ->
  S2.is_target_report_for_index name idx' = true ->
  idx = idx'.
Proof.
  unfold S2.is_target_report_for_index.
  destruct (re_search S2.INDEX_RE true name); [|discriminate].
  intros H H'. apply bool_decide_eq_true in H, H'. congruence.
Qed.

(** X12. The file that [find_report_file_by_index] returns is a file
    listed within two levels of the folder whose name ends with the
    index, written with three digits, and _123_Report.txt.  A name
    carries one index only: the files returned for two different indexes
    have different names, so no report is entered under two indexes. *)
Theorem X12_report_names_carry_their_index
    (svc : DriveService) (folder_id idx i n : pystr) :
  S2.find_report_file_by_index svc folder_id idx = inl (Some (i, n)) ->
  exists k,
    int idx = Some k
    /\ (exists before tail rest,
          n = before ++ [95] ++ format_03d k ++ tail ++ rest
          /\ lower tail = py "_123_report.txt" /\ at_dollar rest = true)
    /\ (exists x,
          file_within (S2.list_children svc) (fun _ => true) 2 folder_id x
          /\ DriveFile.id x = i /\ DriveFile.name x = n)
    /\ forall folder_id' idx' k' i' n',
         int idx' = Some k' ->
         format_03d k' <> format_03d k ->
         S2.find_report_file_by_index svc folder_id' idx' = inl (Some (i', n')) ->
         n' <> n.
Proof.
  intros H.
  apply S2_find_report_file_by_index_target in H as (k & x & Hk & Ht & Hin & Hi & Hn).
  exists k. split; [exact Hk|]. split; [|split].
  - destruct (S2_is_target_report_for_index_name n _ Ht)
      as (before & tail & rest & H1 & H2 & H3 & _).
    exists before, tail, rest. auto.
  - exists x. split; [now apply S2_list_files_recursive_spec | auto].
  - intros folder_id' idx' k' i' n' Hk' Hne H' ->.
    apply S2_find_report_file_by_index_target in H'
      as (k'' & x' & Hk'' & Ht' & _).
    rewrite Hk' in Hk''. injection Hk'' as <-.
    apply Hne. eapply is_target_one_index; eauto.
Qed.

Lemma X12_report_names_carry_their_index_witness :
  exists k,
    int (py "000") = Some k
    /\ (exists before tail rest,
          py "Y_000_123_Report.txt" = before ++ [95] ++ format_03d k ++ tail ++ rest
          /\ lower tail = py "_123_report.txt" /\ at_dollar rest = true)
    /\ (exists x,
          file_within (S2.list_children campus2) (fun _ => true) 2 (py "r3") x
          /\ DriveFile.id x = py "y0" /\ DriveFile.name x = py "Y_000_123_Report.txt")
    /\ forall folder_id' idx' k' i' n',
         int idx' = Some k' ->
         format_03d k' <> format_03d k ->
         S2.find_report_file_by_index campus2 folder_id' idx' = inl (Some (i', n')) ->
         n' <> py "Y_000_123_Report.txt".
Proof.
  apply (X12_report_names_carry_their_index campus2 (py "r3") (py "000") (py "y0")).
  vm_compute. reflexivity.
Defined.

(** [find_report_file_by_index] raises ValueError exactly when the
    index is not a numeral for [int], and raises nothing else; two
    spellings of the same number, such as 1 and 001, give the same
    result. *)
Lemma S2_find_report_file_by_index_number (svc : DriveService) (folder_id idx : pystr) :
  (forall e,
     S2.find_report_file_by_index svc folder_id idx = inr e <->
     e = ValueError /\ int idx = None)
  /\ (forall idx',
        int idx' = int idx ->
        S2.find_report_file_by_index svc folder_id idx'
        = S2.find_report_file_by_index svc folder_id idx).
Proof.
  split.
  - intros e. unfold S2.find_report_file_by_index.
    destruct (int idx) as [k|].
    + destruct (List.filter _ _); split; try discriminate; intros [_ H]; discriminate.
    + split; [intros H; injection H as <-; auto | intros [-> _]; reflexivity].
  - intros idx' H. unfold S2.find_report_file_by_index. now rewrite H.
Qed.

(** ** What a run records *)

Section Grows.
Variables (sheet : pystr) (cols : list pystr).





End Grows.




















(** ** The runs of the uploaders *)

Section FolderRequests.
Context {R : Type} (service : FolderService R).

Lemma find_or_create_tidy (name parent_id : pystr) (w : world R) :
  tidy w -> tidy (snd (U1.find_or_create_folder service name parent_id w)).
Proof.
  intros [Hn Hc]. unfold U1.find_or_create_folder.
  destruct (_folder_cache w !! (parent_id, name)) as [fid|] eqn:E; [split; assumption|].
  assert (Hnew : forall c, request_key c = (parent_id, name) -> ~ c ∈ requests w).
  { intros c Hk Hin. apply list_elem_of_In, Hc in Hin. rewrite Hk, E in Hin.
    destruct Hin; discriminate. }
  destruct (files_list service (remote w) name parent_id) as [|fid l].
  - destruct (files_create service (remote w) name parent_id) as [fid r'].
    unfold tidy. cbn [snd requests _folder_cache]. split.
    + rewrite <- app_assoc. apply NoDup_app. split; [exact Hn|]. split.
      * intros c Hin Hin'. apply list_elem_of_In in Hin'. cbn in Hin'.
        destruct Hin' as [<-|[<-|[]]];
          [exact (Hnew (FilesList name parent_id) eq_refl Hin)
          |exact (Hnew (FilesCreate name parent_id) eq_refl Hin)].
      * cbn. apply NoDup_cons. split; [|apply NoDup_singleton].
        intros H. apply list_elem_of_singleton in H. discriminate.
    + intros c Hin. rewrite !in_app_iff in Hin. apply lookup_insert_is_Some'.
      destruct Hin as [[Hin|[<-|[]]]|[<-|[]]]; [|left; reflexivity..].
      right. apply Hc, Hin.
  - unfold tidy. cbn [snd requests _folder_cache]. split.
    + apply NoDup_app. split; [exact Hn|]. split; [|apply NoDup_singleton].
      intros c Hin Hin'. apply list_elem_of_singleton in Hin'. subst c.
      exact (Hnew (FilesList name parent_id) eq_refl Hin).
    + intros c Hin. rewrite in_app_iff in Hin. apply lookup_insert_is_Some'.
      destruct Hin as [Hin|[<-|[]]]; [|left; reflexivity].
      right. apply Hc, Hin.
Qed.

Lemma resolve_from_tidy (segments : list pystr) (parent : pystr) (w : world R) :
  tidy w -> tidy (snd (U1.resolve_from service parent segments w)).
Proof.
  revert parent w. induction segments as [|seg rest IH]; intros parent w H; [exact H|].
  cbn [U1.resolve_from].
  pose proof (find_or_create_tidy seg parent w H) as H'.
  destruct (U1.find_or_create_folder service seg parent w) as [parent' w'].
  apply IH, H'.
Qed.

Lemma U2m_find_or_create_folder_eq :
  U2m.find_or_create_folder service = U1.find_or_create_folder service.
Proof. reflexivity. Qed.

Lemma U2m_resolve_from_eq :
  U2m.resolve_from service = U1.resolve_from service.
Proof. reflexivity. Qed.

End FolderRequests.

Lemma route_file_index (fname idx : pystr) :
  U2.file_index fname = Some idx ->
  exists n,
    int idx = Some n /\ (0 <= n <= 999)%Z
    /\ U2.route_index_to_folder idx =
       Some (if (n <=? 2)%Z then U2.REMOTE3_NAME
             else if (n <=? 5)%Z then U2.REMOTE4_NAME
             else U2.MICROPHONE_NAME).
Proof.
  intros H. apply file_index_digits in H as [Hl Hd].
  destruct (int_decimal idx) as (n & E & Hn); [now destruct idx | exact Hd |].
  rewrite Hl in Hn. change (10 ^ Z.of_nat 3)%Z with 1000%Z in Hn.
  exists n. split; [exact E|]. split; [lia|].
  unfold U2.route_index_to_folder, U2.route_int. rewrite E.
  destruct (n <=? 2)%Z eqn:E1.
  - replace ((0 <=? n) && true)%Z with true by lia. reflexivity.
  - replace ((0 <=? n) && false)%Z with false by lia.
    destruct (n <=? 5)%Z eqn:E2.
    + replace ((3 <=? n) && true)%Z with true by lia. reflexivity.
    + replace ((3 <=? n) && false)%Z with false by lia.
      replace (5 <? n)%Z with true by lia. reflexivity.
Qed.

Lemma local_table_keys (idx : pystr) :
  is_Some (U1m.INDEX_TO_DRIVE_PATH !! idx) <-> idx ∈ local_indexes.
Proof.
  unfold U1m.INDEX_TO_DRIVE_PATH.
  match goal with
  | |- is_Some (list_to_map ?l !! _) <-> _ =>
      change local_indexes with (l.*1);
      rewrite <- not_eq_None_Some, <- (not_elem_of_list_to_map (M := gmap pystr) l idx)
  end.
  split; [apply dec_stable | intros H H'; exact (H' H)].
Qed.

Lemma local_table_paths (idx : pystr) (path : list pystr) :
  U1m.INDEX_TO_DRIVE_PATH !! idx = Some path -> path <> [].
Proof.
  unfold U1m.INDEX_TO_DRIVE_PATH. intros H.
  apply elem_of_list_to_map_2, list_elem_of_In in H. cbn [In] in H.
  repeat (destruct H as [H|H]; [injection H as _ <-; discriminate|]).
  destruct H.
Qed.

Section UploadRuns.
Context {R : Type} (service : UploadService R).

Lemma upload_world (name folder_id : pystr) (w : world R) (s : upload_run R) :
  _folder_cache (drive_world (upload service name folder_id w s)) = _folder_cache w
  /\ requests (drive_world (upload service name folder_id w s)) = requests w
  /\ uploaded (upload service name folder_id w s) = uploaded s ++ [(name, folder_id)].
Proof.
  unfold upload. destruct (files_upload service (remote w) name folder_id) as [r' ok].
  repeat split.
Qed.

Lemma upload_tidy (name folder_id : pystr) (w : world R) (s : upload_run R) :
  tidy w -> tidy (drive_world (upload service name folder_id w s)).
Proof.
  destruct (upload_world name folder_id w s) as (Hc & Hr & _).
  unfold tidy. rewrite Hc, Hr. exact id.
Qed.

(** *** drive_upload_run_this.py *)

Lemma U1m_file_step_skip (building class_name : pystr) (f : LocalFile) (s : upload_run R) :
  has_local_index f = false -> U1m.file_step service building class_name f s = s.
Proof.
  unfold has_local_index, U1m.file_step, U2.file_index. intros H.
  destruct (is_file f); [|reflexivity]. cbn [negb andb] in H |- *.
  change (re_search U1m.INDEX_RE false (file_name f))
    with (re_search U2.INDEX_RE false (file_name f)).
  destruct (re_search U2.INDEX_RE false (file_name f)) as [m|]; [|reflexivity].
  cbn [fmap option_fmap option_map] in H.
  change (U1m.INDEX_RE_group1 m) with (U2.INDEX_RE_group1 m).
  apply bool_decide_eq_false in H. rewrite <- local_table_keys in H.
  destruct (U1m.INDEX_TO_DRIVE_PATH !! U2.INDEX_RE_group1 m) as [path|]; [|reflexivity].
  exfalso. apply H. eexists. reflexivity.
Qed.

Lemma U1m_file_step_upload (building class_name : pystr) (f : LocalFile) (s : upload_run R) :
  has_local_index f = true ->
  exists idx path,
    U2.file_index (file_name f) = Some idx
    /\ U1m.INDEX_TO_DRIVE_PATH !! idx = Some path
    /\ U1m.file_step service building class_name f s =
       upload service (file_name f)
         (fst (U1.resolve_drive_path (folders service)
                 ([building; class_name] ++ path) (drive_world s)))
         (snd (U1.resolve_drive_path (folders service)
                 ([building; class_name] ++ path) (drive_world s)))
         s.
Proof.
  unfold has_local_index, U1m.file_step, U2.file_index. intros H.
  destruct (is_file f); [|discriminate]. cbn [negb andb] in H |- *.
  change (re_search U1m.INDEX_RE false (file_name f))
    with (re_search U2.INDEX_RE false (file_name f)).
  destruct (re_search U2.INDEX_RE false (file_name f)) as [m|]; [|discriminate].
  cbn [fmap option_fmap option_map] in H |- *.
  change (U1m.INDEX_RE_group1 m) with (U2.INDEX_RE_group1 m).
  apply bool_decide_eq_true in H. rewrite <- local_table_keys in H.
  destruct H as [path E]. exists (U2.INDEX_RE_group1 m), path.
  split; [reflexivity|]. split; [exact E|]. rewrite E.
  pose proof (local_table_paths _ _ E) as Hne.
  destruct path as [|seg path]; [congruence|].
  destruct (U1.resolve_drive_path (folders service) _ (drive_world s)) as [fid w].
  reflexivity.
Qed.

Lemma U1m_file_step_spec (building class_name : pystr) (f : LocalFile) (s : upload_run R) :
  (tidy (drive_world s) ->
   tidy (drive_world (U1m.file_step service building class_name f s)))
  /\ uploaded_names (U1m.file_step service building class_name f s) =
     uploaded_names s ++ (if has_local_index f then [file_name f] else []).
Proof.
  destruct (has_local_index f) eqn:E.
  - destruct (U1m_file_step_upload building class_name f s E) as (idx & path & _ & _ & ->).
    split.
    + intros H. apply upload_tidy. apply resolve_from_tidy, H.
    + unfold uploaded_names.
      rewrite (proj2 (proj2 (upload_world _ _ _ _))), map_app. reflexivity.
  - rewrite (U1m_file_step_skip building class_name f s E), app_nil_r.
    split; [exact id | reflexivity].
Qed.

Lemma U1m_file_loop_spec (building class_name : pystr) (files : list LocalFile)
    (s : upload_run R) :
  (tidy (drive_world s) ->
   tidy (drive_world (U1m.file_loop service building class_name files s)))
  /\ uploaded_names (U1m.file_loop service building class_name files s) =
     uploaded_names s ++ map file_name (List.filter has_local_index files).
Proof.
  unfold U1m.file_loop. revert s.
  induction files as [|f files IH]; intros s; cbn [fold_left List.filter].
  - rewrite app_nil_r. split; [exact id | reflexivity].
  - destruct (IH (U1m.file_step service building class_name f s)) as [Ht Hu].
    destruct (U1m_file_step_spec building class_name f s) as [Ht' Hu'].
    split; [intros H; apply Ht, Ht', H|].
    rewrite Hu, Hu'. destruct (has_local_index f); cbn [map app].
    + rewrite <- app_assoc. reflexivity.
    + rewrite app_nil_r. reflexivity.
Qed.

Lemma U1m_dir_step_blank (class_dir : LocalDir) (s : upload_run R) :
  is_dir class_dir = true ->
  blank (dir_name class_dir) = true ->
  U1m.dir_step service class_dir s = (s, Some IndexError).
Proof.
  intros Hd Hb. unfold U1m.dir_step. rewrite Hd. cbn [negb].
  apply split_nil in Hb. rewrite Hb. reflexivity.
Qed.

Lemma U1m_dir_step_spec (class_dir : LocalDir) (s : upload_run R) :
  (is_dir class_dir = true -> blank (dir_name class_dir) = false) ->
  snd (U1m.dir_step service class_dir s) = None
  /\ (tidy (drive_world s) ->
      tidy (drive_world (fst (U1m.dir_step service class_dir s))))
  /\ uploaded_names (fst (U1m.dir_step service class_dir s)) =
     uploaded_names s
     ++ (if is_dir class_dir
         then map file_name (List.filter has_local_index (dir_files class_dir))
         else []).
Proof.
  intros Hb. unfold U1m.dir_step. destruct (is_dir class_dir); cbn [negb].
  - specialize (Hb eq_refl). apply blank_false_split in Hb.
    destruct (split (dir_name class_dir)) as [|building parts]; [congruence|].
    cbn [fst snd]. split; [reflexivity|]. apply U1m_file_loop_spec.
  - cbn [fst snd]. rewrite app_nil_r. split; [reflexivity|]. split; [exact id | reflexivity].
Qed.

Lemma U1m_dir_loop_spec (dirs : list LocalDir) (s : upload_run R) :
  Forall (fun d => is_dir d = true -> blank (dir_name d) = false) dirs ->
  snd (U1m.dir_loop service dirs s) = None
  /\ (tidy (drive_world s) ->
      tidy (drive_world (fst (U1m.dir_loop service dirs s))))
  /\ uploaded_names (fst (U1m.dir_loop service dirs s)) =
     uploaded_names s
     ++ flat_map (fun d => if is_dir d
                           then map file_name (List.filter has_local_index (dir_files d))
                           else []) dirs.
Proof.
  intros H. revert s. induction H as [|d dirs Hd _ IH]; intros s; cbn [U1m.dir_loop flat_map].
  - rewrite app_nil_r. split; [reflexivity|]. split; [exact id | reflexivity].
  - destruct (U1m_dir_step_spec d s Hd) as (He & Ht & Hu).
    destruct (U1m.dir_step service d s) as [s' [e|]]; [discriminate|].
    cbn [fst snd] in *. destruct (IH s') as (He' & Ht' & Hu').
    split; [exact He'|]. split; [intros H; apply Ht', Ht, H|].
    rewrite Hu', Hu, <- app_assoc. reflexivity.
Qed.

Lemma U1m_dir_loop_app (before after : list LocalDir) (s : upload_run R) :
  snd (U1m.dir_loop service before s) = None ->
  U1m.dir_loop service (before ++ after) s =
  U1m.dir_loop service after (fst (U1m.dir_loop service before s)).
Proof.
  revert s. induction before as [|d before IH]; intros s; cbn [U1m.dir_loop app];
    [reflexivity|].
  destruct (U1m.dir_step service d s) as [s' [e|]]; [discriminate|]. apply IH.
Qed.

Lemma U1m_dir_loop_tidy (dirs : list LocalDir) (s : upload_run R) :
  tidy (drive_world s) -> tidy (drive_world (fst (U1m.dir_loop service dirs s))).
Proof.
  revert s. induction dirs as [|d dirs IH]; intros s H; cbn [U1m.dir_loop]; [exact H|].
  assert (Hs : tidy (drive_world (fst (U1m.dir_step service d s)))).
  { unfold U1m.dir_step. destruct (is_dir d); cbn [negb]; [|exact H].
    destruct (split (dir_name d)); [exact H|].
    cbn [fst]. apply U1m_file_loop_spec, H. }
  destruct (U1m.dir_step service d s) as [s' [e|]]; [exact Hs|].
  apply IH, Hs.
Qed.

(** *** drive_upload_new_remote.py *)

Lemma U2m_file_step_spec (remote3_id remote4_id mic_id : pystr) (f : LocalFile)
    (s : upload_run R) :
  U2m.file_step service remote3_id remote4_id mic_id f s =
  if has_slm_index f
  then upload service (file_name f)
         (folder_for remote3_id remote4_id mic_id (file_name f)) (drive_world s) s
  else s.
Proof.
  unfold U2m.file_step, has_slm_index, folder_for.
  destruct (is_file f); [|reflexivity]. cbn [negb andb].
  destruct (U2.file_index (file_name f)) as [idx|] eqn:E; [|reflexivity].
  destruct (route_file_index _ _ E) as (n & En & _ & ->).
  cbn [mbind option_bind]. rewrite En.
  destruct (n <=? 2)%Z; [reflexivity|].
  destruct (n <=? 5)%Z; reflexivity.
Qed.

Lemma U2m_file_loop_spec (remote3_id remote4_id mic_id : pystr) (files : list LocalFile)
    (s : upload_run R) :
  _folder_cache (drive_world (U2m.file_loop service remote3_id remote4_id mic_id files s))
  = _folder_cache (drive_world s)
  /\ requests (drive_world (U2m.file_loop service remote3_id remote4_id mic_id files s))
     = requests (drive_world s)
  /\ uploaded (U2m.file_loop service remote3_id remote4_id mic_id files s) =
     uploaded s
     ++ map (fun f => (file_name f, folder_for remote3_id remote4_id mic_id (file_name f)))
            (List.filter has_slm_index files).
Proof.
  unfold U2m.file_loop. revert s.
  induction files as [|f files IH]; intros s; cbn [fold_left List.filter].
  - rewrite app_nil_r. repeat split.
  - destruct (IH (U2m.file_step service remote3_id remote4_id mic_id f s)) as (Hc & Hr & Hu).
    rewrite Hc, Hr, Hu, U2m_file_step_spec.
    destruct (has_slm_index f); [|repeat split].
    destruct (upload_world (file_name f)
                (folder_for remote3_id remote4_id mic_id (file_name f))
                (drive_world s) s) as (Hc' & Hr' & Hu').
    rewrite Hc', Hr', Hu', <- app_assoc. repeat split.
Qed.

Lemma U2m_dir_step_spec (class_dir : LocalDir) (s : upload_run R) :
  (tidy (drive_world s) -> tidy (drive_world (U2m.dir_step service class_dir s)))
  /\ uploaded_names (U2m.dir_step service class_dir s) =
     uploaded_names s
     ++ (if is_class_dir class_dir
         then map file_name (List.filter has_slm_index (dir_files class_dir))
         else []).
Proof.
  unfold U2m.dir_step, is_class_dir.
  destruct (is_dir class_dir); cbn [negb andb];
    [|rewrite app_nil_r; split; [exact id | reflexivity]].
  destruct (split (dir_name class_dir)) as [|building parts] eqn:E.
  - apply split_nil in E. rewrite E. cbn [negb]. rewrite app_nil_r.
    split; [exact id | reflexivity].
  - assert (Hb : blank (dir_name class_dir) = false)
      by (apply blank_false_split; congruence).
    rewrite Hb. cbn [negb].
    unfold U2m.resolve_drive_path.
    rewrite U2m_resolve_from_eq, U2m_find_or_create_folder_eq.
    pose proof (resolve_from_tidy (folders service) [building; dir_name class_dir]
                  U2m.DRIVE_ROOT_FOLDER_ID (drive_world s)) as H0.
    destruct (U1.resolve_from (folders service) U2m.DRIVE_ROOT_FOLDER_ID
                [building; dir_name class_dir] (drive_world s)) as [class_folder_id w0].
    pose proof (find_or_create_tidy (folders service) U2.REMOTE3_NAME class_folder_id w0) as H1.
    destruct (U1.find_or_create_folder (folders service) U2.REMOTE3_NAME class_folder_id w0)
      as [remote3_id w1].
    pose proof (find_or_create_tidy (folders service) U2.REMOTE4_NAME class_folder_id w1) as H2.
    destruct (U1.find_or_create_folder (folders service) U2.REMOTE4_NAME class_folder_id w1)
      as [remote4_id w2].
    pose proof (find_or_create_tidy (folders service) U2.MICROPHONE_NAME class_folder_id w2)
      as H3.
    destruct (U1.find_or_create_folder (folders service) U2.MICROPHONE_NAME class_folder_id w2)
      as [mic_id w3].
    cbn [snd] in *.
    destruct (U2m_file_loop_spec remote3_id remote4_id mic_id (dir_files class_dir)
                (U2m.with_world w3 s)) as (Hc & Hr & Hu).
    split.
    + intros H. unfold tidy. rewrite Hc, Hr. apply H3, H2, H1, H0, H.
    + unfold uploaded_names. rewrite Hu, map_app, map_map. reflexivity.
Qed.

Lemma U2m_main_spec (dirs : list LocalDir) (s : upload_run R) :
  (tidy (drive_world s) -> tidy (drive_world (U2m.main service (Some dirs) s)))
  /\ uploaded_names (U2m.main service (Some dirs) s) =
     uploaded_names s
     ++ flat_map (fun d => if is_class_dir d
                           then map file_name (List.filter has_slm_index (dir_files d))
                           else []) dirs.
Proof.
  unfold U2m.main. revert s.
  induction dirs as [|d dirs IH]; intros s; cbn [fold_left flat_map].
  - rewrite app_nil_r. split; [exact id | reflexivity].
  - destruct (IH (U2m.dir_step service d s)) as [Ht Hu].
    destruct (U2m_dir_step_spec d s) as [Ht' Hu'].
    split; [intros H; apply Ht, Ht', H|].
    rewrite Hu, Hu', <- app_assoc. reflexivity.
Qed.

Lemma fresh_tidy (r : R) : tidy (drive_world (fresh r)).
Proof.
  split; [apply NoDup_nil; reflexivity | intros c []].
Qed.

End UploadRuns.

(** X15. In a run of either uploader that starts with an empty cache,
    no folder request is sent to Drive twice: each name under each parent
    is looked up at most once and created at most once, and the folder of
    every request sent is in the cache afterwards, whatever Drive answers
    and whatever the local folder holds. *)
Theorem X15_no_folder_request_twice {R : Type} (service : UploadService R)
    (local : list LocalDir) (r : R) :
  tidy (drive_world (fst (U1m.main service local (fresh r))))
  /\ tidy (drive_world (U2m.main service (Some local) (fresh r))).
Proof.
  split.
  - apply U1m_dir_loop_tidy, fresh_tidy.
  - apply U2m_main_spec, fresh_tidy.
Qed.

(** X16. drive_upload_new_remote.py requests an upload for every regular
    file of a class directory whose name holds an SLM index, once and in
    the order of the listing, and for nothing else: no such file is
    skipped as not recognized.  The parent is Remote3 for the numbers 0
    to 2, Remote4 for 3 to 5 and Microphone above; a directory with a
    blank name is passed over, and the uploads send no folder request. *)
Theorem X16_every_indexed_file_uploaded {R : Type} (service : UploadService R) :
  (forall remote3_id remote4_id mic_id files s,
     uploaded (U2m.file_loop service remote3_id remote4_id mic_id files s) =
     uploaded s
     ++ map (fun f => (file_name f, folder_for remote3_id remote4_id mic_id (file_name f)))
            (List.filter has_slm_index files)
     /\ requests (drive_world (U2m.file_loop service remote3_id remote4_id mic_id files s))
        = requests (drive_world s))
  /\ (forall dirs r,
        uploaded_names (U2m.main service (Some dirs) (fresh r)) =
        flat_map (fun d => if is_class_dir d
                           then map file_name (List.filter has_slm_index (dir_files d))
                           else []) dirs).
Proof.
  split.
  - intros remote3_id remote4_id mic_id files s.
    destruct (U2m_file_loop_spec service remote3_id remote4_id mic_id files s)
      as (_ & Hr & Hu).
    split; assumption.
  - intros dirs r. apply (U2m_main_spec service dirs (fresh r)).
Qed.

(** X17. drive_upload_run_this.py requests an upload for the regular
    files whose index is one of 000 to 018 in ASCII digits, once each and
    in the order of the listing, and for no other file; entries that are
    not directories are passed over.  At the first directory whose name
    is blank it raises IndexError, with the uploads of the directories
    before it done and none after. *)
Theorem X17_local_uploads {R : Type} (service : UploadService R)
    (before after : list LocalDir) (d : LocalDir) (s : upload_run R) :
  Forall (fun d => is_dir d = true -> blank (dir_name d) = false) before ->
  is_dir d = true ->
  blank (dir_name d) = true ->
  (snd (U1m.main service before s) = None
   /\ uploaded_names (fst (U1m.main service before s)) =
      uploaded_names s
      ++ flat_map (fun d => if is_dir d
                            then map file_name (List.filter has_local_index (dir_files d))
                            else []) before)
  /\ U1m.main service (before ++ d :: after) s =
     (fst (U1m.main service before s), Some IndexError).
Proof.
  intros Hb Hd Hn. unfold U1m.main.
  destruct (U1m_dir_loop_spec service before s Hb) as (He & _ & Hu).
  split; [split; assumption|].
  rewrite (U1m_dir_loop_app service before (d :: after) s He).
  cbn [U1m.dir_loop]. rewrite (U1m_dir_step_blank service d _ Hd Hn). reflexivity.
Qed.

Lemma X17_local_uploads_witness :
  (snd (U1m.main shelf_uploads classroom (fresh (remote shelf0))) = None
   /\ uploaded_names (fst (U1m.main shelf_uploads classroom (fresh (remote shelf0)))) =
      uploaded_names (fresh (remote shelf0))
      ++ flat_map (fun d => if is_dir d
                            then map file_name (List.filter has_local_index (dir_files d))
                            else []) classroom)
  /\ U1m.main shelf_uploads (classroom ++ unnamed_dir :: []) (fresh (remote shelf0)) =
     (fst (U1m.main shelf_uploads classroom (fresh (remote shelf0))), Some IndexError).
Proof.
  apply (X17_local_uploads shelf_uploads classroom [] unnamed_dir (fresh (remote shelf0))).
  - repeat constructor; intros; vm_compute; reflexivity.
  - reflexivity.
  - vm_compute. reflexivity.
Defined.

(** ** The uploaders and the sheet updaters *)

Lemma no_comma_check (s : pystr) :
  contains_char s 44 = false -> Forall (fun c => c <> 44) s.
Proof.
  unfold contains_char. induction s as [|c s IH]; cbn [existsb]; [constructor|].
  intros H. apply orb_false_elim in H as [Hc Hs].
  constructor; [|apply IH, Hs].
  intros ->. discriminate.
Qed.

Lemma S1_resolve_segment_key (svc : DriveService) (fid a b : pystr) :
  contains_char a 44 = false -> contains_char b 44 = false ->
  S1._keyize (Some a) = S1._keyize (Some b) ->
  S1.resolve_segment svc fid a = S1.resolve_segment svc fid b.
Proof.
  intros Ha Hb H. apply no_comma_check in Ha, Hb.
  assert (Hk : forall seg, Forall (fun c => c <> 44) seg ->
                 S1.resolve_segment svc fid seg = S1.descend_to_folder svc fid seg).
  { intros seg Hs. unfold S1.resolve_segment.
    assert (Hd : S1.descend_to_folder svc fid (S1.alt seg)
                 = S1.descend_to_folder svc fid seg).
    { apply S1_descend_key. symmetry.
      apply S1_keyize_same_name; [exact Hs | now apply alt_no_comma | apply same_name_alt]. }
    rewrite Hd. destruct (truthy _); reflexivity. }
  rewrite !Hk by assumption. now apply S1_descend_key.
Qed.

Lemma S1_walk_path_key (svc : DriveService) (p p' : list pystr) (fid : pystr) :
  Forall2 (fun a b => contains_char a 44 = false /\ contains_char b 44 = false
                      /\ S1._keyize (Some a) = S1._keyize (Some b)) p p' ->
  S1.walk_path svc fid p = S1.walk_path svc fid p'.
Proof.
  intros H. revert fid. induction H as [|a b p p' (Ha & Hb & Hk) _ IH]; intros fid;
    [reflexivity|].
  cbn [S1.walk_path]. rewrite (S1_resolve_segment_key svc fid a b Ha Hb Hk).
  destruct (truthy _); [apply IH | reflexivity].
Qed.

(** X18. For every index of the uploader's table of paths, the sheet
    updater has a path under the same index whose segments have the same
    keys, so that its walk from any folder ends where a walk along the
    uploader's own path would: the two tables differ in the apostrophe of
    Professor's Desk (curly in the uploader, straight in the updater),
    and the keys do not. *)
Theorem X18_updater_walks_uploaded_paths (idx : pystr) (path : list pystr) :
  U1m.INDEX_TO_DRIVE_PATH !! idx = Some path ->
  exists path',
    S1.INDEX_TO_DRIVE_PATH !! idx = Some path'
    /\ map (fun seg => S1._keyize (Some seg)) path'
       = map (fun seg => S1._keyize (Some seg)) path
    /\ forall svc fid, S1.walk_path svc fid path' = S1.walk_path svc fid path.
Proof.
  unfold U1m.INDEX_TO_DRIVE_PATH. intros H.
  apply elem_of_list_to_map_2, list_elem_of_In in H. cbn [In] in H.
  repeat (destruct H as [H|H];
          [injection H as <- <-;
           match goal with
           | |- exists p, ?T !! ?i = Some p /\ _ =>
               let v := eval vm_compute in (T !! i) in
               match v with Some ?q => exists q end
           end;
           split; [vm_compute; reflexivity|];
           split; [vm_compute; reflexivity|];
           intros svc fid; apply S1_walk_path_key;
           repeat (constructor; [repeat split; vm_compute; reflexivity|]); constructor
          |]).
  destruct H.
Qed.

Lemma X18_updater_walks_uploaded_paths_witness :
  exists path',
    S1.INDEX_TO_DRIVE_PATH !! py "005" = Some path'
    /\ map (fun seg => S1._keyize (Some seg)) path'
       = map (fun seg => S1._keyize (Some seg))
             [py "Local"; py "Without Audio"; U1m.PROFESSORS_DESK]
    /\ forall svc fid,
         S1.walk_path svc fid path'
         = S1.walk_path svc fid [py "Local"; py "Without Audio"; U1m.PROFESSORS_DESK].
Proof.
  apply (X18_updater_walks_uploaded_paths (py "005")).
  vm_compute. reflexivity.
Defined.

(** X19. Every index that Sheet_update_new_remote.py looks for in a
    Remote3 or Remote4 folder is one that drive_upload_new_remote.py
    routes to the folder of that name, and a file with this index is
    uploaded into that folder. *)
Theorem X19_updater_reads_where_uploader_routes
    (remote_name idx fname remote3_id remote4_id mic_id : pystr)
    (slm_map : list (pystr * (pystr * pystr))) (cell : pystr * pystr) :
  In (remote_name, slm_map) S2.REMOTE_MAP ->
  In (idx, cell) slm_map ->
  U2.route_index_to_folder idx = Some remote_name
  /\ (U2.file_index fname = Some idx ->
      folder_for remote3_id remote4_id mic_id fname
      = if bool_decide (remote_name = U2.REMOTE3_NAME) then remote3_id else remote4_id).
Proof.
  unfold S2.REMOTE_MAP. cbn [In]. intros [H|[H|[]]] H'; injection H as <- <-;
    cbn [In] in H'; destruct H' as [H'|[H'|[H'|[]]]]; injection H' as <- <-;
    (split; [vm_compute; reflexivity|]); intros E; unfold folder_for; rewrite E;
    vm_compute; reflexivity.
Qed.

Lemma X19_updater_reads_where_uploader_routes_witness :
  U2.route_index_to_folder (py "004") = Some (py "Remote4")
  /\ (U2.file_index (py "THH101_SLM_004_123_Report.txt") = Some (py "004") ->
      folder_for (py "r3") (py "r4") (py "mic") (py "THH101_SLM_004_123_Report.txt")
      = if bool_decide (py "Remote4" = U2.REMOTE3_NAME) then py "r3" else py "r4").
Proof.
  apply (X19_updater_reads_where_uploader_routes
           (py "Remote4") (py "004") (py "THH101_SLM_004_123_Report.txt")
           (py "r3") (py "r4") (py "mic")
           [ (py "003", (py "AC", py "Left"));
             (py "004", (py "AD", py "Center"));
             (py "005", (py "AE", py "Right")) ]
           (py "AD", py "Center")).
  - vm_compute. right. left. reflexivity.
  - vm_compute. right. left. reflexivity.
Defined.
